(** * ecommerce-ml: the hybrid recommendation engine of the ML service

    A shallow embedding of
      - src/algorithms/collaborative_filtering.py  (module [CollaborativeFiltering])
      - src/algorithms/content_based_filtering.py  (module [ContentBasedFiltering])
      - src/services/recommendation_service.py     (module [RecommendationService])
    together with the few numpy / pandas / scikit-learn primitives these
    files call (module [Py]).

    Conventions.
      - A Python [float] is a real number ([R]): arithmetic is exact, there is
        no NaN inside a matrix and no rounding.  Comparisons are the decidable
        ones of [R], turned into booleans.
      - A numpy 2-D array is a list of rows; arrays built by the code are
        rectangular.
      - A Python [dict] is an association list in insertion order.
      - A method that mutates [self] returns the new object; a method that may
        raise returns the object as the exception leaves it, paired with a
        [result]. *)

From Stdlib Require Import String Ascii List Bool Arith ZArith Reals Lra Lia.
From Stdlib Require Import Sorted Permutation.
Import ListNotations.

Local Open Scope R_scope.

(* ------------------------------------------------------------------ *)
(** * Python, numpy, pandas and scikit-learn primitives                *)
(* ------------------------------------------------------------------ *)

Module Py.

(** Exceptions carry their message. *)
Definition exn := string.

Inductive result (A : Type) : Type :=
| Ok (a : A)
| Raise (e : exn).
Arguments Ok {A} a.
Arguments Raise {A} e.

(** ** Comparisons of floats *)

Definition Rleb (x y : R) : bool := if Rle_dec x y then true else false.
Definition Rltb (x y : R) : bool := if Rlt_dec x y then true else false.

(** ** dict, in insertion order *)

Definition dict (K V : Type) : Type := list (K * V).

Section Dict.
Context {K V : Type} (eqb : K -> K -> bool).

(** [d.get(k)], [k in d], [d[k]] *)
Fixpoint dict_get (d : dict K V) (k : K) : option V :=
  match d with
  | [] => None
  | (k', v) :: d' => if eqb k k' then Some v else dict_get d' k
  end.

Definition dict_in (d : dict K V) (k : K) : bool :=
  match dict_get d k with Some _ => true | None => false end.

(** [d[k] = v]: an existing key keeps its position, a new key goes last. *)
Fixpoint dict_set (d : dict K V) (k : K) (v : V) : dict K V :=
  match d with
  | [] => [(k, v)]
  | (k', v') :: d' =>
      if eqb k k' then (k', v) :: d' else (k', v') :: dict_set d' k v
  end.

(** [{k: v for (k, v) in l}] *)
Definition dict_of (l : list (K * V)) : dict K V :=
  fold_left (fun d kv => dict_set d (fst kv) (snd kv)) l [].

Definition dict_keys (d : dict K V) : list K := map fst d.
Definition dict_values (d : dict K V) : list V := map snd d.
End Dict.

(** ** Slices and enumeration *)

(** [l[::-1]] *)
Definition reversed {A} (l : list A) : list A := rev l.
(** A slice bound, as Python normalises it: a negative bound counts from
    the end, and every bound is clamped to the list. *)
Definition clamp_index (len : nat) (i : Z) : nat :=
  if (i <? 0)%Z then Z.to_nat (Z.max 0 (Z.of_nat len + i))
  else Nat.min (Z.to_nat i) len.
(** [l[a:b]] *)
Definition slice {A} (a b : Z) (l : list A) : list A :=
  let a' := clamp_index (length l) a in
  let b' := clamp_index (length l) b in
  firstn (b' - a') (skipn a' l).
(** [l[:n]] *)
Definition take {A} (n : Z) (l : list A) : list A := slice 0 n l.
(** [(b, a) for (a, b) in ...] *)
Definition swap {A B} (p : A * B) : B * A := (snd p, fst p).
(** [enumerate(l)] *)
Definition enumerate {A} (l : list A) : list (nat * A) := combine (seq 0 (length l)) l.

(** ** Stable sorting

    [insert_by] puts [x] in front of the first element that is not before it;
    sorting a list from the right by [insert_by] is the stable insertion sort.
      - [np.argsort(v)] sorts the positions of [v] by ascending value.  Its
        default kind promises no order between the positions of equal
        values; the model takes the order of the insertion sort numpy runs
        on short arrays (increasing positions), so the order of equal values
        is the model's choice and is only the program's on such arrays;
      - [sorted(l, key=k, reverse=True)] sorts by descending key and keeps
        the original order of elements with equal keys. *)

Fixpoint insert_by {A} (le : A -> A -> bool) (x : A) (l : list A) : list A :=
  match l with
  | [] => [x]
  | y :: l' => if le x y then x :: y :: l' else y :: insert_by le x l'
  end.

Definition sort_by {A} (le : A -> A -> bool) (l : list A) : list A :=
  fold_right (insert_by le) [] l.

Definition argsort (v : list R) : list nat :=
  sort_by (fun i j => Rleb (nth i v 0) (nth j v 0)) (seq 0 (length v)).

Definition sorted_reverse {A} (key : A -> R) (l : list A) : list A :=
  sort_by (fun x y => Rleb (key y) (key x)) l.

(** [sorted(set(l))] for strings: distinct values in increasing order. *)
Definition sorted_unique (l : list string) : list string :=
  sort_by String.leb (nodup string_dec l).

(** ** Vectors and matrices *)

Definition vector := list R.
Definition matrix := list (list R).

(** [m.shape[0]], [m.shape[1]], [m.size] *)
Definition shape0 (m : matrix) : nat := length m.
Definition shape1 (m : matrix) : nat := match m with [] => O | r :: _ => length r end.
Definition size (m : matrix) : nat := (shape0 m * shape1 m)%nat.

(** [np.zeros(n)] *)
Definition zeros (n : nat) : vector := repeat 0 n.
(** [a + b], [c * a] on arrays of one shape *)
Fixpoint vadd (a b : vector) : vector :=
  match a, b with
  | x :: a', y :: b' => (x + y) :: vadd a' b'
  | _, _ => []
  end.
Definition vscale (c : R) (a : vector) : vector := map (Rmult c) a.
(** [np.where(a > 0)[0]] *)
Definition where_positive (a : vector) : list nat :=
  map fst (filter (fun p => Rltb 0 (snd p)) (enumerate a)).
(** [a[idx] = 0] for a list of positions *)
Definition zero_at (idx : list nat) (a : vector) : vector :=
  map (fun p => if existsb (Nat.eqb (fst p)) idx then 0 else snd p) (enumerate a).

Fixpoint dot (a b : vector) : R :=
  match a, b with
  | x :: a', y :: b' => x * y + dot a' b'
  | _, _ => 0
  end.

(** [sklearn.preprocessing.normalize]: each row divided by its Euclidean
    norm, a zero norm being replaced by 1.  The arithmetic is exact: the
    rounding of floating-point division and square root is not modelled, so
    the product of a normalised row with itself is exactly 1 here and only
    close to 1 in the program. *)
Definition row_norm (a : vector) : R := sqrt (dot a a).
Definition handle_zeros (n : R) : R := if Req_dec_T n 0 then 1 else n.
Definition normalize_row (a : vector) : vector :=
  map (fun x => x / handle_zeros (row_norm a)) a.
Definition normalize (m : matrix) : matrix := map normalize_row m.

(** [sklearn.metrics.pairwise.cosine_similarity(X, Y)]: the products of the
    normalised rows of [X] with the normalised rows of [Y]. *)
Definition cosine_similarity2 (x y : matrix) : matrix :=
  map (fun a => map (fun b => dot a b) (normalize y)) (normalize x).
(** [cosine_similarity(X)] *)
Definition cosine_similarity (x : matrix) : matrix := cosine_similarity2 x x.

(** [sum] and [mean] of a column *)
Definition sum (l : list R) : R := fold_right Rplus 0 l.
Definition mean (l : list R) : R := sum l / INR (length l).

(** ** Control: a [try] body whose steps may raise, and [except: return d] *)

Definition returned {A} (r : result A) : bool :=
  match r with Ok _ => true | Raise _ => false end.
Definition nonempty {A} (l : list A) : bool :=
  match l with [] => false | _ :: _ => true end.

Definition bind {A B} (x : option A) (f : A -> option B) : option B :=
  match x with Some a => f a | None => None end.
Definition or_else {A} (x : option A) (d : A) : A :=
  match x with Some a => a | None => d end.

End Py.

Import Py.

Notation "x <- e ;; k" := (bind e (fun x => k))
  (at level 61, e at next level, right associativity).

(* ------------------------------------------------------------------ *)
(** * algorithms/collaborative_filtering.py                            *)
(* ------------------------------------------------------------------ *)

Module CollaborativeFiltering.

(** One aggregated interaction record, as [get_user_product_matrix] yields
    it (the fields [prepare_data] reads). *)
Record interaction : Type := {
  userId : string;
  productId : string;
  interactions : Z;
  interactionTypes : list string
}.

(** A row of the data frame once it has its [score] column. *)
Record scored : Type := { row : interaction; score : R }.

Record t : Type := {
  n_components : nat;
  min_interactions : Z;
  user_item_matrix : option matrix;
  user_similarity_matrix : option matrix;
  user_index_map : dict string nat;
  item_index_map : dict string nat;
  reverse_user_map : dict nat string;
  reverse_item_map : dict nat string;
  is_trained : bool
}.

(** [CollaborativeFiltering(n_components, min_interactions)] *)
Definition init (n_components : nat) (min_interactions : Z) : t :=
  {| n_components := n_components; min_interactions := min_interactions;
     user_item_matrix := None; user_similarity_matrix := None;
     user_index_map := []; item_index_map := [];
     reverse_user_map := []; reverse_item_map := [];
     is_trained := false |}.

Definition set_is_trained (b : bool) (self : t) : t :=
  {| n_components := n_components self; min_interactions := min_interactions self;
     user_item_matrix := user_item_matrix self;
     user_similarity_matrix := user_similarity_matrix self;
     user_index_map := user_index_map self; item_index_map := item_index_map self;
     reverse_user_map := reverse_user_map self; reverse_item_map := reverse_item_map self;
     is_trained := b |}.

Definition set_user_item_matrix (m : matrix) (self : t) : t :=
  {| n_components := n_components self; min_interactions := min_interactions self;
     user_item_matrix := Some m;
     user_similarity_matrix := user_similarity_matrix self;
     user_index_map := user_index_map self; item_index_map := item_index_map self;
     reverse_user_map := reverse_user_map self; reverse_item_map := reverse_item_map self;
     is_trained := is_trained self |}.

Definition set_user_similarity_matrix (m : matrix) (self : t) : t :=
  {| n_components := n_components self; min_interactions := min_interactions self;
     user_item_matrix := user_item_matrix self;
     user_similarity_matrix := Some m;
     user_index_map := user_index_map self; item_index_map := item_index_map self;
     reverse_user_map := reverse_user_map self; reverse_item_map := reverse_item_map self;
     is_trained := is_trained self |}.

Definition set_index_maps (um im : dict string nat) (ru ri : dict nat string)
    (self : t) : t :=
  {| n_components := n_components self; min_interactions := min_interactions self;
     user_item_matrix := user_item_matrix self;
     user_similarity_matrix := user_similarity_matrix self;
     user_index_map := um; item_index_map := im;
     reverse_user_map := ru; reverse_item_map := ri;
     is_trained := is_trained self |}.

(** ** prepare_data *)

Definition interaction_weights : dict string R :=
  [("view"%string, 1); ("cart_add"%string, 2); ("purchase"%string, 3)].

(** [df.loc[df['interactionTypes'].apply(lambda x: t in x), 'score'] += w].
    The score column is a float column: a cell is a number or NaN ([None]). *)
Definition add_weight (interaction_type : string) (w : R)
    (df : list (interaction * option R)) : list (interaction * option R) :=
  map (fun rs =>
         if existsb (String.eqb interaction_type) (interactionTypes (fst rs))
         then (fst rs, option_map (fun s => s + w) (snd rs))
         else rs) df.

(** [df['score'] = 0], then the loop over the types of the FIRST row,
    [df['interactionTypes'].iloc[0]]. *)
Definition score_column (interactions : list interaction)
    : list (interaction * option R) :=
  let df := map (fun r => (r, Some 0)) interactions in
  let first_row_types :=
    match interactions with r :: _ => interactionTypes r | [] => [] end in
  fold_left
    (fun df interaction_type =>
       match dict_get String.eqb interaction_weights interaction_type with
       | Some w => add_weight interaction_type w df
       | None => df
       end)
    first_row_types df.

(** [df['score'] = df['score'].fillna(df['interactions'])]: only a NaN cell
    takes the interaction count. *)
Definition fillna (rs : interaction * option R) : scored :=
  {| row := fst rs;
     score := match snd rs with Some s => s | None => IZR (interactions (fst rs)) end |}.

(** The frame with its final [score] column, before filtering. *)
Definition scored_frame (interactions_ : list interaction) : list scored :=
  map fillna (score_column interactions_).

(** [df.groupby(key)['score'].sum()] at one key *)
Definition groupby_sum (key : interaction -> string) (df : list scored)
    (k : string) : R :=
  sum (map score (filter (fun r => String.eqb (key (row r)) k) df)).

Definition prepare_data (self : t) (interactions_ : list interaction)
    : list scored :=
  match interactions_ with
  | [] => []
  | _ =>
      let df := scored_frame interactions_ in
      let valid_user u := Rleb (IZR (min_interactions self)) (groupby_sum userId df u) in
      let valid_item p := Rleb (IZR (min_interactions self)) (groupby_sum productId df p) in
      filter (fun r => valid_user (userId (row r)) && valid_item (productId (row r))) df
  end.

(** ** create_user_item_matrix *)

(** [df.pivot_table(index='userId', columns='productId', values='score',
    fill_value=0)]: the cell of a pair is the mean of its scores, 0 where the
    pair has no row; both axes hold the distinct ids in increasing order. *)
Definition pivot_cell (df : list scored) (u p : string) : R :=
  match map score
          (filter (fun r => String.eqb (userId (row r)) u
                            && String.eqb (productId (row r)) p) df) with
  | [] => 0
  | cell => mean cell
  end.

Definition pivot_index (df : list scored) : list string :=
  sorted_unique (map (fun r => userId (row r)) df).
Definition pivot_columns (df : list scored) : list string :=
  sorted_unique (map (fun r => productId (row r)) df).
Definition pivot_values (df : list scored) : matrix :=
  map (fun u => map (pivot_cell df u) (pivot_columns df)) (pivot_index df).

Definition create_user_item_matrix (self : t) (df : list scored) : t * matrix :=
  match df with
  | [] => (self, [])
  | _ =>
      let um := dict_of String.eqb (map swap (enumerate (pivot_index df))) in
      let im := dict_of String.eqb (map swap (enumerate (pivot_columns df))) in
      let ru := dict_of Nat.eqb (map swap um) in
      let ri := dict_of Nat.eqb (map swap im) in
      (set_index_maps um im ru ri self, pivot_values df)
  end.

(** ** train

    [svd] stands for [self.svd_model.fit(m)] followed by
    [self.svd_model.transform(m)] (scikit-learn's TruncatedSVD), the one step of
    the body that can raise on a well-formed list of records. *)
Definition train (svd : nat -> matrix -> result matrix) (self : t)
    (interactions_ : list interaction) : t * result unit :=
  let df := prepare_data self interactions_ in
  match df with
  | [] => (set_is_trained false self, Ok tt)
  | _ =>
      let (self1, m) := create_user_item_matrix self df in
      let self2 := set_user_item_matrix m self1 in
      if (size m =? 0)%nat then (set_is_trained false self2, Ok tt)
      else
        let reduced :=
          if (n_components self2 <? shape1 m)%nat
          then svd (n_components self2) m
          else Ok m in
        match reduced with
        | Ok reduced_matrix =>
            (set_is_trained true
               (set_user_similarity_matrix (cosine_similarity reduced_matrix) self2),
             Ok tt)
        | Raise e => (set_is_trained false self2, Raise e)
        end
  end.

(** ** get_user_recommendations *)

(** The loop over the similar users: a neighbour counts only when its
    similarity is positive. *)
Fixpoint accumulate_scores (uim : matrix) (user_similarities : vector)
    (similar_users_idx : list nat) (item_scores : vector) : option vector :=
  match similar_users_idx with
  | [] => Some item_scores
  | similar_user_idx :: rest =>
      similarity <- nth_error user_similarities similar_user_idx ;;
      if Rltb 0 similarity then
        similar_user_interactions <- nth_error uim similar_user_idx ;;
        accumulate_scores uim user_similarities rest
          (vadd item_scores (vscale similarity similar_user_interactions))
      else accumulate_scores uim user_similarities rest item_scores
  end.

(** [item_scores] just before the ranking: accumulated, then zeroed at the
    items the user interacted with. *)
Definition item_scores_of (self : t) (user_idx : nat) : option vector :=
  sims <- user_similarity_matrix self ;;
  user_similarities <- nth_error sims user_idx ;;
  let similar_users_idx := slice 1 11 (reversed (argsort user_similarities)) in
  uim <- user_item_matrix self ;;
  user_interactions <- nth_error uim user_idx ;;
  let interacted_items := where_positive user_interactions in
  acc <- accumulate_scores uim user_similarities similar_users_idx
           (zeros (shape1 uim)) ;;
  Some (zero_at interacted_items acc).

(** The final loop: the ranked positions with a positive score, as pairs. *)
Fixpoint collect (reverse_map : dict nat string) (scores : vector)
    (idx : list nat) : option (list (string * R)) :=
  match idx with
  | [] => Some []
  | i :: rest =>
      if Rltb 0 (nth i scores 0) then
        product_id <- dict_get Nat.eqb reverse_map i ;;
        tl <- collect reverse_map scores rest ;;
        Some ((product_id, nth i scores 0) :: tl)
      else collect reverse_map scores rest
  end.

Definition top_items_idx (item_scores : vector) (n_recommendations : Z) : list nat :=
  take n_recommendations (reversed (argsort item_scores)).

Definition get_user_recommendations (self : t) (user_id : string)
    (n_recommendations : Z) : list (string * R) :=
  if negb (is_trained self) then []
  else
    match dict_get String.eqb (user_index_map self) user_id with
    | None => []
    | Some user_idx =>
        or_else
          (item_scores <- item_scores_of self user_idx ;;
           collect (reverse_item_map self) item_scores
             (top_items_idx item_scores n_recommendations))
          []
    end.

(** ** get_similar_users *)

(** The final loop: every ranked position becomes a pair. *)
Fixpoint collect_users (reverse_map : dict nat string) (user_similarities : vector)
    (idx : list nat) : option (list (string * R)) :=
  match idx with
  | [] => Some []
  | i :: rest =>
      similar_user_id <- dict_get Nat.eqb reverse_map i ;;
      similarity <- nth_error user_similarities i ;;
      tl <- collect_users reverse_map user_similarities rest ;;
      Some ((similar_user_id, similarity) :: tl)
  end.

Definition similar_users_idx (user_similarities : vector) (n_users : Z) : list nat :=
  slice 1 (n_users + 1) (reversed (argsort user_similarities)).

Definition get_similar_users (self : t) (user_id : string) (n_users : Z)
    : list (string * R) :=
  if negb (is_trained self) || negb (dict_in String.eqb (user_index_map self) user_id)
  then []
  else
    or_else
      (user_idx <- dict_get String.eqb (user_index_map self) user_id ;;
       sims <- user_similarity_matrix self ;;
       user_similarities <- nth_error sims user_idx ;;
       collect_users (reverse_user_map self) user_similarities
         (similar_users_idx user_similarities n_users))
      [].

End CollaborativeFiltering.

(* ------------------------------------------------------------------ *)
(** * algorithms/content_based_filtering.py                            *)
(* ------------------------------------------------------------------ *)

Module ContentBasedFiltering.

(** What a document holds under the key [tags]: a list of tags, a text, or
    null. *)
Inductive tags_value : Type :=
| TagList (l : list string)
| TagText (s : string)
| TagNull.

(** A product document of the catalog.  For [name], [description], [category]
    and [price], a field the document lacks or holds as null is [None]
    ([fillna] treats both alike).  For [tags] the two differ: [None] is a
    document without the key, [Some TagNull] a document that holds null. *)
Record product : Type := {
  _id : string;
  name : option string;
  description : option string;
  category : option string;
  price : option R;
  tags : option tags_value
}.

(** A row of the prepared frame. *)
Record prepared : Type := {
  p_id : string;
  p_name : string;
  p_description : string;
  p_category : string;
  p_price : R;
  p_tags : string;
  combined_text : string;
  price_category : string
}.

(** One entry of a user's raw interaction history. *)
Record user_interaction : Type := {
  ui_productId : string;
  ui_interactionType : string
}.

Record t : Type := {
  max_features : nat;
  product_features : option matrix;
  product_similarity_matrix : option matrix;
  product_index_map : dict string nat;
  reverse_product_map : dict nat string;
  is_trained : bool
}.

(** [ContentBasedFiltering(max_features)] *)
Definition init (max_features : nat) : t :=
  {| max_features := max_features; product_features := None;
     product_similarity_matrix := None; product_index_map := [];
     reverse_product_map := []; is_trained := false |}.

Definition set_is_trained (b : bool) (self : t) : t :=
  {| max_features := max_features self; product_features := product_features self;
     product_similarity_matrix := product_similarity_matrix self;
     product_index_map := product_index_map self;
     reverse_product_map := reverse_product_map self; is_trained := b |}.

Definition set_index_maps (pm : dict string nat) (rp : dict nat string) (self : t) : t :=
  {| max_features := max_features self; product_features := product_features self;
     product_similarity_matrix := product_similarity_matrix self;
     product_index_map := pm; reverse_product_map := rp;
     is_trained := is_trained self |}.

Definition set_product_features (m : matrix) (self : t) : t :=
  {| max_features := max_features self; product_features := Some m;
     product_similarity_matrix := product_similarity_matrix self;
     product_index_map := product_index_map self;
     reverse_product_map := reverse_product_map self; is_trained := is_trained self |}.

Definition set_product_similarity_matrix (m : matrix) (self : t) : t :=
  {| max_features := max_features self; product_features := product_features self;
     product_similarity_matrix := Some m;
     product_index_map := product_index_map self;
     reverse_product_map := reverse_product_map self; is_trained := is_trained self |}.

(** ** prepare_product_data *)

(** [str.lower] on ASCII text *)
Definition lower_ascii (c : ascii) : ascii :=
  let n := nat_of_ascii c in
  if (65 <=? n)%nat && (n <=? 90)%nat then ascii_of_nat (n + 32) else c.
Fixpoint lower (s : string) : string :=
  match s with
  | EmptyString => EmptyString
  | String c s' => String (lower_ascii c) (lower s')
  end.

(** [pd.cut(price, bins=[0, 25, 50, 100, 250, inf], labels=...)]: the bins are
    closed on the right; a price outside every bin is NaN, printed ["nan"]. *)
Definition price_bucket (p : R) : string :=
  if Rleb p 0 then "nan"
  else if Rleb p 25 then "budget"
  else if Rleb p 50 then "low"
  else if Rleb p 100 then "medium"
  else if Rleb p 250 then "high"
  else "premium".

(** The [tags] column exists as soon as one document has the key, and is
    then passed through
    [lambda x: ' '.join(x) if isinstance(x, list) else str(x) if x else '']:
    a list is joined, a text is kept (the empty text is falsy and gives the
    empty text), null is falsy and gives the empty text; a document without
    the key holds NaN, which is truthy and which [str] prints as ["nan"].
    Without the column, [df['tags'] = ''] fills every row. *)
Definition tags_text (has_tags_column : bool) (tg : option tags_value) : string :=
  if has_tags_column then
    match tg with
    | Some (TagList l) => String.concat " " l
    | Some (TagText s) => s
    | Some TagNull => EmptyString
    | None => "nan"
    end
  else EmptyString.

Definition prepare_row (has_tags_column : bool) (p : product) : prepared :=
  let nm := match name p with Some s => s | None => EmptyString end in
  let ds := match description p with Some s => s | None => EmptyString end in
  let ct := match category p with
            | Some s => if String.eqb s EmptyString then "uncategorized"%string else s
            | None => "uncategorized"%string
            end in
  let pr := match price p with Some x => x | None => 0 end in
  let tg := tags_text has_tags_column (tags p) in
  {| p_id := _id p; p_name := nm; p_description := ds; p_category := ct;
     p_price := pr; p_tags := tg;
     combined_text := lower (nm ++ " " ++ ds ++ " " ++ ct ++ " " ++ tg)%string;
     price_category := price_bucket pr |}.

Definition prepare_product_data (products : list product) : list prepared :=
  let has_tags_column :=
    existsb (fun p => match tags p with Some _ => true | None => false end) products in
  map (prepare_row has_tags_column) products.

(** ** extract_features *)

(** [StandardScaler().fit_transform] on one column: zero mean, unit variance,
    a zero deviation being replaced by 1. *)
Definition standard_scale (col : list R) : matrix :=
  let mu := mean col in
  let sd := sqrt (mean (map (fun x => (x - mu) * (x - mu)) col)) in
  map (fun x => [(x - mu) / handle_zeros sd]) col.

(** [pd.get_dummies(col).values]: one column per distinct value, in order. *)
Definition get_dummies (col : list string) : matrix :=
  map (fun v => map (fun c => if String.eqb v c then 1 else 0) (sorted_unique col)) col.

(** [np.hstack([a, b])] on arrays with the same number of rows *)
Fixpoint hstack (a b : matrix) : matrix :=
  match a, b with
  | r :: a', s :: b' => (r ++ s) :: hstack a' b'
  | _, _ => []
  end.

(** [tfidf] stands for [self.tfidf_vectorizer.fit_transform(texts).toarray()]
    (scikit-learn), which raises on an empty vocabulary. *)
Definition extract_features (tfidf : list string -> result matrix)
    (df : list prepared) : result matrix :=
  match df with
  | [] => Ok []
  | _ =>
      match tfidf (map combined_text df) with
      | Raise e => Raise e
      | Ok text_features =>
          let numerical_features_scaled := standard_scale (map p_price df) in
          let categorical_features :=
            hstack (get_dummies (map p_category df))
                   (get_dummies (map price_category df)) in
          Ok (hstack text_features
                (hstack numerical_features_scaled categorical_features))
      end
  end.

(** ** train *)

Definition train (tfidf : list string -> result matrix) (self : t)
    (products : list product) : t * result unit :=
  let df := prepare_product_data products in
  match df with
  | [] => (set_is_trained false self, Ok tt)
  | _ =>
      let pm := dict_of String.eqb
                  (map swap (enumerate (map p_id df))) in
      let rp := dict_of Nat.eqb (map swap pm) in
      let self1 := set_index_maps pm rp self in
      match extract_features tfidf df with
      | Raise e => (set_is_trained false self1, Raise e)
      | Ok features =>
          let self2 := set_product_features features self1 in
          if (size features =? 0)%nat then (set_is_trained false self2, Ok tt)
          else
            (set_is_trained true
               (set_product_similarity_matrix (cosine_similarity features) self2),
             Ok tt)
      end
  end.

(** ** get_similar_products *)

(** The final loop: every ranked position becomes a pair. *)
Fixpoint collect_all (reverse_map : dict nat string) (scores : vector)
    (idx : list nat) : option (list (string * R)) :=
  match idx with
  | [] => Some []
  | i :: rest =>
      similar_product_id <- dict_get Nat.eqb reverse_map i ;;
      score <- nth_error scores i ;;
      tl <- collect_all reverse_map scores rest ;;
      Some ((similar_product_id, score) :: tl)
  end.

Definition similar_products_idx (similarity_scores : vector) (n_recommendations : Z)
    : list nat :=
  slice 1 (n_recommendations + 1) (reversed (argsort similarity_scores)).

Definition get_similar_products (self : t) (product_id : string)
    (n_recommendations : Z) : list (string * R) :=
  if negb (is_trained self) then []
  else
    match dict_get String.eqb (product_index_map self) product_id with
    | None => []
    | Some product_idx =>
        or_else
          (sims <- product_similarity_matrix self ;;
           similarity_scores <- nth_error sims product_idx ;;
           collect_all (reverse_product_map self) similarity_scores
             (similar_products_idx similarity_scores n_recommendations))
          []
    end.

(** ** get_user_content_recommendations *)

Definition interaction_weights : dict string R :=
  CollaborativeFiltering.interaction_weights.

(** The loop over the history: profile, total weight and the set of products
    touched. *)
Fixpoint build_profile (self : t) (features : matrix)
    (user_interactions : list user_interaction)
    (acc : vector * R * list string) : option (vector * R * list string) :=
  match user_interactions with
  | [] => Some acc
  | interaction :: rest =>
      let '(user_profile, total_weight, interacted_products) := acc in
      match dict_get String.eqb (product_index_map self) (ui_productId interaction) with
      | Some product_idx =>
          let weight :=
            or_else (dict_get String.eqb interaction_weights
                       (ui_interactionType interaction)) 1 in
          feature_row <- nth_error features product_idx ;;
          build_profile self features rest
            (vadd user_profile (vscale weight feature_row),
             total_weight + weight,
             ui_productId interaction :: interacted_products)
      | None => build_profile self features rest acc
      end
  end.

Definition product_scores_of (self : t) (user_interactions : list user_interaction)
    : option (option vector) :=
  features <- product_features self ;;
  acc <- build_profile self features user_interactions
           (zeros (shape1 features), 0, []) ;;
  let '(user_profile, total_weight, interacted_products) := acc in
  if Req_dec_T total_weight 0 then Some None
  else
    let user_profile := map (fun x => x / total_weight) user_profile in
    product_scores <- nth_error (cosine_similarity2 [user_profile] features) 0 ;;
    let interacted_idx :=
      flat_map (fun pid => match dict_get String.eqb (product_index_map self) pid with
                           | Some i => [i]
                           | None => []
                           end) interacted_products in
    Some (Some (zero_at interacted_idx product_scores)).

Definition get_user_content_recommendations (self : t)
    (user_interactions : list user_interaction) (n_recommendations : Z)
    : list (string * R) :=
  if negb (is_trained self) then []
  else
    match user_interactions with
    | [] => []
    | _ =>
        or_else
          (scores <- product_scores_of self user_interactions ;;
           match scores with
           | None => Some []
           | Some product_scores =>
               CollaborativeFiltering.collect (reverse_product_map self) product_scores
                 (CollaborativeFiltering.top_items_idx product_scores n_recommendations)
           end)
          []
    end.

(** ** get_category_recommendations

    The first [n_recommendations] keys of the product index map, each with
    the score 1.0; the category is not read. *)
Definition get_category_recommendations (self : t) (category_ : string)
    (n_recommendations : Z) : list (string * R) :=
  if negb (is_trained self) then []
  else take n_recommendations
         (map (fun product_id => (product_id, 1)) (dict_keys (product_index_map self))).

End ContentBasedFiltering.

(* ------------------------------------------------------------------ *)
(** * services/recommendation_service.py                               *)
(* ------------------------------------------------------------------ *)

Module RecommendationService.

Module CF := CollaborativeFiltering.
Module CBF := ContentBasedFiltering.

(** A [datetime] is a number of microseconds since the epoch, a [timedelta] a
    number of microseconds. *)
Definition datetime := Z.
Definition timedelta := Z.
Definition total_seconds (d : timedelta) : R := IZR d / 1000000.

(** What the catalog returns for a product when a recommendation is enriched. *)
Record details : Type := {
  d_name : string;
  d_price : R;
  d_category : string;
  d_images : list string
}.

(** The database, by the answers of the queries the service runs: an answer
    is [Raise] when the driver raises. *)
Record database : Type := {
  (** [userinteractions.count_documents({'timestamp': {'$gt': t}})] *)
  count_documents_since : datetime -> result Z;
  (** [interaction_service.get_user_product_matrix()] *)
  get_user_product_matrix : result (list CF.interaction);
  (** [list(db.products.find({}))] *)
  find_products : result (list CBF.product);
  (** [interaction_service.get_user_interactions(user_id)] *)
  get_user_interactions : string -> result (list CBF.user_interaction);
  (** the popularity pipeline of [_get_popular_products], with its [$limit] *)
  aggregate_popular : Z -> result (list (string * Z));
  (** [ObjectId(pid)] for every id, then [db.products.find({'_id': {'$in': ...}})] *)
  find_products_by_ids : list string -> result (list (string * details))
}.

(** scikit-learn, by the two fitted estimators whose call can raise. *)
Record sklearn : Type := {
  svd : nat -> matrix -> result matrix;
  tfidf : list string -> result matrix
}.

Record metadata : Type := {
  m_last_training_time : option datetime;
  m_retrain_interval_hours : Z
}.

(** What lies outside the service object: the clock, read by
    [datetime.utcnow()], and the three files of the model directory. *)
Record world : Type := {
  clock : nat -> datetime;
  ticks : nat;
  writable : bool;
  collaborative_model_pkl : option CF.t;
  content_model_pkl : option CBF.t;
  training_metadata_pkl : option metadata
}.

Record t : Type := {
  collaborative_filter : CF.t;
  content_filter : CBF.t;
  last_training_time : option datetime;
  retrain_interval_hours : Z;
  min_new_interactions : Z
}.

Definition set_collaborative_filter (c : CF.t) (self : t) : t :=
  {| collaborative_filter := c; content_filter := content_filter self;
     last_training_time := last_training_time self;
     retrain_interval_hours := retrain_interval_hours self;
     min_new_interactions := min_new_interactions self |}.

Definition set_content_filter (c : CBF.t) (self : t) : t :=
  {| collaborative_filter := collaborative_filter self; content_filter := c;
     last_training_time := last_training_time self;
     retrain_interval_hours := retrain_interval_hours self;
     min_new_interactions := min_new_interactions self |}.

Definition set_last_training_time (d : datetime) (self : t) : t :=
  {| collaborative_filter := collaborative_filter self;
     content_filter := content_filter self;
     last_training_time := Some d;
     retrain_interval_hours := retrain_interval_hours self;
     min_new_interactions := min_new_interactions self |}.

(** ** __init__ and _load_models

    The two thresholds come from the environment variables
    [RETRAIN_INTERVAL_HOURS] and [MIN_NEW_INTERACTIONS] ([None] when unset);
    the filters and the training metadata are read from the model directory
    when the files exist. *)
Definition _load_models (self : t) (w : world) : t :=
  {| collaborative_filter :=
       or_else (collaborative_model_pkl w) (collaborative_filter self);
     content_filter := or_else (content_model_pkl w) (content_filter self);
     last_training_time :=
       match training_metadata_pkl w with
       | Some m => m_last_training_time m
       | None => last_training_time self
       end;
     retrain_interval_hours := retrain_interval_hours self;
     min_new_interactions := min_new_interactions self |}.

Definition init (retrain_interval_hours_env min_new_interactions_env : option Z)
    (w : world) : t :=
  _load_models
    {| collaborative_filter := CF.init 50 5;
       content_filter := CBF.init 1000;
       last_training_time := None;
       retrain_interval_hours := or_else retrain_interval_hours_env 24%Z;
       min_new_interactions := or_else min_new_interactions_env 100%Z |}
    w.

(** [datetime.utcnow()] *)
Definition utcnow (w : world) : datetime * world :=
  (clock w (ticks w),
   {| clock := clock w; ticks := S (ticks w); writable := writable w;
      collaborative_model_pkl := collaborative_model_pkl w;
      content_model_pkl := content_model_pkl w;
      training_metadata_pkl := training_metadata_pkl w |}).

(** ** _save_models: three [joblib.dump]; a failure is logged and swallowed. *)
Definition _save_models (self : t) (w : world) : world :=
  if writable w then
    {| clock := clock w; ticks := ticks w; writable := writable w;
       collaborative_model_pkl := Some (collaborative_filter self);
       content_model_pkl := Some (content_filter self);
       training_metadata_pkl :=
         Some {| m_last_training_time := last_training_time self;
                 m_retrain_interval_hours := retrain_interval_hours self |} |}
  else w.

(** ** _get_interaction_data, _get_product_data: an exception gives [[]]. *)
Definition _get_interaction_data (db : database) : list CF.interaction :=
  match get_user_product_matrix db with Ok l => l | Raise _ => [] end.
Definition _get_product_data (db : database) : list CBF.product :=
  match find_products db with Ok l => l | Raise _ => [] end.

(** ** _should_retrain *)
Definition _should_retrain (db : database) (self : t) (w : world) : bool * world :=
  match last_training_time self with
  | None => (true, w)
  | Some last =>
      let (now, w1) := utcnow w in
      let time_since_training : timedelta := (now - last)%Z in
      if Rltb (total_seconds time_since_training)
              (IZR (retrain_interval_hours self * 3600))
      then (false, w1)
      else
        match count_documents_since db last with
        | Raise _ => (false, w1)
        | Ok new_interactions =>
            if (new_interactions <? min_new_interactions self)%Z
            then (false, w1)
            else (true, w1)
        end
  end.

(** ** train_models *)

Inductive training_result : Type :=
| Skipped (reason : string) (last_training_time : option datetime)
| Success (training_time : datetime) (interactions_count products_count : nat)
          (models_trained : list string) (training_duration_seconds : R)
| Error (error : exn) (training_time : datetime).

Definition status (r : training_result) : string :=
  match r with
  | Skipped _ _ => "skipped"
  | Success _ _ _ _ _ => "success"
  | Error _ _ => "error"
  end.

Definition models_trained_of (r : training_result) : list string :=
  match r with
  | Success _ _ _ models _ => models
  | _ => []
  end.

Definition training_time_of (r : training_result) : option datetime :=
  match r with
  | Success training_time _ _ _ _ => Some training_time
  | Error _ training_time => Some training_time
  | Skipped _ _ => None
  end.

(** The block that trains the collaborative filter: the filter afterwards and
    what is appended to [results['models_trained']]. *)
Definition train_collaborative (sk : sklearn) (self : t)
    (interactions : list CF.interaction) : t * list string :=
  match interactions with
  | [] => (self, [])
  | _ =>
      match CF.train (svd sk) (collaborative_filter self) interactions with
      | (c, Ok _) =>
          (set_collaborative_filter c self,
           if CF.is_trained c then ["collaborative_filtering"%string] else [])
      | (c, Raise _) => (set_collaborative_filter c self, [])
      end
  end.

(** The block that trains the content filter. *)
Definition train_content (sk : sklearn) (self : t)
    (products : list CBF.product) : t * list string :=
  match products with
  | [] => (self, [])
  | _ =>
      match CBF.train (tfidf sk) (content_filter self) products with
      | (c, Ok _) =>
          (set_content_filter c self,
           if CBF.is_trained c then ["content_based_filtering"%string] else [])
      | (c, Raise _) => (set_content_filter c self, [])
      end
  end.

Definition train_models (db : database) (sk : sklearn) (self : t)
    (force_retrain : bool) (w : world) : t * world * training_result :=
  let (retrain, w0) :=
    if force_retrain then (true, w) else _should_retrain db self w in
  if negb retrain then
    (self, w0, Skipped "Training conditions not met" (last_training_time self))
  else
    let (start_time, w1) := utcnow w0 in
    let interactions := _get_interaction_data db in
    let products := _get_product_data db in
    let (self1, trained1) := train_collaborative sk self interactions in
    let (self2, trained2) := train_content sk self1 products in
    let self3 := set_last_training_time start_time self2 in
    let w2 := _save_models self3 w1 in
    let (end_time, w3) := utcnow w2 in
    (self3, w3,
     Success start_time (length interactions) (length products)
       (trained1 ++ trained2) (total_seconds (end_time - start_time)%Z)).

(** [retrain_models] *)
Definition retrain_models (db : database) (sk : sklearn) (self : t) (w : world)
    : t * world * training_result :=
  train_models db sk self true w.

(** ** get_recommendations *)

Record recommendation : Type := {
  productId : string;
  score : R;
  algorithm : string;
  reason : string;
  contributing_algorithms : option (list string);
  product_details : option details
}.

Definition candidate (algorithm_ reason_ : string) (ps : string * R) : recommendation :=
  {| productId := fst ps; score := snd ps; algorithm := algorithm_;
     reason := reason_; contributing_algorithms := None; product_details := None |}.

(** An entry of [product_scores] in the hybrid step. *)
Record combined : Type := {
  c_productId : string;
  total_score : R;
  algorithms : list string;
  reasons : list string
}.

(** One turn of the grouping loop. *)
Definition add_candidate (product_scores : dict string combined)
    (rec : recommendation) : dict string combined :=
  let product_id := productId rec in
  let entry :=
    match dict_get String.eqb product_scores product_id with
    | Some e => e
    | None => {| c_productId := product_id; total_score := 0;
                 algorithms := []; reasons := [] |}
    end in
  dict_set String.eqb product_scores product_id
    {| c_productId := c_productId entry;
       total_score := total_score entry + score rec;
       algorithms := algorithms entry ++ [algorithm rec];
       reasons := reasons entry ++ [reason rec] |}.

Definition group_by_product (recommendations : list recommendation)
    : dict string combined :=
  fold_left add_candidate recommendations [].

Definition hybrid_of (product : combined) : recommendation :=
  {| productId := c_productId product; score := total_score product;
     algorithm := "hybrid"; reason := "Recommended by multiple algorithms";
     contributing_algorithms := Some (algorithms product);
     product_details := None |}.

(** The hybrid step, run when [algorithm is None] and there are candidates. *)
Definition combine_hybrid (recommendations : list recommendation) (limit : Z)
    : list recommendation :=
  let product_scores := group_by_product recommendations in
  let sorted_products := sorted_reverse total_score (dict_values product_scores) in
  map hybrid_of (take limit sorted_products).

Definition _get_popular_products (db : database) (limit : Z) : list recommendation :=
  match aggregate_popular db limit with
  | Ok popular_products =>
      map (fun pc => candidate "popularity" "Popular among all users"
                       (fst pc, IZR (snd pc))) popular_products
  | Raise _ => []
  end.

Definition with_details (rec : recommendation) (d : details) : recommendation :=
  {| productId := productId rec; score := score rec; algorithm := algorithm rec;
     reason := reason rec; contributing_algorithms := contributing_algorithms rec;
     product_details := Some d |}.

Definition _enrich_recommendations (db : database)
    (recommendations : list recommendation) : list recommendation :=
  match recommendations with
  | [] => recommendations
  | _ =>
      match find_products_by_ids db (map productId recommendations) with
      | Raise _ => recommendations
      | Ok found =>
          let products := dict_of String.eqb found in
          flat_map (fun rec =>
                      match dict_get String.eqb products (productId rec) with
                      | Some d => [with_details rec d]
                      | None => []
                      end) recommendations
      end
  end.

(** The candidates of the two filters, in the order they are appended. *)
Definition candidates (self : t) (user_id : string)
    (user_interactions : list CBF.user_interaction) (limit : Z)
    (algorithm_ : option string) : list recommendation :=
  let wants a :=
    match algorithm_ with None => true | Some s => String.eqb s a end in
  (if wants "collaborative"%string && CF.is_trained (collaborative_filter self) then
     map (candidate "collaborative_filtering"
            "Users with similar preferences also liked this")
         (CF.get_user_recommendations (collaborative_filter self) user_id limit)
   else [])
  ++
  (if wants "content"%string && CBF.is_trained (content_filter self)
      && negb (match user_interactions with [] => true | _ => false end) then
     map (candidate "content_based_filtering" "Based on products you have viewed")
         (CBF.get_user_content_recommendations (content_filter self)
            user_interactions limit)
   else []).

(** The part of [get_recommendations] that follows the fetch of the history. *)
Definition rank (db : database) (self : t) (user_id : string)
    (user_interactions : list CBF.user_interaction) (limit : Z)
    (algorithm_ : option string) : list recommendation :=
  let recommendations := candidates self user_id user_interactions limit algorithm_ in
  let recommendations :=
    match algorithm_, recommendations with
    | None, _ :: _ => combine_hybrid recommendations limit
    | _, _ => recommendations
    end in
  let recommendations :=
    match recommendations with
    | [] => _get_popular_products db limit
    | _ => recommendations
    end in
  take limit (_enrich_recommendations db recommendations).

(** The service after the automatic training that opens [get_recommendations]. *)
Definition auto_train (db : database) (sk : sklearn) (self : t) (w : world)
    : t * world :=
  let (retrain, w1) := _should_retrain db self w in
  if retrain then
    let '(self1, w2, _) := train_models db sk self false w1 in (self1, w2)
  else (self, w1).

Definition get_recommendations (db : database) (sk : sklearn) (self : t)
    (user_id : string) (limit : Z) (algorithm_ : option string) (w : world)
    : t * world * list recommendation :=
  let (self1, w1) := auto_train db sk self w in
  match get_user_interactions db user_id with
  | Raise _ => (self1, w1, [])
  | Ok user_interactions =>
      (self1, w1, rank db self1 user_id user_interactions limit algorithm_)
  end.

End RecommendationService.


(* ------------------------------------------------------------------ *)
(** * services/interaction_service.py                                  *)
(* ------------------------------------------------------------------ *)

Module InteractionService.

(** A document of the [userinteractions] collection. *)
Record document : Type := {
  userId : string;
  productId : string;
  interactionType : string;
  timestamp : Z;
  sessionId : option string
}.

(** The driver: [ObjectId(s)], which raises on a string that is no object id,
    and [collection.insert_one(doc)], which gives the id of the new document
    and the collection with it, or raises. *)
Record driver : Type := {
  ObjectId : string -> result string;
  insert_one : document -> list document -> result (string * list document)
}.

Definition valid_types : list string :=
  ["view"%string; "cart_add"%string; "purchase"%string].

(** ** track_interaction: the collection afterwards, and the id or the
    exception. *)
Definition track_interaction (drv : driver) (collection : list document)
    (user_id product_id interaction_type : string) (session_id : option string)
    (utcnow : Z) : list document * result string :=
  if negb (existsb (String.eqb interaction_type) valid_types) then
    (collection,
     Raise "Invalid interaction type. Must be one of: ['view', 'cart_add', 'purchase']"%string)
  else
    match ObjectId drv user_id with
    | Raise e => (collection, Raise e)
    | Ok uid =>
        match ObjectId drv product_id with
        | Raise e => (collection, Raise e)
        | Ok pid =>
            let interaction :=
              {| userId := uid; productId := pid;
                 interactionType := interaction_type;
                 timestamp := utcnow; sessionId := session_id |} in
            match insert_one drv interaction collection with
            | Raise e => (collection, Raise e)
            | Ok (inserted_id, collection') => (collection', Ok inserted_id)
            end
        end
    end.

(** ** get_interaction_stats, from the answer of the [$group] pipeline:
    one count per interaction type, then their total under ['total']. *)
Definition get_interaction_stats (aggregate : result (list (string * Z)))
    : result (dict string Z) :=
  match aggregate with
  | Raise e => Raise e
  | Ok answer =>
      let stats := dict_of String.eqb answer in
      Ok (dict_set String.eqb stats "total"%string
            (fold_right Z.add 0%Z (dict_values stats)))
  end.

End InteractionService.

(* ------------------------------------------------------------------ *)
(** * app.py                                                           *)
(* ------------------------------------------------------------------ *)

Module App.

Module IS := InteractionService.
Module RS := RecommendationService.

(** The answer of a route: the HTTP status, and either the data or the error
    code and message of the JSON body. *)
Inductive body (A : Type) : Type :=
| Success (data : A)
| Failure (code message : string).
Arguments Success {A} data.
Arguments Failure {A} code message.

Definition response (A : Type) : Type := (Z * body A)%type.

(** ** POST /interactions.  [data] is the JSON object of the request ([None]
    when the body holds none), with string values. *)
Definition required_fields : list string :=
  ["userId"%string; "productId"%string; "interactionType"%string].

Definition track_interaction (drv : IS.driver) (collection : list IS.document)
    (data : option (dict string string)) (utcnow : Z)
    : list IS.document * response string :=
  match data with
  | None => (collection, (500%Z, Failure "INTERACTION_ERROR" "Failed to track interaction"))
  | Some d =>
      match find (fun field => negb (dict_in String.eqb d field)) required_fields with
      | Some field =>
          (collection,
           (400%Z, Failure "VALIDATION_ERROR" ("Missing required field: " ++ field)%string))
      | None =>
          match dict_get String.eqb d "userId"%string,
                dict_get String.eqb d "productId"%string,
                dict_get String.eqb d "interactionType"%string with
          | Some user_id, Some product_id, Some interaction_type =>
              match IS.track_interaction drv collection user_id product_id
                      interaction_type (dict_get String.eqb d "sessionId"%string) utcnow with
              | (collection', Ok interaction_id) =>
                  (collection', (200%Z, Success interaction_id))
              | (collection', Raise _) =>
                  (collection',
                   (500%Z, Failure "INTERACTION_ERROR" "Failed to track interaction"))
              end
          | _, _, _ =>
              (collection,
               (500%Z, Failure "INTERACTION_ERROR" "Failed to track interaction"))
          end
      end
  end.

(** ** GET /recommendations/<user_id>.  [limit_arg] is the [limit] argument
    read as an integer ([None] when absent or not an integer). *)
Definition get_recommendations (db : RS.database) (sk : RS.sklearn) (self : RS.t)
    (user_id : string) (limit_arg : option Z) (w : RS.world)
    : RS.t * RS.world * response (list RS.recommendation * nat) :=
  let limit := or_else limit_arg 10%Z in
  let '(self1, w1, recommendations) :=
    RS.get_recommendations db sk self user_id limit None w in
  (self1, w1, (200%Z, Success (recommendations, length recommendations))).

(** ** POST /retrain *)
Definition retrain_model (db : RS.database) (sk : RS.sklearn) (self : RS.t)
    (w : RS.world) : RS.t * RS.world * response RS.training_result :=
  let '(self1, w1, result_) := RS.retrain_models db sk self w in
  (self1, w1, (200%Z, Success result_)).

End App.
(* ------------------------------------------------------------------ *)
(** * Scenarios                                                        *)
(* ------------------------------------------------------------------ *)

Module CF := CollaborativeFiltering.
Module CBF := ContentBasedFiltering.
Module RS := RecommendationService.
Module IS := InteractionService.

Local Open Scope string_scope.
Local Open Scope list_scope.

(** ** The score column *)

Module Scoring.

Definition record (u p : string) (n : Z) (types : list string) : CF.interaction :=
  {| CF.userId := u; CF.productId := p; CF.interactions := n;
     CF.interactionTypes := types |}.

(** The score the specification gives a record: the weights of its distinct
    types, or its interaction count when it has no type. *)
Definition spec_score (r : CF.interaction) : R :=
  match nodup string_dec (CF.interactionTypes r) with
  | [] => IZR (CF.interactions r)
  | types =>
      sum (map (fun ty => or_else (dict_get String.eqb CF.interaction_weights ty) 0)
               types)
  end.

(** The score the code gives a record [r] of a history whose first record
    has the types [first_types]: the weights of those of [first_types] that
    [r] has too. *)
Definition code_score (first_types : list string) (r : CF.interaction) : R :=
  fold_left
    (fun s ty =>
       match dict_get String.eqb CF.interaction_weights ty with
       | Some w => if existsb (String.eqb ty) (CF.interactionTypes r) then s + w else s
       | None => s
       end)
    first_types 0.

(** The first user only viewed; the second viewed and purchased; the third
    has no type recorded and seven interactions. *)
Definition history : list CF.interaction :=
  [ record "u1" "p1" 1 ["view"];
    record "u2" "p1" 2 ["view"; "purchase"];
    record "u3" "p1" 7 [] ].

End Scoring.


(** ** A run in which the collaborative training raises *)

Module PartialFailure.

(** One user who viewed two products: with [n_components = 1] the two
    columns of the matrix call for the reduction, which raises here. *)
Definition interactions : list CF.interaction :=
  [ Scoring.record "u1" "p1" 1 ["view"]; Scoring.record "u1" "p2" 1 ["view"] ].

Definition lamp : CBF.product :=
  {| CBF._id := "p1"; CBF.name := Some "Lamp"; CBF.description := None;
     CBF.category := Some "home"; CBF.price := Some 30; CBF.tags := None |}.

Definition db : RS.database :=
  {| RS.count_documents_since := fun _ => Ok 0%Z;
     RS.get_user_product_matrix := Ok interactions;
     RS.find_products := Ok [lamp];
     RS.get_user_interactions := fun _ => Ok [];
     RS.aggregate_popular := fun _ => Ok [];
     RS.find_products_by_ids := fun _ => Ok [] |}.

Definition sk : RS.sklearn :=
  {| RS.svd := fun _ _ => Raise "SVD did not converge";
     RS.tfidf := fun texts => Ok (map (fun _ => [1]) texts) |}.

Definition service : RS.t :=
  {| RS.collaborative_filter := CF.init 1 1;
     RS.content_filter := CBF.init 1000;
     RS.last_training_time := None;
     RS.retrain_interval_hours := 24;
     RS.min_new_interactions := 100 |}.

Definition w : RS.world :=
  {| RS.clock := fun n => Z.of_nat n; RS.ticks := 0; RS.writable := true;
     RS.collaborative_model_pkl := None; RS.content_model_pkl := None;
     RS.training_metadata_pkl := None |}.

End PartialFailure.

(** ** Training again on a trained filter *)

Module Retrain.

(** A filter trained once, on a single purchase. *)
Definition first_history : list CF.interaction :=
  [ Scoring.record "u0" "p0" 1 ["purchase"] ].

Definition trained : CF.t :=
  fst (CF.train (fun _ m => Ok m) (CF.init 1 1) first_history).

(** The reduction raises during the second training. *)
Definition failing_svd : nat -> matrix -> result matrix :=
  fun _ _ => Raise "SVD did not converge".

Definition second : CF.t * result unit :=
  CF.train failing_svd trained PartialFailure.interactions.

End Retrain.

(** ** Shapes of a similarity matrix *)

(** Entry [(i, j)], 0 outside the matrix. *)
Definition entry (m : matrix) (i j : nat) : R := nth j (nth i m []) 0.

Definition square (n : nat) (m : matrix) : Prop :=
  length m = n /\ Forall (fun r => length r = n) m.

Definition symmetric (m : matrix) : Prop :=
  forall i j, entry m i j = entry m j i.

Definition all_zero (a : vector) : Prop := Forall (fun x => x = 0) a.

(** Where a row of [x] is all zero, the row and the column of [m] at its
    position are zero, the diagonal entry included. *)
Definition zero_rows_vanish (x m : matrix) : Prop :=
  forall i a, nth_error x i = Some a -> all_zero a ->
              forall j, entry m i j = 0 /\ entry m j i = 0.

(** The diagonal of [m], row by row of the matrix [x] it is computed from:
    1 for a row that is not all zero, 0 for a row of zeros. *)
Definition diagonal_of (x m : matrix) : Prop :=
  forall i a, nth_error x i = Some a ->
    (all_zero a -> entry m i i = 0) /\ (~ all_zero a -> entry m i i = 1).

(** ** A user whose only surviving row scores 0 *)

Module ZeroRow.

(** The first record is a purchase, so only purchases are scored.  User ["u"]
    purchased ["p2"] and ["p3"] (score 6 in all) and viewed ["p1"] (score 0);
    ["p1"] was purchased by two other users (score 6 in all).  With
    [min_interactions = 5] only user ["u"] and product ["p1"] survive. *)
Definition history : list CF.interaction :=
  [ Scoring.record "u" "p2" 1 ["purchase"];
    Scoring.record "u" "p3" 1 ["purchase"];
    Scoring.record "u" "p1" 1 ["view"];
    Scoring.record "v" "p1" 1 ["purchase"];
    Scoring.record "w" "p1" 1 ["purchase"] ].

Definition run : CF.t * result unit :=
  CF.train (fun _ m => Ok m) (CF.init 50 5) history.

End ZeroRow.

(** ** Two products with the same description *)

Module Twins.

(** The catalog holds the same mug twice, under two ids. *)
Definition mug (id : string) : CBF.product :=
  {| CBF._id := id; CBF.name := Some "Mug"; CBF.description := Some "Ceramic mug";
     CBF.category := Some "kitchen"; CBF.price := Some 12; CBF.tags := None |}.

(** Documents with the same text get the same TF-IDF row. *)
Definition tfidf (texts : list string) : result matrix :=
  Ok (map (fun _ => [1]) texts).

Definition trained : CBF.t :=
  fst (CBF.train tfidf (CBF.init 1000) [mug "p0"; mug "p1"]).

End Twins.

(** ** Rankings *)

(** Position [i] comes before position [j] in [np.argsort(s)[::-1]]: the
    higher score first and, of two equal scores, the later position first. *)
Definition ranked_before (s : vector) (i j : nat) : Prop :=
  nth j s 0 < nth i s 0 \/ (nth j s 0 = nth i s 0 /\ (j < i)%nat).

(** [out] lists the positions [cols], each as the id the reverse map gives it
    and its score in [s]. *)
Definition lists_columns (reverse_map : dict nat string) (s : vector)
    (cols : list nat) (out : list (string * R)) : Prop :=
  Forall2 (fun j ps => dict_get Nat.eqb reverse_map j = Some (fst ps)
                       /\ snd ps = nth j s 0) cols out.

(** No two positions of a reverse map hold the same id. *)
Definition dict_injective (d : dict nat string) : Prop :=
  forall i j p, dict_get Nat.eqb d i = Some p -> dict_get Nat.eqb d j = Some p -> i = j.

(** ** Two items with the same accumulated score *)

Module Ties.

(** Every record is a view (score 1).  User ["u1"] viewed three products, user
    ["u2"] only the first.  With one component, the reduction maps both users
    on the same axis. *)
Definition history : list CF.interaction :=
  [ Scoring.record "u1" "p0" 1 ["view"];
    Scoring.record "u1" "p1" 1 ["view"];
    Scoring.record "u1" "p2" 1 ["view"];
    Scoring.record "u2" "p0" 1 ["view"] ].

Definition svd (n : nat) (m : matrix) : result matrix :=
  Ok (map (fun _ => [1]) m).

Definition trained : CF.t := fst (CF.train svd (CF.init 1 1) history).

End Ties.

(** ** The hybrid step *)

(** [l1] is [l2] with some elements left out. *)
Inductive sublist {A : Type} : list A -> list A -> Prop :=
| sublist_nil : sublist [] []
| sublist_skip (x : A) (l1 l2 : list A) : sublist l1 l2 -> sublist l1 (x :: l2)
| sublist_keep (x : A) (l1 l2 : list A) : sublist l1 l2 -> sublist (x :: l1) (x :: l2).

(** The entries of a list of recommendations for product [p]. *)
Definition entries_for (p : string) (l : list RS.recommendation)
    : list RS.recommendation :=
  filter (fun r => String.eqb (RS.productId r) p) l.

Definition both_algorithms : list string :=
  ["collaborative_filtering"; "content_based_filtering"].

(** One turn of the grouping loop, seen from the entry of product [p]. *)
Definition absorb (p : string) (o : option RS.combined) (rec : RS.recommendation)
    : option RS.combined :=
  let e := match o with
           | Some e => e
           | None => {| RS.c_productId := p; RS.total_score := 0;
                        RS.algorithms := []; RS.reasons := [] |}
           end in
  Some {| RS.c_productId := RS.c_productId e;
          RS.total_score := RS.total_score e + RS.score rec;
          RS.algorithms := RS.algorithms e ++ [RS.algorithm rec];
          RS.reasons := RS.reasons e ++ [RS.reason rec] |}.

(** The final recommendation [rec] is the hybrid form of the grouped entry [e]. *)
Definition hybrid_form (e : RS.combined) (rec : RS.recommendation) : Prop :=
  RS.productId rec = RS.c_productId e
  /\ RS.score rec = RS.total_score e
  /\ RS.algorithm rec = "hybrid"
  /\ RS.contributing_algorithms rec = Some (RS.algorithms e).

(** The ranking of the grouped entries, before it is cut to [limit]. *)
Definition blended (self : RS.t) (user_id : string)
    (user_interactions : list CBF.user_interaction) (limit : Z) : list RS.combined :=
  sorted_reverse RS.total_score
    (dict_values
       (RS.group_by_product (RS.candidates self user_id user_interactions limit None))).

(** ** A product both filters propose *)

Module Hybrid.

(** User ["u2"] viewed product ["p0"]. *)
Definition viewed : list CBF.user_interaction :=
  [ {| CBF.ui_productId := "p0"; CBF.ui_interactionType := "view" |} ].

(** The service holds the collaborative filter of [Ties] and the content
    filter of [Twins], trained an hour ago. *)
Definition service : RS.t :=
  {| RS.collaborative_filter := Ties.trained;
     RS.content_filter := Twins.trained;
     RS.last_training_time := Some 0%Z;
     RS.retrain_interval_hours := 24;
     RS.min_new_interactions := 100 |}.

Definition w : RS.world :=
  {| RS.clock := fun _ => 3600000000%Z; RS.ticks := 0; RS.writable := true;
     RS.collaborative_model_pkl := None; RS.content_model_pkl := None;
     RS.training_metadata_pkl := None |}.

Definition item (id : string) : string * RS.details :=
  (id, {| RS.d_name := "Mug"; RS.d_price := 12; RS.d_category := "kitchen";
          RS.d_images := [] |}).

(** A catalog that still holds every product, and one the products have left. *)
Definition db (catalog : list string -> list (string * RS.details)) : RS.database :=
  {| RS.count_documents_since := fun _ => Ok 0%Z;
     RS.get_user_product_matrix := Ok [];
     RS.find_products := Ok [];
     RS.get_user_interactions := fun _ => Ok viewed;
     RS.aggregate_popular := fun _ => Ok [];
     RS.find_products_by_ids := fun ids => Ok (catalog ids) |}.

Definition full_catalog (ids : list string) : list (string * RS.details) :=
  map item ids.
Definition empty_catalog (ids : list string) : list (string * RS.details) := [].

Definition sk : RS.sklearn := {| RS.svd := Ties.svd; RS.tfidf := Twins.tfidf |}.

End Hybrid.

(** ** Vocabulary of the further properties *)

(** Every entry of the matrix is non-negative. *)
Definition nonneg_matrix (m : matrix) : Prop :=
  Forall (Forall (fun x => 0 <= x)) m.

(** [out] lists the positions [idx], each as the id the reverse map gives it
    and its entry in [s]. *)
Definition lists_positions (reverse_map : dict nat string) (s : vector)
    (idx : list nat) (out : list (string * R)) : Prop :=
  Forall2 (fun i ps => dict_get Nat.eqb reverse_map i = Some (fst ps)
                       /\ nth_error s i = Some (snd ps)) idx out.

(** The total score of the rows of [df] whose user (product) is the one of [r]
    is below the threshold. *)
Definition below_threshold (self : CF.t) (df : list CF.scored) (r : CF.scored) : Prop :=
  CF.groupby_sum CF.userId df (CF.userId (CF.row r)) < IZR (CF.min_interactions self)
  \/ CF.groupby_sum CF.productId df (CF.productId (CF.row r))
     < IZR (CF.min_interactions self).

(** The reverse product map names a product only at the position the index
    map gives it. *)
Definition maps_agree (self : CBF.t) : Prop :=
  forall j q, dict_get Nat.eqb (CBF.reverse_product_map self) j = Some q ->
              dict_get String.eqb (CBF.product_index_map self) q = Some j.


(** The files of the model directory are the same in both worlds. *)
Definition same_files (w w' : RS.world) : Prop :=
  RS.collaborative_model_pkl w' = RS.collaborative_model_pkl w
  /\ RS.content_model_pkl w' = RS.content_model_pkl w
  /\ RS.training_metadata_pkl w' = RS.training_metadata_pkl w.

(** [rec] is the recommendation [rec0] with the catalog details [d] attached. *)
Definition enriched_from (found : list (string * RS.details))
    (rec0 rec : RS.recommendation) : Prop :=
  exists d, In (RS.productId rec0, d) found /\ rec = RS.with_details rec0 d.

(** [rec] is a popularity recommendation made from an answer of the
    popularity query. *)
Definition popular_entry (db : RS.database) (limit : Z) (rec : RS.recommendation)
    : Prop :=
  RS.algorithm rec = "popularity"
  /\ RS.reason rec = "Popular among all users"
  /\ RS.contributing_algorithms rec = None
  /\ exists popular count,
       RS.aggregate_popular db limit = Ok popular
       /\ In (RS.productId rec, count) popular
       /\ RS.score rec = IZR count.

(** ** A catalog with one popular product *)

Module Popular.

Definition db : RS.database :=
  {| RS.count_documents_since := fun _ => Ok 0%Z;
     RS.get_user_product_matrix := Ok [];
     RS.find_products := Ok [];
     RS.get_user_interactions := fun _ => Ok [];
     RS.aggregate_popular := fun _ => Ok [("p0", 3%Z)];
     RS.find_products_by_ids := fun ids => Ok (map Hybrid.item ids) |}.

(** The popularity recommendation of ["p0"], with its details. *)
Definition p0 : RS.recommendation :=
  RS.with_details
    (RS.candidate "popularity" "Popular among all users" ("p0", 3))
    (snd (Hybrid.item "p0")).

End Popular.

(** ** Tracking through a driver that stores every document *)

Module Tracking.

(** The driver takes every non-empty string for an object id and appends the
    document to the collection. *)
Definition drv : IS.driver :=
  {| IS.ObjectId := fun s => if String.eqb s EmptyString
                             then Raise "InvalidId" else Ok s;
     IS.insert_one := fun doc collection => Ok ("i1", collection ++ [doc]) |}.

Definition request (interaction_type : string) : dict string string :=
  [("userId", "u1"); ("productId", "p1"); ("interactionType", interaction_type)].

End Tracking.

(** The HTTP status of the answer of a route. *)
Definition http_status {A} (r : App.response A) : Z := fst r.


(** ** Products with and without the key [tags] *)

Module Tags.

Definition cup (id : string) (tg : option CBF.tags_value) : CBF.product :=
  {| CBF._id := id; CBF.name := Some "Cup"; CBF.description := None;
     CBF.category := Some "kitchen"; CBF.price := Some 8; CBF.tags := tg |}.

(** One document holds [tags: null], one a list of tags, one lacks the key. *)
Definition catalog : list CBF.product :=
  [ cup "p0" (Some CBF.TagNull);
    cup "p1" (Some (CBF.TagList ["blue"; "small"]));
    cup "p2" None ].

End Tags.

(** ** A product the user viewed, scored 0 *)

Module Viewed.

(** The first record holds a purchase and a cart addition, so only these two
    types are scored.  User ["a"] bought ["pA"] and ["pB"]; user ["b"] bought
    ["pA"] and only viewed ["pB"]: that view scores 0.  With the default
    [min_interactions = 5] every user and every product stays. *)
Definition history : list CF.interaction :=
  [ Scoring.record "a" "pA" 2 ["purchase"; "cart_add"];
    Scoring.record "a" "pB" 2 ["purchase"; "cart_add"];
    Scoring.record "b" "pA" 2 ["purchase"; "cart_add"];
    Scoring.record "b" "pB" 1 ["view"] ].

Definition trained : CF.t :=
  fst (CF.train (fun _ m => Ok m) (CF.init 50 5) history).

End Viewed.
(* ------------------------------------------------------------------ *)
(** * Properties                                                       *)
(* ------------------------------------------------------------------ *)

(** ** Evaluating float comparisons *)

Lemma Rleb_true (x y : R) : x <= y -> Rleb x y = true.
Proof. intros H. unfold Rleb. destruct (Rle_dec x y); [reflexivity | contradiction]. Qed.

Lemma Rleb_false (x y : R) : y < x -> Rleb x y = false.
Proof. intros H. unfold Rleb. destruct (Rle_dec x y); [lra | reflexivity]. Qed.

Lemma Rltb_true (x y : R) : x < y -> Rltb x y = true.
Proof. intros H. unfold Rltb. destruct (Rlt_dec x y); [reflexivity | contradiction]. Qed.

Lemma Rltb_false (x y : R) : y <= x -> Rltb x y = false.
Proof. intros H. unfold Rltb. destruct (Rlt_dec x y); [lra | reflexivity]. Qed.

Lemma Rleb_refl (x : R) : Rleb x x = true.
Proof. apply Rleb_true. lra. Qed.

Lemma Rleb_spec (x y : R) : Rleb x y = true <-> x <= y.
Proof.
  unfold Rleb. destruct (Rle_dec x y); split; intros; try reflexivity;
    try assumption; try discriminate; contradiction.
Qed.

Lemma Rltb_spec (x y : R) : Rltb x y = true <-> x < y.
Proof.
  unfold Rltb. destruct (Rlt_dec x y); split; intros; try reflexivity;
    try assumption; try discriminate; contradiction.
Qed.

(** Decide every comparison of the goal whose operands are numerals. *)
Ltac r_step :=
  match goal with
  | |- context [Rleb ?a ?a] => rewrite (Rleb_refl a)
  | |- context [Rleb ?a ?b] =>
      first [ rewrite (Rleb_true a b) by lra | rewrite (Rleb_false a b) by lra ]
  | |- context [Rltb ?a ?b] =>
      first [ rewrite (Rltb_true a b) by lra | rewrite (Rltb_false a b) by lra ]
  end.
Ltac pos_step :=
  match goal with
  | |- context [Pos.to_nat ?p] =>
      let v := eval vm_compute in (Pos.to_nat p) in change (Pos.to_nat p) with v
  end.
Ltac r_cbn := cbn -[Rleb Rltb cosine_similarity cosine_similarity2 mean handle_zeros].
Ltac r_eval := r_cbn; repeat ((r_step || pos_step); r_cbn).

(** ** The score column *)

Lemma score_column_fold (types : list string) (l : list CF.interaction)
    (g : CF.interaction -> R) :
  fold_left
    (fun df interaction_type =>
       match dict_get String.eqb CF.interaction_weights interaction_type with
       | Some w => CF.add_weight interaction_type w df
       | None => df
       end)
    types (map (fun r => (r, Some (g r))) l)
  = map (fun r =>
           (r, Some (fold_left
                       (fun s ty =>
                          match dict_get String.eqb CF.interaction_weights ty with
                          | Some w =>
                              if existsb (String.eqb ty) (CF.interactionTypes r)
                              then s + w else s
                          | None => s
                          end)
                       types (g r)))) l.
Proof.
  revert g. induction types as [|ty types IH]; intros g; cbn [fold_left];
    [reflexivity |].
  destruct (dict_get String.eqb CF.interaction_weights ty) as [w |] eqn:Hw.
  - unfold CF.add_weight. rewrite map_map. cbn [fst snd].
    rewrite <- (IH (fun r => if existsb (String.eqb ty) (CF.interactionTypes r)
                             then g r + w else g r)).
    f_equal. apply map_ext. intros r.
    destruct (existsb (String.eqb ty) (CF.interactionTypes r)); reflexivity.
  - apply IH.
Qed.

(** What [prepare_data] scores, on every history: a cell of the score column
    is never NaN, and holds the weights of the types the row shares with the
    first record. *)
Lemma scored_frame_code_score (r0 : CF.interaction) (rest : list CF.interaction) :
  CF.scored_frame (r0 :: rest)
  = map (fun r => {| CF.row := r;
                     CF.score := Scoring.code_score (CF.interactionTypes r0) r |})
        (r0 :: rest).
Proof.
  unfold CF.scored_frame, CF.score_column.
  rewrite (score_column_fold (CF.interactionTypes r0) (r0 :: rest) (fun _ => 0)).
  rewrite map_map. reflexivity.
Qed.

(** C1 (fails on the code).  [prepare_data] walks the interaction types of
    the first record only and starts the score at 0, never at NaN: on
    [Scoring.history] the second record scores 1 where the weights of its types
    add up to 4, and the record without types scores 0 where its count is 7.
    The rows that survive the filter carry these scores. *)
Theorem C1_scores_follow_first_record_only :
  map CF.score (CF.scored_frame Scoring.history) = [1; 1; 0]
  /\ map Scoring.spec_score Scoring.history = [1; 4; 7]
  /\ map (fun r => (CF.userId (CF.row r), CF.score r))
         (CF.prepare_data (CF.init 50 1) Scoring.history) = [("u1", 1); ("u2", 1)]
  /\ map (fun r => (CF.userId (CF.row r), CF.score r))
         (CF.prepare_data (CF.init 50 0) Scoring.history)
     = [("u1", 1); ("u2", 1); ("u3", 0)].
Proof.
  repeat split.
  - cbn. repeat f_equal; lra.
  - unfold Scoring.spec_score. cbn. repeat f_equal; lra.
  - unfold CF.prepare_data, Scoring.history. r_eval. repeat f_equal; lra.
  - unfold CF.prepare_data, Scoring.history. r_eval. repeat f_equal; lra.
Qed.

(** ** The retraining policy *)

Lemma utcnow_fst (w : RS.world) : fst (RS.utcnow w) = RS.clock w (RS.ticks w).
Proof. reflexivity. Qed.

(** C7.  With a recorded last training time [last] and the count query
    answering [k], [_should_retrain] answers true exactly when the time since
    [last] is at least [retrain_interval_hours] hours AND [k] is at least
    [min_new_interactions]; an unforced [train_models] then trains exactly in
    that case and is skipped otherwise.  The two thresholds are 24 and 100
    when the environment does not set them. *)
Theorem C7_retrain_needs_both_conditions :
  forall (db : RS.database) (sk : RS.sklearn) (self : RS.t) (w : RS.world)
         (last : RS.datetime) (k : Z),
    RS.last_training_time self = Some last ->
    RS.count_documents_since db last = Ok k ->
    let elapsed := RS.total_seconds (RS.clock w (RS.ticks w) - last)%Z in
    let both := IZR (RS.retrain_interval_hours self * 3600) <= elapsed
                /\ (RS.min_new_interactions self <= k)%Z in
    (fst (RS._should_retrain db self w) = true <-> both)
    /\ (RS.status (snd (RS.train_models db sk self false w)) = "success" <-> both)
    /\ (RS.status (snd (RS.train_models db sk self false w)) = "skipped" <-> ~ both)
    /\ RS.retrain_interval_hours (RS.init None None w) = 24%Z
    /\ RS.min_new_interactions (RS.init None None w) = 100%Z.
Proof.
  intros db sk self w last k Hlast Hcount elapsed both.
  cut ((fst (RS._should_retrain db self w) = true <-> both)
       /\ (RS.status (snd (RS.train_models db sk self false w)) = "success" <-> both)
       /\ (RS.status (snd (RS.train_models db sk self false w)) = "skipped" <-> ~ both)).
  { intros (H1 & H2 & H3).
    split; [exact H1 |]. split; [exact H2 |]. split; [exact H3 |].
    split; reflexivity. }
  assert (Hs : fst (RS._should_retrain db self w) = true <-> both).
  { unfold RS._should_retrain. rewrite Hlast. cbn [RS.utcnow].
    rewrite Hcount. fold elapsed.
    unfold both.
    destruct (Rltb elapsed (IZR (RS.retrain_interval_hours self * 3600))) eqn:Ht.
    - apply Rltb_spec in Ht. cbn. split; [discriminate | intros [H _]; lra].
    - assert (~ elapsed < IZR (RS.retrain_interval_hours self * 3600)) as Hge.
      { intros H. apply Rltb_spec in H. congruence. }
      destruct (k <? RS.min_new_interactions self)%Z eqn:Hk; cbn.
      + apply Z.ltb_lt in Hk. split; [discriminate | intros [_ H]; lia].
      + apply Z.ltb_ge in Hk. split; [intros _; split; [lra | lia] | reflexivity]. }
  split; [exact Hs |].
  unfold RS.train_models. cbn [negb].
  destruct (RS._should_retrain db self w) as [retrain w0]. cbn [fst] in Hs.
  destruct retrain; cbn [negb].
  - destruct (RS.utcnow w0) as [start_time w1].
    destruct (RS.train_collaborative sk self (RS._get_interaction_data db)) as [self1 t1].
    destruct (RS.train_content sk self1 (RS._get_product_data db)) as [self2 t2].
    destruct (RS.utcnow _) as [end_time w3]. cbn.
    split; split; intros H; try reflexivity; try (apply Hs; reflexivity);
      try discriminate.
    exfalso. apply H. apply Hs. reflexivity.
  - cbn. split; split; intros H; try reflexivity; try discriminate.
    + apply Hs in H. discriminate.
    + intros Hb. apply Hs in Hb. discriminate.
Qed.

Lemma C7_retrain_needs_both_conditions_witness :
  let db := {| RS.count_documents_since := fun _ => Ok 150%Z;
               RS.get_user_product_matrix := Ok [];
               RS.find_products := Ok [];
               RS.get_user_interactions := fun _ => Ok [];
               RS.aggregate_popular := fun _ => Ok [];
               RS.find_products_by_ids := fun _ => Ok [] |} in
  let sk := {| RS.svd := fun _ m => Ok m; RS.tfidf := fun _ => Ok [] |} in
  let self := {| RS.collaborative_filter := CF.init 50 5;
                 RS.content_filter := CBF.init 1000;
                 RS.last_training_time := Some 0%Z;
                 RS.retrain_interval_hours := 24;
                 RS.min_new_interactions := 100 |} in
  let w := {| RS.clock := fun _ => 90000000000%Z; RS.ticks := 0; RS.writable := true;
              RS.collaborative_model_pkl := None; RS.content_model_pkl := None;
              RS.training_metadata_pkl := None |} in
  fst (RS._should_retrain db self w) = true
  <-> IZR (24 * 3600) <= RS.total_seconds (90000000000 - 0)%Z /\ (100 <= 150)%Z.
Proof.
  intros db sk self w.
  exact (proj1 (C7_retrain_needs_both_conditions db sk self w 0%Z 150%Z
                  eq_refl eq_refl)).
Defined.

(** ** Training runs *)

Lemma train_collaborative_spec (sk : RS.sklearn) (self : RS.t)
    (interactions : list CF.interaction) :
  let run := CF.train (RS.svd sk) (RS.collaborative_filter self) interactions in
  RS.train_collaborative sk self interactions =
    (if nonempty interactions then RS.set_collaborative_filter (fst run) self else self,
     if nonempty interactions && returned (snd run) && CF.is_trained (fst run)
     then ["collaborative_filtering"] else []).
Proof.
  unfold RS.train_collaborative. destruct interactions as [|i l]; [reflexivity |].
  cbn [nonempty andb].
  destruct (CF.train _ _ _) as [c [u | e]]; cbn; [| reflexivity].
  destruct (CF.is_trained c); reflexivity.
Qed.

Lemma train_content_spec (sk : RS.sklearn) (self : RS.t)
    (products : list CBF.product) :
  let run := CBF.train (RS.tfidf sk) (RS.content_filter self) products in
  RS.train_content sk self products =
    (if nonempty products then RS.set_content_filter (fst run) self else self,
     if nonempty products && returned (snd run) && CBF.is_trained (fst run)
     then ["content_based_filtering"] else []).
Proof.
  unfold RS.train_content. destruct products as [|p l]; [reflexivity |].
  cbn [nonempty andb].
  destruct (CBF.train _ _ _) as [c [u | e]]; cbn; [| reflexivity].
  destruct (CBF.is_trained c); reflexivity.
Qed.

(** What a run that is not skipped does, from the world [w0] it starts in. *)
Lemma train_models_run (db : RS.database) (sk : RS.sklearn) (self : RS.t)
    (force : bool) (w w0 : RS.world) :
  (if force then (true, w) else RS._should_retrain db self w) = (true, w0) ->
  let interactions := RS._get_interaction_data db in
  let products := RS._get_product_data db in
  let cf_run := CF.train (RS.svd sk) (RS.collaborative_filter self) interactions in
  let cbf_run := CBF.train (RS.tfidf sk) (RS.content_filter self) products in
  let start_time := RS.clock w0 (RS.ticks w0) in
  let self' := fst (fst (RS.train_models db sk self force w)) in
  let w' := snd (fst (RS.train_models db sk self force w)) in
  let r := snd (RS.train_models db sk self force w) in
  RS.collaborative_filter self' =
    (if nonempty interactions then fst cf_run else RS.collaborative_filter self)
  /\ RS.content_filter self' =
    (if nonempty products then fst cbf_run else RS.content_filter self)
  /\ RS.last_training_time self' = Some start_time
  /\ RS.retrain_interval_hours self' = RS.retrain_interval_hours self
  /\ w' = snd (RS.utcnow (RS._save_models self' (snd (RS.utcnow w0))))
  /\ RS.status r = "success"
  /\ RS.training_time_of r = Some start_time
  /\ RS.models_trained_of r =
       ((if nonempty interactions && returned (snd cf_run) && CF.is_trained (fst cf_run)
         then ["collaborative_filtering"] else [])
        ++ (if nonempty products && returned (snd cbf_run) && CBF.is_trained (fst cbf_run)
            then ["content_based_filtering"] else []))%list.
Proof.
  intros Hgo. cbv zeta. unfold RS.train_models. rewrite Hgo. cbn [negb].
  cbn [RS.utcnow].
  rewrite train_collaborative_spec. cbv zeta.
  rewrite train_content_spec. cbv zeta. cbn [fst snd].
  destruct (nonempty (RS._get_interaction_data db));
    destruct (nonempty (RS._get_product_data db)); cbn;
    repeat split; reflexivity.
Qed.

(** C8.  A forced run always reports ['success'].  Each filter is trained on
    its own data whenever that data is not empty, whatever the other filter's
    training did: the content filter after the run is the one its [train] leaves
    even if the collaborative [train] raised, and conversely.  The list of models
    trained holds an algorithm exactly when its [train] returned and left it
    trained, so one algorithm failing leaves the other in the list. *)
Theorem C8_forced_run_isolates_failures :
  forall (db : RS.database) (sk : RS.sklearn) (self : RS.t) (w : RS.world),
    let interactions := RS._get_interaction_data db in
    let products := RS._get_product_data db in
    let cf_run := CF.train (RS.svd sk) (RS.collaborative_filter self) interactions in
    let cbf_run := CBF.train (RS.tfidf sk) (RS.content_filter self) products in
    let self' := fst (fst (RS.retrain_models db sk self w)) in
    let r := snd (RS.retrain_models db sk self w) in
    RS.status r = "success"
    /\ (interactions <> [] -> RS.collaborative_filter self' = fst cf_run)
    /\ (products <> [] -> RS.content_filter self' = fst cbf_run)
    /\ RS.models_trained_of r =
         ((if nonempty interactions && returned (snd cf_run) && CF.is_trained (fst cf_run)
           then ["collaborative_filtering"] else [])
          ++ (if nonempty products && returned (snd cbf_run) && CBF.is_trained (fst cbf_run)
              then ["content_based_filtering"] else []))%list
    /\ (forall e, snd cf_run = Raise e -> products <> [] ->
        snd cbf_run = Ok tt -> CBF.is_trained (fst cbf_run) = true ->
        RS.status r = "success"
        /\ RS.models_trained_of r = ["content_based_filtering"])
    /\ (forall e, snd cbf_run = Raise e -> interactions <> [] ->
        snd cf_run = Ok tt -> CF.is_trained (fst cf_run) = true ->
        RS.status r = "success"
        /\ RS.models_trained_of r = ["collaborative_filtering"]).
Proof.
  intros db sk self w interactions products cf_run cbf_run self' r.
  destruct (train_models_run db sk self true w w eq_refl)
    as (Hcf & Hcbf & _ & _ & _ & Hst & _ & Hm).
  fold interactions products cf_run cbf_run in Hcf, Hcbf, Hm.
  change (RS.train_models db sk self true w) with (RS.retrain_models db sk self w)
    in Hcf, Hcbf, Hst, Hm.
  fold self' in Hcf, Hcbf. fold r in Hst, Hm.
  split; [exact Hst |].
  split. { intros Hne. rewrite Hcf. destruct interactions; [contradiction | reflexivity]. }
  split. { intros Hne. rewrite Hcbf. destruct products; [contradiction | reflexivity]. }
  split; [exact Hm |].
  split.
  - intros e He Hne Hok Htr. split; [exact Hst |].
    rewrite Hm, He, Hok, Htr. cbn [returned]. rewrite andb_false_r. cbn [andb app].
    destruct products; [contradiction | reflexivity].
  - intros e He Hne Hok Htr. split; [exact Hst |].
    rewrite Hm, He, Hok, Htr. cbn [returned]. rewrite andb_false_r.
    destruct interactions; [contradiction | reflexivity].
Qed.

Lemma partial_failure_collaborative_raises :
  snd (CF.train (RS.svd PartialFailure.sk) (CF.init 1 1) PartialFailure.interactions)
  = Raise "SVD did not converge".
Proof.
  unfold CF.train, CF.prepare_data, PartialFailure.interactions. r_eval. reflexivity.
Qed.

Lemma partial_failure_content_trains :
  snd (CBF.train (RS.tfidf PartialFailure.sk) (CBF.init 1000) [PartialFailure.lamp])
  = Ok tt
  /\ CBF.is_trained
       (fst (CBF.train (RS.tfidf PartialFailure.sk) (CBF.init 1000) [PartialFailure.lamp]))
     = true.
Proof. split; reflexivity. Qed.

Lemma C8_forced_run_isolates_failures_witness :
  RS.status (snd (RS.retrain_models PartialFailure.db PartialFailure.sk
                    PartialFailure.service PartialFailure.w)) = "success"
  /\ RS.models_trained_of
       (snd (RS.retrain_models PartialFailure.db PartialFailure.sk
               PartialFailure.service PartialFailure.w))
     = ["content_based_filtering"].
Proof.
  refine (proj1 (proj2 (proj2 (proj2 (proj2
            (C8_forced_run_isolates_failures PartialFailure.db PartialFailure.sk
               PartialFailure.service PartialFailure.w)))))
            "SVD did not converge" _ _ _ _).
  - exact partial_failure_collaborative_raises.
  - discriminate.
  - exact (proj1 partial_failure_content_trains).
  - exact (proj2 partial_failure_content_trains).
Defined.

(** C10.  A run that is not skipped reports ['success'] and moves
    [last_training_time] to the time read when the run started, and writes
    the three files of the model directory (when it is writable), whether or
    not any model was trained.  With no interaction and no product, or with
    both trainings raising, or more generally when neither training returned
    with its filter trained, the list of models trained is empty. *)
Theorem C10_failed_run_reports_success :
  forall (db : RS.database) (sk : RS.sklearn) (self : RS.t) (force : bool)
         (w : RS.world),
    let interactions := RS._get_interaction_data db in
    let products := RS._get_product_data db in
    let cf_run := CF.train (RS.svd sk) (RS.collaborative_filter self) interactions in
    let cbf_run := CBF.train (RS.tfidf sk) (RS.content_filter self) products in
    let w0 := if force then w else snd (RS._should_retrain db self w) in
    let start_time := fst (RS.utcnow w0) in
    let self' := fst (fst (RS.train_models db sk self force w)) in
    let w' := snd (fst (RS.train_models db sk self force w)) in
    let r := snd (RS.train_models db sk self force w) in
    RS.status r <> "skipped" ->
    RS.status r = "success"
    /\ RS.training_time_of r = Some start_time
    /\ RS.last_training_time self' = Some start_time
    /\ (RS.writable w = true ->
        RS.collaborative_model_pkl w' = Some (RS.collaborative_filter self')
        /\ RS.content_model_pkl w' = Some (RS.content_filter self')
        /\ RS.training_metadata_pkl w' =
             Some {| RS.m_last_training_time := Some start_time;
                     RS.m_retrain_interval_hours := RS.retrain_interval_hours self |})
    /\ (interactions = [] -> products = [] -> RS.models_trained_of r = [])
    /\ (forall e1 e2, snd cf_run = Raise e1 -> snd cbf_run = Raise e2 ->
        RS.models_trained_of r = [])
    /\ (nonempty interactions && returned (snd cf_run) && CF.is_trained (fst cf_run)
        = false ->
        nonempty products && returned (snd cbf_run) && CBF.is_trained (fst cbf_run)
        = false ->
        RS.models_trained_of r = []).
Proof.
  intros db sk self force w interactions products cf_run cbf_run w0 start_time
         self' w' r Hrun.
  assert (Hgo : (if force then (true, w) else RS._should_retrain db self w) = (true, w0)).
  { subst w0. destruct force; [reflexivity |].
    subst r. unfold RS.train_models in Hrun.
    destruct (RS._should_retrain db self w) as [[|] w1]; [reflexivity |].
    cbn in Hrun. contradiction Hrun. reflexivity. }
  destruct (train_models_run db sk self force w w0 Hgo)
    as (_ & _ & Hlast & Hhours & Hw & Hst & Ht & Hm).
  fold interactions products cf_run cbf_run in Hm.
  fold self' in Hlast, Hhours, Hw. fold w' in Hw. fold r in Hst, Ht, Hm.
  change (RS.clock w0 (RS.ticks w0)) with start_time in Hlast, Ht.
  assert (Hwr : RS.writable w0 = RS.writable w).
  { subst w0. destruct force; [reflexivity |].
    unfold RS._should_retrain. destruct (RS.last_training_time self); [| reflexivity].
    cbn [RS.utcnow].
    destruct (Rltb _ _); [reflexivity |].
    destruct (RS.count_documents_since db d); [| reflexivity].
    destruct (_ <? _)%Z; reflexivity. }
  repeat split; try assumption.
  - rewrite Hw. unfold RS._save_models. cbn [RS.utcnow snd RS.writable].
    rewrite Hwr, H. reflexivity.
  - rewrite Hw. unfold RS._save_models. cbn [RS.utcnow snd RS.writable].
    rewrite Hwr, H. reflexivity.
  - rewrite Hw. unfold RS._save_models. cbn [RS.utcnow snd RS.writable].
    rewrite Hwr, H. cbn. rewrite Hlast, Hhours. reflexivity.
  - intros Hi Hp. rewrite Hm, Hi, Hp. reflexivity.
  - intros e1 e2 H1 H2. rewrite Hm, H1, H2. cbn [returned].
    rewrite !andb_false_r. reflexivity.
  - intros H1 H2. rewrite Hm, H1, H2. reflexivity.
Qed.

Lemma C10_failed_run_reports_success_witness :
  let db := {| RS.count_documents_since := fun _ => Ok 0%Z;
               RS.get_user_product_matrix := Ok [];
               RS.find_products := Ok [];
               RS.get_user_interactions := fun _ => Ok [];
               RS.aggregate_popular := fun _ => Ok [];
               RS.find_products_by_ids := fun _ => Ok [] |} in
  let r := snd (RS.train_models db PartialFailure.sk PartialFailure.service true
                  PartialFailure.w) in
  let self' := fst (fst (RS.train_models db PartialFailure.sk PartialFailure.service
                           true PartialFailure.w)) in
  RS.status r = "success"
  /\ RS.training_time_of r = Some 0%Z
  /\ RS.last_training_time self' = Some 0%Z
  /\ RS.models_trained_of r = [].
Proof.
  intros db r self'.
  assert (Hrun : RS.status r <> "skipped") by (cbv; discriminate).
  destruct (C10_failed_run_reports_success db PartialFailure.sk PartialFailure.service
              true PartialFailure.w Hrun) as (H1 & H2 & H3 & _ & H5 & _ & _).
  exact (conj H1 (conj H2 (conj H3 (H5 eq_refl eq_refl)))).
Defined.

(** ** A training that raises *)

Lemma cf_train_cases (svd : nat -> matrix -> result matrix) (self : CF.t)
    (xs : list CF.interaction) :
  let df := CF.prepare_data self xs in
  let cm := CF.create_user_item_matrix self df in
  let self2 := CF.set_user_item_matrix (snd cm) (fst cm) in
  let reduced := if (CF.n_components self <? shape1 (snd cm))%nat
                 then svd (CF.n_components self) (snd cm) else Ok (snd cm) in
  CF.train svd self xs =
    if nonempty df then
      if (size (snd cm) =? 0)%nat then (CF.set_is_trained false self2, Ok tt)
      else match reduced with
           | Ok reduced_matrix =>
               (CF.set_is_trained true
                  (CF.set_user_similarity_matrix (cosine_similarity reduced_matrix) self2),
                Ok tt)
           | Raise e => (CF.set_is_trained false self2, Raise e)
           end
    else (CF.set_is_trained false self, Ok tt).
Proof.
  cbv zeta. unfold CF.train.
  destruct (CF.prepare_data self xs) as [|r df] eqn:Hdf; [reflexivity |].
  cbn [nonempty]. unfold CF.create_user_item_matrix. cbn [fst snd].
  reflexivity.
Qed.

Lemma cbf_train_cases (tfidf : list string -> result matrix) (self : CBF.t)
    (ps : list CBF.product) :
  let df := CBF.prepare_product_data ps in
  let pm := dict_of String.eqb (map swap (enumerate (map CBF.p_id df))) in
  let self1 := CBF.set_index_maps pm (dict_of Nat.eqb (map swap pm)) self in
  CBF.train tfidf self ps =
    if nonempty df then
      match CBF.extract_features tfidf df with
      | Raise e => (CBF.set_is_trained false self1, Raise e)
      | Ok features =>
          if (size features =? 0)%nat
          then (CBF.set_is_trained false (CBF.set_product_features features self1), Ok tt)
          else (CBF.set_is_trained true
                  (CBF.set_product_similarity_matrix (cosine_similarity features)
                     (CBF.set_product_features features self1)), Ok tt)
      end
    else (CBF.set_is_trained false self, Ok tt).
Proof.
  cbv zeta. unfold CBF.train.
  destruct (CBF.prepare_product_data ps) as [|r df] eqn:Hdf; reflexivity.
Qed.

(** C2 (as the code has it).  When [train] raises, the exception is the one
    of the failing library step and reaches the caller, the similarity matrix
    is the one of the previous training, and [is_trained] is False.  The index
    maps are already those of the new data, and so is the user-item matrix of
    the collaborative filter; the product features of the content filter are
    still the previous ones. *)
Theorem C2_train_error_clears_is_trained :
  (forall (svd : nat -> matrix -> result matrix) (self self' : CF.t)
          (xs : list CF.interaction) (e : exn),
      CF.train svd self xs = (self', Raise e) ->
      let cm := CF.create_user_item_matrix self (CF.prepare_data self xs) in
      svd (CF.n_components self) (snd cm) = Raise e
      /\ self' = CF.set_is_trained false (CF.set_user_item_matrix (snd cm) (fst cm))
      /\ CF.is_trained self' = false
      /\ CF.user_similarity_matrix self' = CF.user_similarity_matrix self
      /\ CF.user_item_matrix self' = Some (CF.pivot_values (CF.prepare_data self xs)))
  /\
  (forall (tfidf : list string -> result matrix) (self self' : CBF.t)
          (ps : list CBF.product) (e : exn),
      CBF.train tfidf self ps = (self', Raise e) ->
      let df := CBF.prepare_product_data ps in
      let pm := dict_of String.eqb (map swap (enumerate (map CBF.p_id df))) in
      CBF.extract_features tfidf df = Raise e
      /\ self' = CBF.set_is_trained false
                   (CBF.set_index_maps pm (dict_of Nat.eqb (map swap pm)) self)
      /\ CBF.is_trained self' = false
      /\ CBF.product_similarity_matrix self' = CBF.product_similarity_matrix self
      /\ CBF.product_features self' = CBF.product_features self).
Proof.
  split.
  - intros svd self self' xs e H. cbv zeta.
    rewrite cf_train_cases in H. cbv zeta in H.
    destruct (nonempty (CF.prepare_data self xs)) eqn:Hne; [| discriminate].
    destruct (size _ =? 0)%nat; [discriminate |].
    destruct (CF.n_components self <? _)%nat; [| discriminate].
    destruct (svd _ _) as [m | e'] eqn:Hsvd; [discriminate |].
    injection H as <- <-.
    repeat split; try reflexivity.
    + unfold CF.create_user_item_matrix.
      destruct (CF.prepare_data self xs); [discriminate | reflexivity].
    + unfold CF.create_user_item_matrix.
      destruct (CF.prepare_data self xs); [discriminate | reflexivity].
  - intros tfidf self self' ps e H. cbv zeta.
    rewrite cbf_train_cases in H. cbv zeta in H.
    destruct (nonempty (CBF.prepare_product_data ps)); [| discriminate].
    destruct (CBF.extract_features tfidf _) as [m | e'] eqn:Hx.
    + destruct (size m =? 0)%nat; discriminate.
    + injection H as <- <-. repeat split; reflexivity.
Qed.

Lemma retrain_second_raises :
  Retrain.second
  = (CF.set_is_trained false
       (CF.set_user_item_matrix
          (snd (CF.create_user_item_matrix Retrain.trained
                  (CF.prepare_data Retrain.trained PartialFailure.interactions)))
          (fst (CF.create_user_item_matrix Retrain.trained
                  (CF.prepare_data Retrain.trained PartialFailure.interactions)))),
     Raise "SVD did not converge").
Proof.
  unfold Retrain.second. rewrite cf_train_cases. cbv zeta.
  unfold CF.prepare_data, PartialFailure.interactions, Retrain.trained,
    Retrain.first_history, CF.train, CF.prepare_data.
  r_eval. reflexivity.
Qed.

Lemma C2_train_error_clears_is_trained_witness :
  CF.is_trained (fst Retrain.second) = false
  /\ CF.user_similarity_matrix (fst Retrain.second)
     = CF.user_similarity_matrix Retrain.trained.
Proof.
  destruct (proj1 C2_train_error_clears_is_trained Retrain.failing_svd Retrain.trained
              _ PartialFailure.interactions _ retrain_second_raises)
    as (_ & _ & H3 & H4 & _).
  rewrite retrain_second_raises. cbn [fst]. exact (conj H3 H4).
Defined.

Lemma retrain_trained_is_trained : CF.is_trained Retrain.trained = true.
Proof.
  unfold Retrain.trained, Retrain.first_history, CF.train, CF.prepare_data.
  r_eval. reflexivity.
Qed.

(** C2 (fails on the code).  A filter trained on one purchase is trained
    again, and the reduction raises: the exception reaches the caller, but
    the filter is no longer the one it was: [is_trained] is now False and the
    index maps are those of the second data set. *)
Lemma C2_previous_state_not_preserved :
  CF.is_trained Retrain.trained = true
  /\ snd Retrain.second = Raise "SVD did not converge"
  /\ CF.is_trained (fst Retrain.second) = false
  /\ CF.item_index_map Retrain.trained = [("p0", 0%nat)]
  /\ CF.item_index_map (fst Retrain.second) = [("p1", 0%nat); ("p2", 1%nat)]
  /\ fst Retrain.second <> Retrain.trained.
Proof.
  assert (Ht := retrain_trained_is_trained).
  assert (Hf : CF.is_trained (fst Retrain.second) = false).
  { rewrite retrain_second_raises. reflexivity. }
  split; [exact Ht |].
  split; [rewrite retrain_second_raises; reflexivity |].
  split; [exact Hf |].
  split.
  { unfold Retrain.trained, Retrain.first_history, CF.train, CF.prepare_data.
    r_eval. reflexivity. }
  split.
  { rewrite retrain_second_raises.
    unfold CF.prepare_data, PartialFailure.interactions, Retrain.trained,
      Retrain.first_history, CF.train, CF.prepare_data.
    r_eval. reflexivity. }
  intros Heq. rewrite Heq in Hf. congruence.
Qed.

(** ** Cosine similarity *)

Lemma dot_comm (a b : vector) : dot a b = dot b a.
Proof.
  revert b. induction a as [|x a IH]; intros [|y b]; cbn; try reflexivity.
  rewrite IH. lra.
Qed.

Lemma dot_scaled (c : R) (a b : vector) :
  c <> 0 ->
  dot (map (fun x => x / c) a) (map (fun x => x / c) b) = dot a b / (c * c).
Proof.
  intros Hc. revert b. induction a as [|x a IH]; intros [|y b]; cbn;
    try (field; assumption).
  rewrite IH. field. assumption.
Qed.

Lemma dot_self_nonneg (a : vector) : 0 <= dot a a.
Proof. induction a as [|x a IH]; cbn; [lra | nra]. Qed.

Lemma dot_self_zero (a : vector) : dot a a = 0 <-> all_zero a.
Proof.
  unfold all_zero. induction a as [|x a IH]; cbn.
  - split; [constructor | reflexivity].
  - pose proof (dot_self_nonneg a) as Hn. split.
    + intros H. assert (x = 0) by nra. constructor; [assumption |].
      apply IH. nra.
    + intros H. inversion H as [|? ? Hx Ha]; subst.
      apply IH in Ha. rewrite Ha. lra.
Qed.

Lemma dot_self_app (a b : vector) : dot (a ++ b) (a ++ b) = dot a a + dot b b.
Proof. induction a as [|x a IH]; cbn; [lra | rewrite IH; lra]. Qed.

Lemma normalize_row_self (a : vector) :
  (all_zero a -> dot (normalize_row a) (normalize_row a) = 0)
  /\ (~ all_zero a -> dot (normalize_row a) (normalize_row a) = 1).
Proof.
  pose proof (dot_self_nonneg a) as Hn.
  unfold normalize_row, handle_zeros, row_norm.
  destruct (Req_dec_T (sqrt (dot a a)) 0) as [Hs | Hs].
  - apply sqrt_eq_0 in Hs; [| assumption].
    rewrite dot_scaled by lra. split; intros H.
    + rewrite Hs. lra.
    + exfalso. apply H. apply dot_self_zero. assumption.
  - assert (Hd : dot a a <> 0).
    { intros H0. apply Hs. rewrite H0. apply sqrt_0. }
    rewrite dot_scaled by assumption. rewrite sqrt_sqrt by assumption.
    split; intros H.
    + apply dot_self_zero in H. contradiction.
    + field. assumption.
Qed.

Lemma entry_map2 {A} (f : A -> A -> R) (l : list A) (i j : nat) :
  entry (map (fun a => map (fun b => f a b) l) l) i j =
    match nth_error l i, nth_error l j with
    | Some a, Some b => f a b
    | _, _ => 0
    end.
Proof.
  unfold entry.
  destruct (nth_error l i) as [a |] eqn:Hi.
  - rewrite (nth_error_nth _ _ [] (map_nth_error _ _ _ Hi)).
    destruct (nth_error l j) as [b |] eqn:Hj.
    + apply nth_error_nth. apply (map_nth_error (fun b => f a b)). exact Hj.
    + apply nth_overflow. rewrite length_map. apply nth_error_None. exact Hj.
  - rewrite nth_overflow with (n := i).
    + destruct j; reflexivity.
    + rewrite length_map. apply nth_error_None. exact Hi.
Qed.

Lemma cosine_similarity_square (x : matrix) :
  square (length x) (cosine_similarity x).
Proof.
  unfold square, cosine_similarity, cosine_similarity2, normalize. split.
  - rewrite !length_map. reflexivity.
  - apply Forall_forall. intros r Hr. apply in_map_iff in Hr.
    destruct Hr as (a & <- & _). rewrite !length_map. reflexivity.
Qed.

Lemma cosine_similarity_symmetric (x : matrix) : symmetric (cosine_similarity x).
Proof.
  intros i j. unfold cosine_similarity, cosine_similarity2.
  rewrite !(entry_map2 dot).
  repeat match goal with
         | |- context [match ?t with Some _ => _ | None => _ end] => destruct t
         end; try reflexivity.
  apply dot_comm.
Qed.

Lemma cosine_similarity_diagonal (x : matrix) :
  diagonal_of x (cosine_similarity x).
Proof.
  intros i a Hi. unfold cosine_similarity, cosine_similarity2.
  rewrite (entry_map2 dot). unfold normalize.
  rewrite (map_nth_error normalize_row _ _ Hi).
  apply normalize_row_self.
Qed.

(** ** Rows of the product features *)

Lemma In_insert_by {A} (le : A -> A -> bool) (x y : A) (l : list A) :
  In x (insert_by le y l) <-> x = y \/ In x l.
Proof.
  induction l as [|z l IH]; cbn.
  - intuition.
  - destruct (le y z); cbn; [intuition | rewrite IH; intuition].
Qed.

Lemma In_sort_by {A} (le : A -> A -> bool) (x : A) (l : list A) :
  In x (sort_by le l) <-> In x l.
Proof.
  unfold sort_by. induction l as [|y l IH]; cbn; [reflexivity |].
  rewrite In_insert_by, IH. intuition.
Qed.

Lemma In_sorted_unique (x : string) (l : list string) :
  In x (sorted_unique l) <-> In x l.
Proof. unfold sorted_unique. rewrite In_sort_by. apply nodup_In. Qed.

Lemma get_dummies_row (col : list string) (r : vector) :
  In r (CBF.get_dummies col) -> In 1 r.
Proof.
  unfold CBF.get_dummies. intros Hr. apply in_map_iff in Hr.
  destruct Hr as (v & <- & Hv). apply in_map_iff. exists v. split.
  - rewrite String.eqb_refl. reflexivity.
  - apply In_sorted_unique. exact Hv.
Qed.

Lemma In_hstack (a b : matrix) (row : vector) :
  In row (CBF.hstack a b) -> exists r s, row = r ++ s /\ In r a /\ In s b.
Proof.
  revert b. induction a as [|r a IH]; intros [|s b]; cbn; try contradiction.
  intros [<- | H].
  - exists r, s. intuition.
  - destruct (IH b H) as (r' & s' & -> & Hr & Hs). exists r', s'. intuition.
Qed.

Lemma one_not_all_zero (a : vector) : In 1 a -> ~ all_zero a.
Proof.
  intros H Hz. unfold all_zero in Hz. rewrite Forall_forall in Hz.
  specialize (Hz 1 H). lra.
Qed.

Lemma stacked_row_has_one (text scaled : matrix) (c1 c2 : list string)
    (row : vector) :
  In row (CBF.hstack text
            (CBF.hstack scaled (CBF.hstack (CBF.get_dummies c1) (CBF.get_dummies c2)))) ->
  In 1 row.
Proof.
  intros Hrow.
  destruct (In_hstack _ _ _ Hrow) as (t & r1 & -> & _ & H1).
  destruct (In_hstack _ _ _ H1) as (s & r2 & -> & _ & H2).
  destruct (In_hstack _ _ _ H2) as (c & pc & -> & Hc & _).
  pose proof (get_dummies_row _ _ Hc) as Hone.
  apply in_or_app. right. apply in_or_app. right. apply in_or_app. left. exact Hone.
Qed.

Lemma extract_features_rows (tfidf : list string -> result matrix)
    (df : list CBF.prepared) (features : matrix) :
  CBF.extract_features tfidf df = Ok features ->
  forall row, In row features -> ~ all_zero row.
Proof.
  intros H row Hrow.
  assert (Hcase : features = [] \/
            exists text,
              features =
                CBF.hstack text
                  (CBF.hstack (CBF.standard_scale (map CBF.p_price df))
                     (CBF.hstack (CBF.get_dummies (map CBF.p_category df))
                        (CBF.get_dummies (map CBF.price_category df))))).
  { unfold CBF.extract_features in H. destruct df as [|p df0].
    - left. congruence.
    - destruct (tfidf _) as [text |]; [| discriminate].
      right. exists text. congruence. }
  destruct Hcase as [-> | (text & ->)]; [contradiction |].
  apply one_not_all_zero. eapply stacked_row_has_one. exact Hrow.
Qed.

Lemma dot_zero_l (a b : vector) : all_zero a -> dot a b = 0.
Proof.
  unfold all_zero. intros Ha. revert b.
  induction Ha as [|x a Hx Ha IH]; intros [|y b]; cbn; try reflexivity.
  rewrite IH, Hx. lra.
Qed.

Lemma normalize_row_zero (a : vector) : all_zero a -> all_zero (normalize_row a).
Proof.
  unfold all_zero, normalize_row. intros Ha.
  generalize (handle_zeros (row_norm a)). intros h.
  induction Ha as [|x a Hx Ha IH]; cbn; constructor; [| exact IH].
  rewrite Hx. unfold Rdiv. apply Rmult_0_l.
Qed.

Lemma cosine_similarity_zero_rows (x : matrix) :
  zero_rows_vanish x (cosine_similarity x).
Proof.
  intros i a Hi Hz j.
  assert (Hij : entry (cosine_similarity x) i j = 0).
  { unfold cosine_similarity, cosine_similarity2.
    rewrite (entry_map2 dot). unfold normalize.
    rewrite (map_nth_error normalize_row _ _ Hi).
    destruct (nth_error (map normalize_row x) j); [| reflexivity].
    apply dot_zero_l, normalize_row_zero, Hz. }
  split; [exact Hij |]. rewrite cosine_similarity_symmetric. exact Hij.
Qed.

(** ** The similarity matrix of a trained filter *)

(** C9 (as the code has it).  After a training that returns with the filter
    trained, the similarity matrix is the cosine similarity of the (reduced)
    user-item matrix, respectively of the product features: it is square and
    symmetric.  Its diagonal is not 1 throughout: a user whose row is all zero
    has similarity 0 with every user, itself included.  No row of the product
    features is all zero.  (The diagonal entry of a row that is not all zero
    is the product of the normalised row with itself; no value is stated for
    it.) *)
Theorem C9_similarity_square_symmetric :
  (forall (svd : nat -> matrix -> result matrix) (self self' : CF.t)
          (xs : list CF.interaction),
      CF.train svd self xs = (self', Ok tt) ->
      CF.is_trained self' = true ->
      exists reduced,
        (let uim := CF.pivot_values (CF.prepare_data self xs) in
         if (CF.n_components self <? shape1 uim)%nat
         then svd (CF.n_components self) uim = Ok reduced
         else reduced = uim)
        /\ CF.user_similarity_matrix self' = Some (cosine_similarity reduced)
        /\ square (length reduced) (cosine_similarity reduced)
        /\ symmetric (cosine_similarity reduced)
        /\ zero_rows_vanish reduced (cosine_similarity reduced))
  /\
  (forall (tfidf : list string -> result matrix) (self self' : CBF.t)
          (ps : list CBF.product),
      CBF.train tfidf self ps = (self', Ok tt) ->
      CBF.is_trained self' = true ->
      exists features,
        CBF.extract_features tfidf (CBF.prepare_product_data ps) = Ok features
        /\ CBF.product_similarity_matrix self' = Some (cosine_similarity features)
        /\ square (length features) (cosine_similarity features)
        /\ symmetric (cosine_similarity features)
        /\ (forall row, In row features -> ~ all_zero row)).
Proof.
  split.
  - intros svd self self' xs H Htr.
    rewrite cf_train_cases in H. cbv zeta in H.
    destruct (nonempty (CF.prepare_data self xs)) eqn:Hne.
    2:{ injection H as <-. discriminate Htr. }
    assert (Hm : snd (CF.create_user_item_matrix self (CF.prepare_data self xs))
                 = CF.pivot_values (CF.prepare_data self xs)).
    { unfold CF.create_user_item_matrix.
      destruct (CF.prepare_data self xs); [discriminate | reflexivity]. }
    rewrite Hm in H.
    destruct (size _ =? 0)%nat.
    { injection H as <-. discriminate Htr. }
    cbv zeta.
    destruct (CF.n_components self <? _)%nat.
    + destruct (svd _ _) as [reduced | e]; [| discriminate].
      injection H as <-. exists reduced.
      split; [reflexivity |]. split; [reflexivity |].
      split; [apply cosine_similarity_square |].
      split; [apply cosine_similarity_symmetric | apply cosine_similarity_zero_rows].
    + injection H as <-. eexists.
      split; [reflexivity |]. split; [reflexivity |].
      split; [apply cosine_similarity_square |].
      split; [apply cosine_similarity_symmetric | apply cosine_similarity_zero_rows].
  - intros tfidf self self' ps H Htr.
    rewrite cbf_train_cases in H. cbv zeta in H.
    destruct (nonempty (CBF.prepare_product_data ps)).
    2:{ injection H as <-. discriminate Htr. }
    destruct (CBF.extract_features tfidf _) as [features | e] eqn:Hx; [| discriminate].
    destruct (size features =? 0)%nat.
    { injection H as <-. discriminate Htr. }
    injection H as <-. exists features.
    split; [reflexivity |]. split; [reflexivity |].
    split; [apply cosine_similarity_square |].
    split; [apply cosine_similarity_symmetric |].
    apply (extract_features_rows _ _ _ Hx).
Qed.

Lemma zero_row_prepared :
  CF.prepare_data (CF.init 50 5) ZeroRow.history
  = [ {| CF.row := Scoring.record "u" "p1" 1 ["view"]; CF.score := 0 |} ].
Proof. unfold CF.prepare_data, ZeroRow.history. r_eval. reflexivity. Qed.

Lemma zero_row_run :
  exists z, all_zero [z]
    /\ ZeroRow.run
       = (CF.set_is_trained true
            (CF.set_user_similarity_matrix (cosine_similarity [[z]])
               (CF.set_user_item_matrix [[z]]
                  (CF.set_index_maps [("u", 0%nat)] [("p1", 0%nat)]
                     [(0%nat, "u")] [(0%nat, "p1")] (CF.init 50 5)))),
          Ok tt).
Proof.
  eexists. split.
  2:{ unfold ZeroRow.run. rewrite cf_train_cases. cbv zeta.
      rewrite zero_row_prepared. cbn -[cosine_similarity]. reflexivity. }
  constructor; [| constructor]. unfold mean, sum. cbn. lra.
Qed.

(** C9 (fails on the code).  On [ZeroRow.history] the training returns with
    the filter trained, the user-item matrix has the single row of user ["u"],
    which is zero, and the diagonal entry of that user in the similarity matrix
    is 0, not 1. *)
Lemma C9_zero_row_has_zero_diagonal :
  snd ZeroRow.run = Ok tt
  /\ CF.is_trained (fst ZeroRow.run) = true
  /\ CF.user_index_map (fst ZeroRow.run) = [("u", 0%nat)]
  /\ exists m, CF.user_similarity_matrix (fst ZeroRow.run) = Some m
               /\ entry m 0 0 = 0 /\ entry m 0 0 <> 1.
Proof.
  destruct zero_row_run as (z & Hz & ->). cbn [fst snd].
  repeat split; try reflexivity.
  eexists. split; [reflexivity |].
  assert (H0 : entry (cosine_similarity [[z]]) 0 0 = 0).
  { apply (cosine_similarity_diagonal [[z]] 0%nat [z] eq_refl). exact Hz. }
  split; [exact H0 | rewrite H0; lra].
Qed.

Lemma C9_similarity_square_symmetric_witness :
  exists reduced,
    CF.user_similarity_matrix (fst ZeroRow.run) = Some (cosine_similarity reduced)
    /\ square (length reduced) (cosine_similarity reduced)
    /\ symmetric (cosine_similarity reduced)
    /\ zero_rows_vanish reduced (cosine_similarity reduced).
Proof.
  assert (Hrun : ZeroRow.run = (fst ZeroRow.run, Ok tt)).
  { destruct zero_row_run as (z & _ & ->). reflexivity. }
  assert (Htr : CF.is_trained (fst ZeroRow.run) = true).
  { destruct zero_row_run as (z & _ & ->). reflexivity. }
  destruct (proj1 C9_similarity_square_symmetric _ _ _ _ Hrun Htr)
    as (reduced & _ & H1 & H2 & H3 & H4).
  exists reduced. exact (conj H1 (conj H2 (conj H3 H4))).
Defined.

(** ** Similar products *)

Ltac d_cbn := cbn -[Rleb Rltb dot normalize_row].
Ltac d_eval := d_cbn; repeat (r_step; d_cbn).

Lemma twins_trained_shape :
  exists x,
    Twins.trained
    = CBF.set_is_trained true
        (CBF.set_product_similarity_matrix
           (cosine_similarity [[1; x; 1; 1]; [1; x; 1; 1]])
           (CBF.set_product_features [[1; x; 1; 1]; [1; x; 1; 1]]
              (CBF.set_index_maps [("p0", 0%nat); ("p1", 1%nat)]
                 [(0%nat, "p0"); (1%nat, "p1")] (CBF.init 1000)))).
Proof.
  eexists. unfold Twins.trained. rewrite cbf_train_cases. cbv zeta.
  unfold CBF.prepare_product_data, CBF.prepare_row, CBF.price_bucket.
  r_eval. reflexivity.
Qed.

Lemma twins_trained :
  exists f,
    ~ all_zero f
    /\ Twins.trained
       = CBF.set_is_trained true
           (CBF.set_product_similarity_matrix (cosine_similarity [f; f])
              (CBF.set_product_features [f; f]
                 (CBF.set_index_maps [("p0", 0%nat); ("p1", 1%nat)]
                    [(0%nat, "p0"); (1%nat, "p1")] (CBF.init 1000)))).
Proof.
  destruct twins_trained_shape as (x & H). exists [1; x; 1; 1].
  split; [apply one_not_all_zero; left; reflexivity | exact H].
Qed.

(** C6 (fails on the code).  The catalog of [Twins] holds the same product
    under the ids ["p0"] and ["p1"]; the content filter is trained on it.  The
    two similarities of ["p0"] are equal, the ascending [argsort] lists position
    0 before position 1, the reversal puts position 1 first, and the entry that
    is skipped is ["p1"]: the one product similar to ["p0"] is ["p0"] itself,
    with similarity 1. *)
Theorem C6_twin_product_recommends_itself :
  CBF.is_trained Twins.trained = true
  /\ dict_get String.eqb (CBF.product_index_map Twins.trained) "p0" = Some 0%nat
  /\ CBF.get_similar_products Twins.trained "p0" 1 = [("p0", 1)]
  /\ In "p0" (map fst (CBF.get_similar_products Twins.trained "p0" 1)).
Proof.
  destruct twins_trained as (f & Hf & ->).
  assert (H : CBF.get_similar_products
                (CBF.set_is_trained true
                   (CBF.set_product_similarity_matrix (cosine_similarity [f; f])
                      (CBF.set_product_features [f; f]
                         (CBF.set_index_maps [("p0", 0%nat); ("p1", 1%nat)]
                            [(0%nat, "p0"); (1%nat, "p1")] (CBF.init 1000)))))
                "p0" 1
              = [("p0", 1)]).
  { unfold CBF.get_similar_products, CBF.similar_products_idx, argsort.
    d_eval. rewrite (proj2 (normalize_row_self f) Hf). reflexivity. }
  split; [reflexivity |]. split; [reflexivity |].
  split; [exact H |]. rewrite H. left. reflexivity.
Qed.

(** ** Sorting *)

Section Sorting.
Context {A : Type} (le : A -> A -> bool).

Lemma Permutation_insert_by (x : A) (l : list A) :
  Permutation (insert_by le x l) (x :: l).
Proof.
  induction l as [|y l IH]; cbn; [reflexivity |].
  destruct (le x y); [reflexivity |].
  transitivity (y :: x :: l); [apply perm_skip, IH | apply perm_swap].
Qed.

Lemma Permutation_sort_by (l : list A) : Permutation (sort_by le l) l.
Proof.
  unfold sort_by. induction l as [|x l IH]; cbn; [constructor |].
  etransitivity; [apply Permutation_insert_by | apply perm_skip, IH].
Qed.

Hypothesis le_total : forall x y, le x y = true \/ le y x = true.
Hypothesis le_trans : forall x y z, le x y = true -> le y z = true -> le x z = true.

Lemma sorted_insert_by (x : A) (l : list A) :
  StronglySorted (fun a b => le a b = true) l ->
  StronglySorted (fun a b => le a b = true) (insert_by le x l).
Proof.
  induction l as [|y l IH]; intros HS; cbn.
  - constructor; constructor.
  - apply StronglySorted_inv in HS. destruct HS as [HS Hy].
    destruct (le x y) eqn:E.
    + constructor; [constructor; assumption |].
      constructor; [assumption |].
      eapply Forall_impl; [| exact Hy]. intros z Hz. eapply le_trans; eassumption.
    + constructor; [apply IH; assumption |].
      apply Forall_forall. intros z Hz. apply In_insert_by in Hz.
      destruct Hz as [-> | Hz].
      * destruct (le_total x y) as [H | H]; [congruence | exact H].
      * rewrite Forall_forall in Hy. apply Hy. exact Hz.
Qed.

Lemma sorted_sort_by (l : list A) :
  StronglySorted (fun a b => le a b = true) (sort_by le l).
Proof.
  unfold sort_by. induction l as [|x l IH]; cbn; [constructor |].
  apply sorted_insert_by. exact IH.
Qed.
End Sorting.

Section Sublists.
Context {A : Type} (P : A -> A -> Prop).

Lemma StronglySorted_snoc (l : list A) (x : A) :
  StronglySorted P l -> Forall (fun a => P a x) l -> StronglySorted P (l ++ [x]).
Proof.
  induction l as [|y l IH]; intros HS HF; cbn.
  - constructor; constructor.
  - apply StronglySorted_inv in HS. destruct HS as [HS Hy].
    inversion HF as [|? ? Hyx HF']; subst.
    constructor; [apply IH; assumption |].
    apply Forall_app. split; [assumption | constructor; [assumption | constructor]].
Qed.

Lemma StronglySorted_firstn (n : nat) (l : list A) :
  StronglySorted P l -> StronglySorted P (firstn n l).
Proof.
  revert n. induction l as [|x l IH]; intros [|n] HS; cbn; try constructor.
  - apply IH. apply StronglySorted_inv in HS. tauto.
  - apply StronglySorted_inv in HS. destruct HS as [_ Hx].
    rewrite Forall_forall in *. intros y Hy. apply Hx.
    rewrite <- (firstn_skipn n l). apply in_or_app. left. exact Hy.
Qed.

Lemma StronglySorted_skipn (n : nat) (l : list A) :
  StronglySorted P l -> StronglySorted P (skipn n l).
Proof.
  revert n. induction l as [|x l IH]; intros [|n] HS; cbn; try assumption.
  apply IH. apply StronglySorted_inv in HS. tauto.
Qed.

Lemma StronglySorted_filter (f : A -> bool) (l : list A) :
  StronglySorted P l -> StronglySorted P (filter f l).
Proof.
  induction l as [|x l IH]; intros HS; cbn; [constructor |].
  apply StronglySorted_inv in HS. destruct HS as [HS Hx].
  destruct (f x); [| apply IH; assumption].
  constructor; [apply IH; assumption |].
  rewrite Forall_forall in *. intros y Hy. apply Hx.
  apply filter_In in Hy. tauto.
Qed.

Lemma StronglySorted_slice (a b : Z) (l : list A) :
  StronglySorted P l -> StronglySorted P (slice a b l).
Proof.
  intros HS. unfold slice. apply StronglySorted_firstn, StronglySorted_skipn, HS.
Qed.
End Sublists.

Lemma StronglySorted_rev {A} (P : A -> A -> Prop) (l : list A) :
  StronglySorted P l -> StronglySorted (fun a b => P b a) (rev l).
Proof.
  induction l as [|x l IH]; intros HS; cbn; [constructor |].
  apply StronglySorted_inv in HS. destruct HS as [HS Hx].
  apply StronglySorted_snoc; [apply IH; assumption |].
  rewrite Forall_forall in *. intros y Hy. apply Hx. apply in_rev. exact Hy.
Qed.

(** ** [argsort] is stable *)

Lemma insert_by_stable (v : vector) (x : nat) (l : list nat) :
  StronglySorted (fun i j => ranked_before v j i) l ->
  Forall (fun y => (x < y)%nat) l ->
  StronglySorted (fun i j => ranked_before v j i)
    (insert_by (fun i j => Rleb (nth i v 0) (nth j v 0)) x l).
Proof.
  unfold ranked_before.
  induction l as [|y l IH]; intros HS HF; cbn.
  - constructor; constructor.
  - apply StronglySorted_inv in HS. destruct HS as [HS Hy].
    inversion HF as [|? ? Hxy HF']; subst.
    destruct (Rleb (nth x v 0) (nth y v 0)) eqn:E.
    + apply Rleb_spec in E.
      constructor; [constructor; assumption |].
      constructor.
      * destruct (Rle_lt_or_eq_dec _ _ E); [left; assumption | right; split; assumption].
      * rewrite Forall_forall in *. intros z Hz.
        specialize (Hy z Hz). specialize (HF' z Hz).
        destruct Hy as [Hy | [Hy Hlt]]; [left; lra |].
        destruct (Rle_lt_or_eq_dec _ _ E) as [Hl | He]; [left; lra |].
        right. split; [congruence | lia].
    + assert (Hlt : nth y v 0 < nth x v 0).
      { destruct (Rlt_dec (nth y v 0) (nth x v 0)) as [H | H]; [exact H |].
        rewrite Rleb_true in E by lra. discriminate. }
      constructor; [apply IH; assumption |].
      apply Forall_forall. intros z Hz. apply In_insert_by in Hz.
      destruct Hz as [-> | Hz]; [left; exact Hlt |].
      rewrite Forall_forall in Hy. apply Hy. exact Hz.
Qed.

Lemma sort_seq_stable (v : vector) (n a : nat) :
  StronglySorted (fun i j => ranked_before v j i)
    (sort_by (fun i j => Rleb (nth i v 0) (nth j v 0)) (seq a n)).
Proof.
  revert a. induction n as [|n IH]; intros a; cbn; [constructor |].
  apply insert_by_stable; [apply IH |].
  apply Forall_forall. intros y Hy. apply In_sort_by in Hy.
  apply in_seq in Hy. lia.
Qed.

Lemma argsort_reversed_ranked (v : vector) :
  StronglySorted (ranked_before v) (reversed (argsort v)).
Proof.
  unfold reversed, argsort.
  apply (StronglySorted_rev (fun i j => ranked_before v j i)).
  apply sort_seq_stable.
Qed.

Lemma argsort_Permutation (v : vector) :
  Permutation (argsort v) (seq 0 (length v)).
Proof. apply Permutation_sort_by. Qed.

Lemma length_take {A} (n : Z) (l : list A) :
  (0 <= n)%Z -> (Z.of_nat (length (take n l)) <= n)%Z.
Proof.
  intros Hn. unfold take, slice, clamp_index.
  rewrite length_firstn. destruct (n <? 0)%Z eqn:E; [apply Z.ltb_lt in E; lia |].
  cbn [Z.ltb Z.compare]. lia.
Qed.

(** ** Arrays *)

Lemma nth_error_combine_seq {A} (a : list A) (s j : nat) :
  nth_error (combine (seq s (length a)) a) j
  = option_map (fun x => ((s + j)%nat, x)) (nth_error a j).
Proof.
  revert s j. induction a as [|x a IH]; intros s [|j]; cbn; try reflexivity.
  - rewrite Nat.add_0_r. reflexivity.
  - rewrite IH. rewrite Nat.add_succ_r. reflexivity.
Qed.

Lemma nth_error_enumerate {A} (a : list A) (j : nat) :
  nth_error (enumerate a) j = option_map (fun x => (j, x)) (nth_error a j).
Proof. unfold enumerate. apply nth_error_combine_seq. Qed.

Lemma positive_in_range (a : vector) (j : nat) :
  0 < nth j a 0 -> nth_error a j = Some (nth j a 0).
Proof.
  intros H. destruct (nth_error a j) as [x |] eqn:E.
  - rewrite (nth_error_nth _ _ 0 E). reflexivity.
  - apply nth_error_None in E. rewrite nth_overflow in H by assumption. lra.
Qed.

Lemma In_where_positive (a : vector) (j : nat) :
  0 < nth j a 0 -> In j (where_positive a).
Proof.
  intros H. unfold where_positive. apply in_map_iff.
  exists (j, nth j a 0). split; [reflexivity |].
  apply filter_In. split.
  - apply nth_error_In with (n := j). rewrite nth_error_enumerate.
    rewrite (positive_in_range a j H). reflexivity.
  - apply Rltb_true. exact H.
Qed.

Lemma nth_zero_at (idx : list nat) (a : vector) (j : nat) :
  In j idx -> nth j (zero_at idx a) 0 = 0.
Proof.
  intros Hj. unfold zero_at.
  destruct (nth_error (enumerate a) j) as [p |] eqn:E.
  - rewrite (nth_error_nth _ _ 0 (map_nth_error _ _ _ E)).
    rewrite nth_error_enumerate in E.
    destruct (nth_error a j); [| discriminate]. injection E as <-. cbn [fst].
    replace (existsb (Nat.eqb j) idx) with true; [reflexivity |].
    symmetry. apply existsb_exists. exists j. split; [assumption | apply Nat.eqb_refl].
  - apply nth_overflow. rewrite length_map. apply nth_error_None. exact E.
Qed.

Lemma Forall2_In_r {A B} (P : A -> B -> Prop) (l : list A) (l' : list B) (b : B) :
  Forall2 P l l' -> In b l' -> exists a, In a l /\ P a b.
Proof.
  induction 1 as [|x y l l' Hxy HF IH]; intros Hb; [contradiction |].
  destruct Hb as [<- | Hb].
  - exists x. split; [left; reflexivity | assumption].
  - destruct (IH Hb) as (a & Ha & Hab). exists a. split; [right |]; assumption.
Qed.

Lemma Forall2_sorted {A B} (P : A -> B -> Prop) (Q : A -> A -> Prop)
    (Q' : B -> B -> Prop) (l : list A) (l' : list B) :
  (forall i j a b, P i a -> P j b -> Q i j -> Q' a b) ->
  Forall2 P l l' -> StronglySorted Q l -> StronglySorted Q' l'.
Proof.
  intros HPQ. induction 1 as [|x y l l' Hxy HF IH]; intros HS; [constructor |].
  apply StronglySorted_inv in HS. destruct HS as [HS Hx].
  constructor; [apply IH; assumption |].
  apply Forall_forall. intros b Hb.
  destruct (Forall2_In_r _ _ _ _ HF Hb) as (a & Ha & Hab).
  rewrite Forall_forall in Hx. eapply HPQ; [exact Hxy | exact Hab | apply Hx, Ha].
Qed.

(** ** The recommendations of the collaborative filter *)

Lemma collect_spec (rm : dict nat string) (s : vector) (idx : list nat)
    (out : list (string * R)) :
  CF.collect rm s idx = Some out ->
  lists_columns rm s (filter (fun i => Rltb 0 (nth i s 0)) idx) out.
Proof.
  unfold lists_columns. revert out. induction idx as [|i idx IH]; intros out H; cbn in *.
  - injection H as <-. constructor.
  - destruct (Rltb 0 (nth i s 0)); [| apply IH; assumption].
    destruct (dict_get Nat.eqb rm i) as [p |] eqn:Hp; [| discriminate]. cbn in H.
    destruct (CF.collect rm s idx) as [tl |]; [| discriminate]. cbn in H.
    injection H as <-. constructor; [split; [exact Hp | reflexivity] |].
    apply IH. reflexivity.
Qed.

Lemma get_user_recommendations_cases (self : CF.t) (user_id : string) (n : Z) :
  CF.get_user_recommendations self user_id n = []
  \/ exists user_idx item_scores,
       CF.is_trained self = true
       /\ dict_get String.eqb (CF.user_index_map self) user_id = Some user_idx
       /\ CF.item_scores_of self user_idx = Some item_scores
       /\ CF.collect (CF.reverse_item_map self) item_scores
            (CF.top_items_idx item_scores n)
          = Some (CF.get_user_recommendations self user_id n).
Proof.
  unfold CF.get_user_recommendations.
  destruct (CF.is_trained self); cbn [negb]; [| left; reflexivity].
  destruct (dict_get String.eqb (CF.user_index_map self) user_id) as [user_idx |];
    [| left; reflexivity].
  destruct (CF.item_scores_of self user_idx) as [item_scores |] eqn:Hs;
    [| left; reflexivity].
  cbn [bind].
  destruct (CF.collect _ _ _) as [out |] eqn:Hc; [| left; reflexivity].
  right. exists user_idx, item_scores. cbn [or_else]. auto.
Qed.

Lemma recommended_columns (self : CF.t) (user_id : string) (n : Z) :
  exists item_scores cols,
    lists_columns (CF.reverse_item_map self) item_scores cols
      (CF.get_user_recommendations self user_id n)
    /\ StronglySorted (ranked_before item_scores) cols
    /\ Forall (fun j => 0 < nth j item_scores 0) cols
    /\ (0 <= n -> Z.of_nat (length cols) <= n)%Z
    /\ NoDup cols.
Proof.
  destruct (get_user_recommendations_cases self user_id n)
    as [-> | (user_idx & s & _ & _ & _ & Hc)].
  - exists [], []. repeat split; try constructor. intros; cbn; assumption.
  - exists s, (filter (fun i => Rltb 0 (nth i s 0)) (CF.top_items_idx s n)).
    split; [apply collect_spec; exact Hc |].
    split.
    { apply StronglySorted_filter. unfold CF.top_items_idx, take.
      apply StronglySorted_slice. apply argsort_reversed_ranked. }
    split.
    { apply Forall_forall. intros j Hj. apply filter_In in Hj.
      apply Rltb_spec. tauto. }
    split.
    { intros Hn. pose proof (length_take n (reversed (argsort s)) Hn) as Hl.
      pose proof (filter_length_le (fun i => Rltb 0 (nth i s 0))
                    (CF.top_items_idx s n)) as Hf.
      unfold CF.top_items_idx in *. lia. }
    apply NoDup_filter. unfold CF.top_items_idx, take, slice.
    assert (Hnd : NoDup (reversed (argsort s))).
    { apply NoDup_rev. eapply Permutation_NoDup;
        [symmetry; apply argsort_Permutation | apply seq_NoDup]. }
    set (l := reversed (argsort s)) in *.
    set (a := clamp_index (length l) 0). set (b := clamp_index (length l) n).
    rewrite <- (firstn_skipn a l) in Hnd. apply NoDup_app_remove_l in Hnd.
    rewrite <- (firstn_skipn (b - a) (skipn a l)) in Hnd.
    apply NoDup_app_remove_r in Hnd. exact Hnd.
Qed.

(** C5 (as the code has it).  [get_user_recommendations] returns at most [n]
    pairs (for a count [n >= 0]), each with a strictly positive score, in
    descending order of score.  Nothing is stated on the order of two pairs
    with the same score: it is the order [np.argsort] leaves them in,
    reversed, and the code asks no stable sort of it. *)
Theorem C5_top_n_positive_descending :
  forall (self : CF.t) (user_id : string) (n : Z),
    let out := CF.get_user_recommendations self user_id n in
    ((0 <= n)%Z -> (Z.of_nat (length out) <= n)%Z)
    /\ Forall (fun ps => 0 < snd ps) out
    /\ StronglySorted (fun a b => snd b <= snd a) out.
Proof.
  intros self user_id n out.
  destruct (recommended_columns self user_id n)
    as (s & cols & Hl & Hs & Hp & Hn & _).
  fold out in Hl.
  assert (Hlen : length out = length cols).
  { symmetry. eapply Forall2_length. exact Hl. }
  split; [rewrite Hlen; exact Hn |].
  split.
  { apply Forall_forall. intros ps Hps.
    destruct (Forall2_In_r _ _ _ _ Hl Hps) as (j & Hj & _ & ->).
    rewrite Forall_forall in Hp. apply Hp, Hj. }
  refine (Forall2_sorted _ (ranked_before s) _ cols out _ Hl Hs).
  intros i j a b [_ ->] [_ ->] [H | [H _]]; lra.
Qed.

Lemma cosine_similarity_same_axis :
  cosine_similarity [[1]; [1]] = [[1; 1]; [1; 1]].
Proof.
  unfold cosine_similarity, cosine_similarity2. d_cbn.
  assert (H : ~ all_zero [1]) by (apply one_not_all_zero; left; reflexivity).
  rewrite (proj2 (normalize_row_self [1]) H). reflexivity.
Qed.

Lemma ties_trained :
  exists e, e = 1
    /\ Ties.trained
       = CF.set_is_trained true
           (CF.set_user_similarity_matrix [[1; 1]; [1; 1]]
              (CF.set_user_item_matrix [[e; e; e]; [e; 0; 0]]
                 (CF.set_index_maps
                    [("u1", 0%nat); ("u2", 1%nat)]
                    [("p0", 0%nat); ("p1", 1%nat); ("p2", 2%nat)]
                    [(0%nat, "u1"); (1%nat, "u2")]
                    [(0%nat, "p0"); (1%nat, "p1"); (2%nat, "p2")]
                    (CF.init 1 1)))).
Proof.
  eexists. split.
  2:{ unfold Ties.trained. rewrite cf_train_cases. cbv zeta.
      unfold CF.prepare_data, Ties.history. r_eval.
      rewrite cosine_similarity_same_axis. reflexivity. }
  unfold mean, sum. cbn. lra.
Qed.

Lemma ties_recommendations :
  CF.get_user_recommendations Ties.trained "u2" 2 = [("p2", 1); ("p1", 1)].
Proof.
  destruct ties_trained as (e & He & ->).
  unfold CF.get_user_recommendations, CF.item_scores_of, CF.top_items_idx, argsort.
  r_eval. subst e. repeat f_equal; lra.
Qed.

(** C5 (fails on the code).  In [Ties] the products ["p1"] (column 1) and
    ["p2"] (column 2) reach the same score for user ["u2"].  With the stable
    sort the claim speaks of (the one [np.argsort] runs on an array this
    short), the ascending order is columns 0, 1, 2 and the code reverses it:
    the list names ["p2"] first, not ["p1"]. *)
Lemma C5_equal_scores_in_reverse_column_order :
  CF.is_trained Ties.trained = true
  /\ dict_get String.eqb (CF.item_index_map Ties.trained) "p1" = Some 1%nat
  /\ dict_get String.eqb (CF.item_index_map Ties.trained) "p2" = Some 2%nat
  /\ CF.get_user_recommendations Ties.trained "u2" 2 = [("p2", 1); ("p1", 1)].
Proof.
  split; [| split; [| split]]; try exact ties_recommendations;
    destruct ties_trained as (e & He & ->); reflexivity.
Qed.

Lemma C5_top_n_positive_descending_witness :
  (Z.of_nat (length (CF.get_user_recommendations Ties.trained "u2" 2)) <= 2)%Z.
Proof.
  apply (proj1 (C5_top_n_positive_descending Ties.trained "u2" 2)). lia.
Defined.

(** A product whose column holds a positive entry in the user's row of the
    user-item matrix has its score forced to 0 before the ranking, and is not
    in the list [get_user_recommendations] returns (the reverse item map
    naming every column differently, as the training builds it).  A product
    the user interacted with at score 0 has no such entry. *)
Theorem positive_entries_are_excluded :
  forall (self : CF.t) (user_id : string) (n : Z) (user_idx : nat) (uim : matrix)
         (user_interactions : vector) (j : nat) (product_id : string),
    dict_get String.eqb (CF.user_index_map self) user_id = Some user_idx ->
    CF.user_item_matrix self = Some uim ->
    nth_error uim user_idx = Some user_interactions ->
    0 < nth j user_interactions 0 ->
    dict_get Nat.eqb (CF.reverse_item_map self) j = Some product_id ->
    dict_injective (CF.reverse_item_map self) ->
    (forall item_scores,
        CF.item_scores_of self user_idx = Some item_scores -> nth j item_scores 0 = 0)
    /\ ~ In product_id (map fst (CF.get_user_recommendations self user_id n)).
Proof.
  intros self user_id n user_idx uim user_interactions j product_id
         Hu Hm Hrow Hpos Hj Hinj.
  assert (Hzero : forall item_scores,
             CF.item_scores_of self user_idx = Some item_scores ->
             nth j item_scores 0 = 0).
  { intros s Hs. unfold CF.item_scores_of in Hs.
    destruct (CF.user_similarity_matrix self) as [sims |]; [| discriminate].
    cbn [bind] in Hs.
    destruct (nth_error sims user_idx) as [user_similarities |]; [| discriminate].
    cbn [bind] in Hs. rewrite Hm in Hs. cbn [bind] in Hs.
    rewrite Hrow in Hs. cbn [bind] in Hs.
    destruct (CF.accumulate_scores _ _ _ _) as [acc |]; [| discriminate].
    cbn [bind] in Hs. injection Hs as <-.
    apply nth_zero_at. apply In_where_positive. exact Hpos. }
  split; [exact Hzero |].
  intros Hin.
  destruct (get_user_recommendations_cases self user_id n)
    as [Hnil | (user_idx' & s & _ & Hu' & Hs & Hc)].
  - rewrite Hnil in Hin. contradiction.
  - rewrite Hu in Hu'. injection Hu' as <-.
    apply collect_spec in Hc. apply in_map_iff in Hin.
    destruct Hin as (ps & Hfst & Hps).
    destruct (Forall2_In_r _ _ _ _ Hc Hps) as (i & Hi & Hget & _).
    apply filter_In in Hi. destruct Hi as [_ Hi]. apply Rltb_spec in Hi.
    rewrite Hfst in Hget.
    rewrite (Hinj i j product_id Hget Hj) in Hi.
    rewrite (Hzero s Hs) in Hi. lra.
Qed.

Lemma positive_entries_are_excluded_witness :
  ~ In "p0" (map fst (CF.get_user_recommendations Ties.trained "u2" 2)).
Proof.
  destruct ties_trained as (e & He & Heq).
  refine (proj2 (positive_entries_are_excluded Ties.trained "u2" 2 1%nat
                   [[e; e; e]; [e; 0; 0]] [e; 0; 0] 0%nat "p0" _ _ _ _ _ _)).
  - rewrite Heq. reflexivity.
  - rewrite Heq. reflexivity.
  - reflexivity.
  - cbn. lra.
  - rewrite Heq. reflexivity.
  - rewrite Heq. intros i k p. cbn.
    destruct i as [|[|[|i]]], k as [|[|[|k]]]; cbn; congruence.
Defined.

(** ** Dictionaries *)

Section DictFacts.
Context {K V : Type} (eqb : K -> K -> bool).
Hypothesis eqb_spec : forall x y, eqb x y = true <-> x = y.

Lemma eqb_refl' (x : K) : eqb x x = true.
Proof. apply eqb_spec. reflexivity. Qed.

Lemma dict_get_set (d : dict K V) (k k' : K) (v : V) :
  dict_get eqb (dict_set eqb d k v) k'
  = if eqb k' k then Some v else dict_get eqb d k'.
Proof.
  induction d as [|[k0 v0] d IH]; cbn.
  - reflexivity.
  - destruct (eqb k k0) eqn:E; cbn.
    + apply eqb_spec in E. subst k0. destruct (eqb k' k); reflexivity.
    + rewrite IH. destruct (eqb k' k0) eqn:E0; [| reflexivity].
      destruct (eqb k' k) eqn:E1; [| reflexivity].
      apply eqb_spec in E0, E1. subst. rewrite eqb_refl' in E. discriminate.
Qed.

Lemma dict_keys_set (d : dict K V) (k : K) (v : V) :
  dict_keys (dict_set eqb d k v)
  = if dict_in eqb d k then dict_keys d else dict_keys d ++ [k].
Proof.
  unfold dict_in, dict_keys. induction d as [|[k0 v0] d IH]; cbn.
  - reflexivity.
  - destruct (eqb k k0) eqn:E; cbn; [reflexivity |].
    rewrite IH. destruct (dict_get eqb d k); reflexivity.
Qed.

Lemma dict_get_In (d : dict K V) (k : K) (v : V) :
  dict_get eqb d k = Some v -> In (k, v) d.
Proof.
  induction d as [|[k0 v0] d IH]; cbn; [discriminate |].
  destruct (eqb k k0) eqn:E.
  - apply eqb_spec in E. intros [= ->]. left. congruence.
  - intros H. right. apply IH. exact H.
Qed.

Lemma dict_get_None (d : dict K V) (k : K) :
  dict_get eqb d k = None -> ~ In k (dict_keys d).
Proof.
  unfold dict_keys. induction d as [|[k0 v0] d IH]; cbn; [tauto |].
  destruct (eqb k k0) eqn:E; [discriminate |].
  intros H [H0 | H0].
  - subst k0. rewrite eqb_refl' in E. discriminate.
  - exact (IH H H0).
Qed.

Lemma In_dict_get (d : dict K V) (k : K) (v : V) :
  NoDup (dict_keys d) -> In (k, v) d -> dict_get eqb d k = Some v.
Proof.
  unfold dict_keys. induction d as [|[k0 v0] d IH]; cbn; [contradiction |].
  intros Hnd [H | H].
  - injection H as -> ->. rewrite eqb_refl'. reflexivity.
  - inversion Hnd as [|? ? Hnot Hnd']; subst.
    destruct (eqb k k0) eqn:E.
    + apply eqb_spec in E. subst k0. exfalso. apply Hnot.
      apply in_map_iff. exists (k, v). split; [reflexivity | assumption].
    + apply IH; assumption.
Qed.

Lemma NoDup_keys_set (d : dict K V) (k : K) (v : V) :
  NoDup (dict_keys d) -> NoDup (dict_keys (dict_set eqb d k v)).
Proof.
  intros Hnd. rewrite dict_keys_set. unfold dict_in.
  destruct (dict_get eqb d k) eqn:E; [assumption |].
  apply dict_get_None in E.
  apply NoDup_app; [assumption | constructor; [intros [] | constructor] |].
  intros x Hx [<- | []]. contradiction.
Qed.

(** A comprehension over distinct keys is the list itself. *)
Lemma dict_of_fold (l acc : list (K * V)) :
  NoDup (map fst (acc ++ l)) ->
  fold_left (fun d kv => dict_set eqb d (fst kv) (snd kv)) l acc = acc ++ l.
Proof.
  revert acc. induction l as [|[k v] l IH]; intros acc Hnd; cbn.
  - rewrite app_nil_r. reflexivity.
  - assert (Hset : dict_set eqb acc k v = acc ++ [(k, v)]).
    { assert (Hk : ~ In k (map fst acc)).
      { rewrite map_app in Hnd. cbn in Hnd.
        apply NoDup_remove_2 in Hnd. intros H. apply Hnd.
        apply in_or_app. left. exact H. }
      clear - Hk eqb_spec. induction acc as [|[k0 v0] acc IH]; cbn; [reflexivity |].
      destruct (eqb k k0) eqn:E.
      - apply eqb_spec in E. subst. exfalso. apply Hk. left. reflexivity.
      - rewrite IH; [reflexivity |]. intros H. apply Hk. right. exact H. }
    rewrite Hset. rewrite IH.
    + rewrite <- app_assoc. reflexivity.
    + rewrite <- app_assoc. exact Hnd.
Qed.

Lemma dict_of_distinct (l : list (K * V)) :
  NoDup (map fst l) -> dict_of eqb l = l.
Proof. intros H. unfold dict_of. rewrite dict_of_fold; [reflexivity | exact H]. Qed.
End DictFacts.

Lemma string_eqb_spec (x y : string) : String.eqb x y = true <-> x = y.
Proof. apply String.eqb_eq. Qed.

Lemma nat_eqb_spec (x y : nat) : Nat.eqb x y = true <-> x = y.
Proof. apply Nat.eqb_eq. Qed.

(** ** Sublists *)

Lemma sublist_refl {A} (l : list A) : sublist l l.
Proof. induction l; constructor; assumption. Qed.

Lemma sublist_nil_l {A} (l : list A) : sublist [] l.
Proof. induction l; constructor; assumption. Qed.

Lemma sublist_trans {A} (l1 l2 l3 : list A) :
  sublist l1 l2 -> sublist l2 l3 -> sublist l1 l3.
Proof.
  intros H12 H23. revert l1 H12.
  induction H23 as [| x l2 l3 H IH | x l2 l3 H IH]; intros l1 H12.
  - exact H12.
  - constructor. apply IH. exact H12.
  - inversion H12; subst; constructor; apply IH; assumption.
Qed.

Lemma sublist_firstn {A} (n : nat) (l : list A) : sublist (firstn n l) l.
Proof.
  revert n. induction l as [|x l IH]; intros [|n]; cbn.
  - constructor.
  - constructor.
  - apply sublist_nil_l.
  - apply sublist_keep, IH.
Qed.

Lemma sublist_skipn {A} (n : nat) (l : list A) : sublist (skipn n l) l.
Proof.
  revert n. induction l as [|x l IH]; intros [|n]; cbn.
  - constructor.
  - constructor.
  - apply sublist_refl.
  - apply sublist_skip, IH.
Qed.

Lemma sublist_take {A} (n : Z) (l : list A) : sublist (take n l) l.
Proof.
  unfold take, slice.
  eapply sublist_trans; [apply sublist_firstn | apply sublist_skipn].
Qed.

Lemma sublist_In {A} (l1 l2 : list A) (x : A) : sublist l1 l2 -> In x l1 -> In x l2.
Proof.
  induction 1; intros Hx; cbn in *; [assumption | right; auto |].
  destruct Hx; [left; assumption | right; auto].
Qed.

Lemma sublist_StronglySorted {A} (P : A -> A -> Prop) (l1 l2 : list A) :
  sublist l1 l2 -> StronglySorted P l2 -> StronglySorted P l1.
Proof.
  induction 1 as [| x l1 l2 H IH | x l1 l2 H IH]; intros HS.
  - constructor.
  - apply StronglySorted_inv in HS. apply IH. tauto.
  - apply StronglySorted_inv in HS. destruct HS as [HS Hx].
    constructor; [apply IH; assumption |].
    rewrite Forall_forall in *. intros y Hy. apply Hx. eapply sublist_In; eassumption.
Qed.

Lemma sublist_filter_length {A} (f : A -> bool) (l1 l2 : list A) :
  sublist l1 l2 -> (length (filter f l1) <= length (filter f l2))%nat.
Proof.
  induction 1 as [| x l1 l2 H IH | x l1 l2 H IH]; cbn.
  - lia.
  - destruct (f x); cbn; lia.
  - destruct (f x); cbn; lia.
Qed.

Lemma Permutation_filter' {A} (f : A -> bool) (l1 l2 : list A) :
  Permutation l1 l2 -> Permutation (filter f l1) (filter f l2).
Proof.
  induction 1 as [| x l1 l2 H IH | x y l | l1 l2 l3 H12 IH12 H23 IH23]; cbn.
  - constructor.
  - destruct (f x); [constructor |]; assumption.
  - destruct (f x), (f y); try reflexivity. apply perm_swap.
  - etransitivity; eassumption.
Qed.

Lemma StronglySorted_impl {A} (P Q : A -> A -> Prop) (l : list A) :
  (forall a b, P a b -> Q a b) -> StronglySorted P l -> StronglySorted Q l.
Proof.
  intros HPQ. induction 1 as [| x l HS IH Hx]; constructor; [assumption |].
  eapply Forall_impl; [| exact Hx]. intros b. apply HPQ.
Qed.

Lemma Forall2_firstn {A B} (P : A -> B -> Prop) (n : nat) (l : list A) (l' : list B) :
  Forall2 P l l' -> Forall2 P (firstn n l) (firstn n l').
Proof.
  intros H. revert n. induction H; intros [|n]; cbn; constructor; auto.
Qed.

Lemma Forall2_skipn {A B} (P : A -> B -> Prop) (n : nat) (l : list A) (l' : list B) :
  Forall2 P l l' -> Forall2 P (skipn n l) (skipn n l').
Proof.
  intros H. revert n. induction H; intros [|n]; cbn; try constructor; auto.
Qed.

Lemma Forall2_take {A B} (P : A -> B -> Prop) (n : Z) (l : list A) (l' : list B) :
  Forall2 P l l' -> Forall2 P (take n l) (take n l').
Proof.
  intros H. unfold take, slice. rewrite <- (Forall2_length H).
  apply Forall2_firstn, Forall2_skipn, H.
Qed.

Lemma filter_none {A} (f : A -> bool) (l : list A) :
  (forall y, In y l -> f y = false) -> filter f l = [].
Proof.
  induction l as [|a l IH]; intros H; cbn; [reflexivity |].
  rewrite (H a) by (left; reflexivity). apply IH. intros y Hy. apply H. right. exact Hy.
Qed.

Lemma filter_unique {A} (f : A -> string) (l : list A) (x : A) :
  NoDup (map f l) -> In x l ->
  filter (fun y => String.eqb (f y) (f x)) l = [x].
Proof.
  induction l as [|a l IH]; intros Hnd Hx; [contradiction |].
  cbn in Hnd. inversion Hnd as [|? ? Hnot Hnd']; subst. cbn.
  destruct Hx as [-> | Hx].
  - rewrite String.eqb_refl. f_equal. apply filter_none.
    intros y Hy. apply String.eqb_neq. intros Heq. apply Hnot.
    rewrite <- Heq. apply in_map. exact Hy.
  - replace (String.eqb (f a) (f x)) with false; [apply IH; assumption |].
    symmetry. apply String.eqb_neq. intros Heq. apply Hnot.
    rewrite Heq. apply in_map. exact Hx.
Qed.

(** ** Distinct products in the output of a filter *)

Lemma top_items_idx_NoDup (s : vector) (n : Z) : NoDup (CF.top_items_idx s n).
Proof.
  unfold CF.top_items_idx, take, slice.
  assert (Hnd : NoDup (reversed (argsort s))).
  { apply NoDup_rev. eapply Permutation_NoDup;
      [symmetry; apply argsort_Permutation | apply seq_NoDup]. }
  set (l := reversed (argsort s)) in *.
  set (a := clamp_index (length l) 0). set (b := clamp_index (length l) n).
  rewrite <- (firstn_skipn a l) in Hnd. apply NoDup_app_remove_l in Hnd.
  rewrite <- (firstn_skipn (b - a) (skipn a l)) in Hnd.
  apply NoDup_app_remove_r in Hnd. exact Hnd.
Qed.

Lemma lists_columns_NoDup (rm : dict nat string) (s : vector) (cols : list nat)
    (out : list (string * R)) :
  lists_columns rm s cols out -> NoDup cols -> dict_injective rm ->
  NoDup (map fst out).
Proof.
  unfold lists_columns. intros H Hnd Hinj.
  induction H as [| j ps cols out [Hj _] HF IH]; cbn; [constructor |].
  inversion Hnd as [|? ? Hnot Hnd']; subst.
  constructor; [| apply IH; assumption].
  intros Hin. apply in_map_iff in Hin. destruct Hin as (ps' & Hfst & Hps').
  destruct (Forall2_In_r _ _ _ _ HF Hps') as (j' & Hj' & Hget & _).
  rewrite Hfst in Hget. rewrite (Hinj j' j (fst ps) Hget Hj) in Hj'. contradiction.
Qed.

Lemma collect_ids_NoDup (rm : dict nat string) (s : vector) (n : Z)
    (out : list (string * R)) :
  CF.collect rm s (CF.top_items_idx s n) = Some out -> dict_injective rm ->
  NoDup (map fst out).
Proof.
  intros Hc Hinj. apply collect_spec in Hc.
  eapply lists_columns_NoDup; [exact Hc | | exact Hinj].
  apply NoDup_filter, top_items_idx_NoDup.
Qed.

Lemma collaborative_ids_NoDup (self : CF.t) (user_id : string) (n : Z) :
  dict_injective (CF.reverse_item_map self) ->
  NoDup (map fst (CF.get_user_recommendations self user_id n)).
Proof.
  intros Hinj.
  destruct (get_user_recommendations_cases self user_id n)
    as [-> | (user_idx & s & _ & _ & _ & Hc)]; [constructor |].
  eapply collect_ids_NoDup; eassumption.
Qed.

Lemma content_ids_NoDup (self : CBF.t) (ui : list CBF.user_interaction) (n : Z) :
  dict_injective (CBF.reverse_product_map self) ->
  NoDup (map fst (CBF.get_user_content_recommendations self ui n)).
Proof.
  intros Hinj. unfold CBF.get_user_content_recommendations.
  destruct (CBF.is_trained self); cbn [negb]; [| constructor].
  destruct ui as [|i ui]; [constructor |].
  destruct (CBF.product_scores_of self (i :: ui)) as [[s |] |]; cbn [bind or_else];
    try constructor.
  destruct (CF.collect _ _ _) as [out |] eqn:Hc; cbn [or_else]; [| constructor].
  eapply collect_ids_NoDup; eassumption.
Qed.

Lemma collaborative_nonempty_trained (self : CF.t) (user_id : string) (n : Z)
    (ps : string * R) :
  In ps (CF.get_user_recommendations self user_id n) -> CF.is_trained self = true.
Proof.
  unfold CF.get_user_recommendations.
  destruct (CF.is_trained self); [reflexivity | contradiction].
Qed.

Lemma content_nonempty_trained (self : CBF.t) (ui : list CBF.user_interaction)
    (n : Z) (ps : string * R) :
  In ps (CBF.get_user_content_recommendations self ui n) ->
  CBF.is_trained self = true /\ nonempty ui = true.
Proof.
  unfold CBF.get_user_content_recommendations.
  destruct (CBF.is_trained self); cbn [negb]; [| contradiction].
  destruct ui; [contradiction | split; reflexivity].
Qed.

(** ** Grouping by product *)

Lemma get_add_candidate (d : dict string RS.combined) (rec : RS.recommendation)
    (p : string) :
  dict_get String.eqb (RS.add_candidate d rec) p
  = if String.eqb (RS.productId rec) p
    then absorb p (dict_get String.eqb d p) rec
    else dict_get String.eqb d p.
Proof.
  unfold RS.add_candidate. rewrite (dict_get_set String.eqb string_eqb_spec).
  rewrite (String.eqb_sym p). destruct (String.eqb (RS.productId rec) p) eqn:E;
    [| reflexivity].
  apply String.eqb_eq in E. subst p. reflexivity.
Qed.

Lemma get_group (recs : list RS.recommendation) (d : dict string RS.combined)
    (p : string) :
  dict_get String.eqb (fold_left RS.add_candidate recs d) p
  = fold_left (absorb p) (entries_for p recs) (dict_get String.eqb d p).
Proof.
  revert d. induction recs as [|r recs IH]; intros d; cbn; [reflexivity |].
  rewrite IH, get_add_candidate.
  destruct (String.eqb (RS.productId r) p); reflexivity.
Qed.

Lemma In_dict_set {V} (d : dict string V) (k : string) (v : V) (kv : string * V) :
  In kv (dict_set String.eqb d k v) -> kv = (k, v) \/ In kv d.
Proof.
  induction d as [|[k0 v0] d IH]; cbn.
  - intros [<- | []]. left. reflexivity.
  - destruct (String.eqb k k0) eqn:E; cbn.
    + apply String.eqb_eq in E. subst k0. intros [<- | H]; [left | right; right];
        auto.
    + intros [<- | H]; [right; left; reflexivity |].
      destruct (IH H); [left | right; right]; assumption.
Qed.

Lemma group_invariant (recs : list RS.recommendation) (d : dict string RS.combined) :
  NoDup (dict_keys d) ->
  Forall (fun kv => RS.c_productId (snd kv) = fst kv) d ->
  NoDup (dict_keys (fold_left RS.add_candidate recs d))
  /\ Forall (fun kv => RS.c_productId (snd kv) = fst kv)
       (fold_left RS.add_candidate recs d).
Proof.
  revert d. induction recs as [|r recs IH]; intros d Hnd Hd; cbn; [split; assumption |].
  apply IH.
  - unfold RS.add_candidate. apply (NoDup_keys_set String.eqb string_eqb_spec). exact Hnd.
  - apply Forall_forall. intros kv Hkv. unfold RS.add_candidate in Hkv.
    apply In_dict_set in Hkv. destruct Hkv as [-> | Hkv].
    + cbn. destruct (dict_get String.eqb d (RS.productId r)) as [e |] eqn:E;
        [| reflexivity].
      apply (dict_get_In String.eqb string_eqb_spec) in E.
      rewrite Forall_forall in Hd. apply (Hd _ E).
    + rewrite Forall_forall in Hd. apply Hd. exact Hkv.
Qed.

Lemma entries_for_candidates (a r p : string) (l : list (string * R)) :
  entries_for p (map (RS.candidate a r) l)
  = map (RS.candidate a r) (filter (fun ps => String.eqb (fst ps) p) l).
Proof.
  unfold entries_for. induction l as [|ps l IH]; cbn; [reflexivity |].
  destruct (String.eqb (fst ps) p); cbn; rewrite IH; reflexivity.
Qed.

Lemma entries_for_app (p : string) (l1 l2 : list RS.recommendation) :
  entries_for p (l1 ++ l2) = entries_for p l1 ++ entries_for p l2.
Proof. apply filter_app. Qed.

(** ** Enrichment and truncation *)

Lemma enrich_hybrid_form (db : RS.database) (L : list RS.combined)
    (l : list RS.recommendation) :
  Forall2 hybrid_form L l ->
  exists L', sublist L' L /\ Forall2 hybrid_form L' (RS._enrich_recommendations db l).
Proof.
  intros H. unfold RS._enrich_recommendations.
  destruct l as [|r0 l0] eqn:El.
  { exists L. split; [apply sublist_refl | exact H]. }
  rewrite <- El in *. clear El r0 l0.
  destruct (RS.find_products_by_ids db (map RS.productId l)) as [found | e].
  2:{ exists L. split; [apply sublist_refl | exact H]. }
  generalize (dict_of String.eqb found). intros products.
  induction H as [| e rec L l Hrel HF IH]; cbn.
  - exists []. split; constructor.
  - destruct IH as (L' & Hsub & HF').
    destruct (dict_get String.eqb products (RS.productId rec)) as [d |]; cbn.
    + exists (e :: L'). split; [apply sublist_keep; assumption |].
      constructor; [| assumption].
      destruct Hrel as (H1 & H2 & H3 & H4). repeat split; assumption.
    + exists L'. split; [apply sublist_skip; assumption | assumption].
Qed.

Lemma take_nonempty {A} (n : Z) (l : list A) :
  (1 <= n)%Z -> l <> [] -> take n l <> [].
Proof.
  intros Hn Hl. destruct l as [|x l]; [contradiction |].
  unfold take, slice, clamp_index.
  destruct (n <? 0)%Z eqn:E; [apply Z.ltb_lt in E; lia |].
  cbn [Z.ltb Z.compare length Nat.min skipn].
  destruct (Z.to_nat n) as [|k] eqn:Ek; [lia |].
  cbn. discriminate.
Qed.

(** ** The hybrid list *)

Lemma sorted_reverse_descending {A} (key : A -> R) (l : list A) :
  StronglySorted (fun a b => key b <= key a) (sorted_reverse key l).
Proof.
  unfold sorted_reverse.
  eapply StronglySorted_impl;
    [| apply (sorted_sort_by (fun x y => Rleb (key y) (key x)))].
  - intros a b H. apply Rleb_spec in H. exact H.
  - intros x y. destruct (Rle_dec (key y) (key x)) as [H | H].
    + left. apply Rleb_true. exact H.
    + right. apply Rleb_true. lra.
  - intros x y z H1 H2. apply Rleb_spec in H1, H2. apply Rleb_true. lra.
Qed.

Lemma absorb_some (p : string) (o : option RS.combined) (r : RS.recommendation) :
  exists e, absorb p o r = Some e.
Proof. eexists. reflexivity. Qed.

Lemma absorb_fold_some (p : string) (l : list RS.recommendation) (e : RS.combined) :
  exists e', fold_left (absorb p) l (Some e) = Some e'.
Proof.
  revert e. induction l as [|r l IH]; intros e; cbn; [eexists; reflexivity |].
  apply IH.
Qed.

(** What the hybrid step leaves of a product both filters propose. *)
Lemma common_product_entry (self : RS.t) (user_id : string)
    (ui : list CBF.user_interaction) (limit : Z) (p : string) (s1 s2 : R) :
  In (p, s1) (CF.get_user_recommendations (RS.collaborative_filter self) user_id limit) ->
  In (p, s2) (CBF.get_user_content_recommendations (RS.content_filter self) ui limit) ->
  dict_injective (CF.reverse_item_map (RS.collaborative_filter self)) ->
  dict_injective (CBF.reverse_product_map (RS.content_filter self)) ->
  RS.candidates self user_id ui limit None <> []
  /\ exists e,
       filter (fun e => String.eqb (RS.c_productId e) p) (blended self user_id ui limit)
       = [e]
       /\ RS.c_productId e = p
       /\ RS.total_score e = s1 + s2
       /\ RS.algorithms e = both_algorithms.
Proof.
  intros Hin1 Hin2 Hinj1 Hinj2.
  pose proof (collaborative_nonempty_trained _ _ _ _ Hin1) as Ht1.
  destruct (content_nonempty_trained _ _ _ _ Hin2) as [Ht2 Hne].
  pose proof (collaborative_ids_NoDup _ user_id limit Hinj1) as Hnd1.
  pose proof (content_ids_NoDup _ ui limit Hinj2) as Hnd2.
  set (collab := CF.get_user_recommendations (RS.collaborative_filter self) user_id limit)
    in *.
  set (content := CBF.get_user_content_recommendations (RS.content_filter self) ui limit)
    in *.
  assert (Hc : RS.candidates self user_id ui limit None
               = map (RS.candidate "collaborative_filtering"
                        "Users with similar preferences also liked this") collab
                 ++ map (RS.candidate "content_based_filtering"
                           "Based on products you have viewed") content).
  { unfold RS.candidates. rewrite Ht1, Ht2. fold collab content.
    destruct ui; [discriminate | reflexivity]. }
  split.
  { rewrite Hc. destruct collab; [contradiction | discriminate]. }
  set (G := RS.group_by_product (RS.candidates self user_id ui limit None)).
  set (e0 := {| RS.c_productId := p; RS.total_score := 0 + s1 + s2;
                RS.algorithms := both_algorithms;
                RS.reasons := ["Users with similar preferences also liked this";
                               "Based on products you have viewed"] |}).
  assert (Hget : dict_get String.eqb G p = Some e0).
  { unfold G, RS.group_by_product. rewrite get_group, Hc.
    rewrite entries_for_app, !entries_for_candidates.
    pose proof (filter_unique fst collab (p, s1) Hnd1 Hin1) as Hu1.
    pose proof (filter_unique fst content (p, s2) Hnd2 Hin2) as Hu2.
    cbn [fst] in Hu1, Hu2. rewrite Hu1, Hu2.
    reflexivity. }
  destruct (group_invariant (RS.candidates self user_id ui limit None) []
              (NoDup_nil _) (Forall_nil _)) as [HndG HinvG].
  fold (RS.group_by_product (RS.candidates self user_id ui limit None)) in HndG, HinvG.
  fold G in HndG, HinvG.
  assert (Hkeys : map RS.c_productId (dict_values G) = dict_keys G).
  { unfold dict_values, dict_keys. rewrite map_map. apply map_ext_in.
    intros kv Hkv. rewrite Forall_forall in HinvG. apply HinvG. exact Hkv. }
  assert (Hvals : filter (fun e => String.eqb (RS.c_productId e) p) (dict_values G)
                  = [e0]).
  { apply (filter_unique RS.c_productId (dict_values G) e0).
    - rewrite Hkeys. exact HndG.
    - apply (dict_get_In String.eqb string_eqb_spec) in Hget.
      unfold dict_values. apply in_map_iff. exists (p, e0). split; [reflexivity | exact Hget]. }
  exists e0. split.
  - unfold blended. fold G.
    apply Permutation_length_1_inv. rewrite <- Hvals.
    apply Permutation_filter'. symmetry. apply Permutation_sort_by.
  - split; [reflexivity |]. split; [cbn; lra | reflexivity].
Qed.

(** The list [rank] returns in hybrid mode, when the candidates are not
    empty: hybrid forms of a sublist of the blended ranking. *)
Lemma rank_hybrid (db : RS.database) (self : RS.t) (user_id : string)
    (ui : list CBF.user_interaction) (limit : Z) :
  (1 <= limit)%Z ->
  RS.candidates self user_id ui limit None <> [] ->
  exists L, sublist L (blended self user_id ui limit)
            /\ Forall2 hybrid_form L (RS.rank db self user_id ui limit None).
Proof.
  intros Hlimit Hne. unfold RS.rank.
  destruct (RS.candidates self user_id ui limit None) as [|c cs] eqn:Hc;
    [contradiction |].
  rewrite <- Hc. unfold RS.combine_hybrid. fold (blended self user_id ui limit).
  assert (Hb : blended self user_id ui limit <> []).
  { unfold blended, sorted_reverse. intros Hnil.
    pose proof (Permutation_sort_by
                  (fun x y => Rleb (RS.total_score y) (RS.total_score x))
                  (dict_values (RS.group_by_product
                     (RS.candidates self user_id ui limit None)))) as Hp.
    rewrite Hnil in Hp. apply Permutation_nil in Hp.
    assert (Hg : dict_get String.eqb
                   (RS.group_by_product (RS.candidates self user_id ui limit None))
                   (RS.productId c) <> None).
    { unfold RS.group_by_product. rewrite get_group, Hc. unfold entries_for.
      cbn [filter]. rewrite String.eqb_refl. cbn [fold_left].
      destruct (absorb_some (RS.productId c) (dict_get String.eqb [] (RS.productId c)) c)
        as (e & ->).
      destruct (absorb_fold_some (RS.productId c)
                  (filter (fun r => String.eqb (RS.productId r) (RS.productId c)) cs) e)
        as (e' & ->).
      discriminate. }
    unfold dict_values in Hp. apply map_eq_nil in Hp. rewrite Hp in Hg.
    apply Hg. reflexivity. }
  pose proof (take_nonempty limit _ Hlimit Hb) as Ht.
  destruct (take limit (blended self user_id ui limit)) as [|e es] eqn:He;
    [contradiction |].
  cbn [map]. rewrite <- (map_cons RS.hybrid_of e es). rewrite <- He.
  assert (H0 : Forall2 hybrid_form (take limit (blended self user_id ui limit))
                 (map RS.hybrid_of (take limit (blended self user_id ui limit)))).
  { generalize (take limit (blended self user_id ui limit)). intros l.
    induction l; constructor; [repeat split | assumption]. }
  destruct (enrich_hybrid_form db _ _ H0) as (L1 & Hsub1 & H1).
  exists (take limit L1). split.
  - eapply sublist_trans; [apply sublist_take |].
    eapply sublist_trans; [exact Hsub1 | apply sublist_take].
  - apply Forall2_take. exact H1.
Qed.

Lemma hybrid_content_recommendations :
  CBF.get_user_content_recommendations Twins.trained Hybrid.viewed 2 = [("p1", 1)].
Proof.
  destruct twins_trained_shape as (x & ->).
  unfold CBF.get_user_content_recommendations, CBF.product_scores_of, Hybrid.viewed.
  d_cbn.
  destruct (Req_dec_T (0 + 1) 0) as [H | _]; [lra |].
  replace [(0 + 1 * 1) / (0 + 1); (0 + 1 * x) / (0 + 1);
           (0 + 1 * 1) / (0 + 1); (0 + 1 * 1) / (0 + 1)]
    with [1; x; 1; 1] by (repeat f_equal; field).
  assert (Hf : ~ all_zero [1; x; 1; 1]) by (apply one_not_all_zero; left; reflexivity).
  rewrite (proj2 (normalize_row_self [1; x; 1; 1]) Hf).
  unfold argsort. r_eval. reflexivity.
Qed.

Lemma hybrid_form_entries (p : string) (L : list RS.combined)
    (l : list RS.recommendation) :
  Forall2 hybrid_form L l ->
  length (entries_for p l)
  = length (filter (fun e => String.eqb (RS.c_productId e) p) L).
Proof.
  unfold entries_for. induction 1 as [| e rec L l Hrel HF IH]; cbn; [reflexivity |].
  destruct Hrel as (-> & _). destruct (String.eqb (RS.c_productId e) p); cbn; lia.
Qed.

Lemma hybrid_no_auto_train (catalog : list string -> list (string * RS.details)) :
  RS.auto_train (Hybrid.db catalog) Hybrid.sk Hybrid.service Hybrid.w
  = (Hybrid.service, snd (RS.utcnow Hybrid.w)).
Proof.
  unfold RS.auto_train, RS._should_retrain, RS.total_seconds. cbn -[Rltb].
  rewrite Rltb_true by lra. reflexivity.
Qed.

Lemma take_nil {A} (n : Z) : take n (@nil A) = [].
Proof. unfold take, slice. rewrite skipn_nil. apply firstn_nil. Qed.

Lemma rank_empty_catalog (db : RS.database) (self : RS.t) (user_id : string)
    (ui : list CBF.user_interaction) (limit : Z) (algorithm_ : option string) :
  (forall ids, RS.find_products_by_ids db ids = Ok []) ->
  RS.rank db self user_id ui limit algorithm_ = [].
Proof.
  intros Hdb. unfold RS.rank.
  match goal with
  | |- take limit (RS._enrich_recommendations db ?l) = [] =>
      assert (He : RS._enrich_recommendations db l = []); [| rewrite He; apply take_nil]
  end.
  unfold RS._enrich_recommendations.
  match goal with |- match ?l with [] => _ | _ => _ end = [] => generalize l end.
  intros l. destruct l as [|r l]; [reflexivity |].
  rewrite Hdb. generalize (r :: l). intros l'.
  induction l' as [|r' l' IH]; cbn; [reflexivity | exact IH].
Qed.

(** C3 (fails on the code).  For user ["u2"] both filters of [Hybrid] are
    trained and both propose product ["p1"]; the products have left the
    catalog, the enrichment drops every candidate, and the final list holds no
    entry for ["p1"]. *)
Lemma C3_common_product_missing_from_final_list :
  fst (fst (RS.get_recommendations (Hybrid.db Hybrid.empty_catalog) Hybrid.sk
              Hybrid.service "u2" 2 None Hybrid.w)) = Hybrid.service
  /\ CF.is_trained (RS.collaborative_filter Hybrid.service) = true
  /\ CBF.is_trained (RS.content_filter Hybrid.service) = true
  /\ In ("p1", 1)
        (CF.get_user_recommendations (RS.collaborative_filter Hybrid.service) "u2" 2)
  /\ In ("p1", 1)
        (CBF.get_user_content_recommendations (RS.content_filter Hybrid.service)
           Hybrid.viewed 2)
  /\ snd (RS.get_recommendations (Hybrid.db Hybrid.empty_catalog) Hybrid.sk
            Hybrid.service "u2" 2 None Hybrid.w) = []
  /\ entries_for "p1"
       (snd (RS.get_recommendations (Hybrid.db Hybrid.empty_catalog) Hybrid.sk
               Hybrid.service "u2" 2 None Hybrid.w)) = [].
Proof.
  assert (Hrun : RS.get_recommendations (Hybrid.db Hybrid.empty_catalog) Hybrid.sk
                   Hybrid.service "u2" 2 None Hybrid.w
                 = (Hybrid.service, snd (RS.utcnow Hybrid.w), [])).
  { unfold RS.get_recommendations. rewrite hybrid_no_auto_train.
    cbn [RS.get_user_interactions Hybrid.db].
    rewrite rank_empty_catalog; [reflexivity |]. intros ids. reflexivity. }
  rewrite Hrun. cbn [fst snd].
  split; [reflexivity |].
  split. { destruct ties_trained as (e & _ & H).
           cbn [RS.collaborative_filter Hybrid.service]. rewrite H. reflexivity. }
  split. { destruct twins_trained_shape as (x & H).
           cbn [RS.content_filter Hybrid.service]. rewrite H. reflexivity. }
  split. { cbn [RS.collaborative_filter Hybrid.service].
           rewrite ties_recommendations. right. left. reflexivity. }
  split. { cbn [RS.content_filter Hybrid.service].
           rewrite hybrid_content_recommendations. left. reflexivity. }
  split; reflexivity.
Qed.

(** ** The index maps a training builds *)

Lemma map_fst_combine_seq {A} (l : list A) (s : nat) :
  map fst (combine (seq s (length l)) l) = seq s (length l).
Proof.
  revert s. induction l as [|x l IH]; intros s; cbn; [reflexivity |].
  rewrite IH. reflexivity.
Qed.

Lemma map_snd_combine_seq {A} (l : list A) (s : nat) :
  map snd (combine (seq s (length l)) l) = l.
Proof.
  revert s. induction l as [|x l IH]; intros s; cbn; [reflexivity |].
  rewrite IH. reflexivity.
Qed.

Lemma dict_get_combine_seq (l : list string) (s i : nat) :
  dict_get Nat.eqb (combine (seq s (length l)) l) i
  = if (i <? s)%nat then None else nth_error l (i - s).
Proof.
  revert s. induction l as [|x l IH]; intros s; cbn [length seq combine dict_get].
  - destruct (i <? s)%nat; [reflexivity |]. destruct (i - s)%nat; reflexivity.
  - destruct (Nat.eqb i s) eqn:E.
    + apply Nat.eqb_eq in E. subst i. rewrite Nat.ltb_irrefl, Nat.sub_diag. reflexivity.
    + apply Nat.eqb_neq in E. rewrite IH.
      destruct (i <? s)%nat eqn:E1.
      * apply Nat.ltb_lt in E1.
        replace (i <? S s)%nat with true by (symmetry; apply Nat.ltb_lt; lia).
        reflexivity.
      * apply Nat.ltb_ge in E1.
        replace (i <? S s)%nat with false by (symmetry; apply Nat.ltb_ge; lia).
        replace (i - s)%nat with (S (i - S s)) by lia. reflexivity.
Qed.

Lemma swap_swap {A B} (l : list (A * B)) : map swap (map swap l) = l.
Proof.
  rewrite map_map. rewrite <- (map_id l) at 2. apply map_ext. intros [a b]. reflexivity.
Qed.

(** The reverse map built over distinct ids names every position differently. *)
Lemma reverse_map_injective (ids : list string) :
  NoDup ids ->
  dict_injective
    (dict_of Nat.eqb (map swap (dict_of String.eqb (map swap (enumerate ids))))).
Proof.
  intros Hnd.
  assert (H1 : dict_of String.eqb (map swap (enumerate ids)) = map swap (enumerate ids)).
  { apply (dict_of_distinct String.eqb string_eqb_spec).
    replace (map fst (map swap (enumerate ids))) with ids; [exact Hnd |].
    rewrite map_map. unfold enumerate.
    rewrite <- (map_snd_combine_seq ids 0) at 1.
    apply map_ext. intros [a b]. reflexivity. }
  rewrite H1, swap_swap.
  assert (H2 : dict_of Nat.eqb (enumerate ids) = enumerate ids).
  { apply (dict_of_distinct Nat.eqb nat_eqb_spec).
    unfold enumerate. rewrite map_fst_combine_seq. apply seq_NoDup. }
  rewrite H2. intros i j p Hi Hj. unfold enumerate in Hi, Hj.
  rewrite dict_get_combine_seq in Hi, Hj. cbn in Hi, Hj.
  rewrite Nat.sub_0_r in Hi, Hj.
  apply (proj1 (NoDup_nth_error ids) Hnd).
  - apply nth_error_Some. rewrite Hi. discriminate.
  - congruence.
Qed.

Lemma NoDup_sorted_unique (l : list string) : NoDup (sorted_unique l).
Proof.
  unfold sorted_unique. eapply Permutation_NoDup;
    [symmetry; apply Permutation_sort_by | apply NoDup_nodup].
Qed.

(** Training keeps the reverse item map of the collaborative filter
    injective, whatever its outcome. *)
Lemma train_reverse_item_map_injective (svd : nat -> matrix -> result matrix)
    (self : CF.t) (xs : list CF.interaction) :
  dict_injective (CF.reverse_item_map self) ->
  dict_injective (CF.reverse_item_map (fst (CF.train svd self xs))).
Proof.
  intros Hinj. rewrite cf_train_cases. cbv zeta.
  assert (H : dict_injective
                (CF.reverse_item_map
                   (fst (CF.create_user_item_matrix self (CF.prepare_data self xs))))).
  { unfold CF.create_user_item_matrix.
    destruct (CF.prepare_data self xs) as [|r df]; [exact Hinj |].
    cbn [fst CF.reverse_item_map CF.set_index_maps].
    apply reverse_map_injective. apply NoDup_sorted_unique. }
  destruct (nonempty _); [| exact Hinj].
  destruct (size _ =? 0)%nat; [exact H |].
  destruct (if (CF.n_components self <? _)%nat then _ else _); exact H.
Qed.

Lemma init_reverse_item_map_injective (n : nat) (m : Z) :
  dict_injective (CF.reverse_item_map (CF.init n m)).
Proof. intros i j p H. discriminate H. Qed.

(* ------------------------------------------------------------------ *)
(** * Further properties of the collaborative filter                   *)
(* ------------------------------------------------------------------ *)

Lemma sublist_filter {A} (f : A -> bool) (l : list A) : sublist (filter f l) l.
Proof.
  induction l as [|x l IH]; cbn; [constructor |].
  destruct (f x); [apply sublist_keep | apply sublist_skip]; exact IH.
Qed.

Lemma prepare_data_In (self : CF.t) (xs : list CF.interaction) (r : CF.scored) :
  In r (CF.prepare_data self xs) <->
  In r (CF.scored_frame xs) /\ ~ below_threshold self (CF.scored_frame xs) r.
Proof.
  unfold CF.prepare_data, below_threshold. destruct xs as [|x xs].
  - cbn. tauto.
  - rewrite filter_In, andb_true_iff, !Rleb_spec.
    split; intros [H1 H2]; (split; [exact H1 |]); lra.
Qed.

(** [prepare_data] keeps, in their order, exactly the scored rows whose user
    and whose product both total at least [min_interactions] over the
    unfiltered frame: the thresholds are applied once, to the totals before
    filtering. *)
Theorem prepare_data_keeps_rows_above_threshold :
  forall (self : CF.t) (xs : list CF.interaction),
    sublist (CF.prepare_data self xs) (CF.scored_frame xs)
    /\ forall r,
         In r (CF.prepare_data self xs) <->
         In r (CF.scored_frame xs) /\ ~ below_threshold self (CF.scored_frame xs) r.
Proof.
  intros self xs. split; [| intros r; apply prepare_data_In].
  unfold CF.prepare_data. destruct xs as [|x xs]; [constructor |].
  apply sublist_filter.
Qed.

(** When every row is below the threshold on its user or on its product (in
    particular on an empty list), [prepare_data] returns nothing and [train]
    returns without error, leaving the filter as it was but for [is_trained],
    which is False. *)
Theorem train_below_threshold_is_untrained :
  forall (svd : nat -> matrix -> result matrix) (self : CF.t)
         (xs : list CF.interaction),
    (forall r, In r (CF.scored_frame xs) -> below_threshold self (CF.scored_frame xs) r) ->
    CF.prepare_data self xs = []
    /\ CF.train svd self xs = (CF.set_is_trained false self, Ok tt)
    /\ forall user_id n,
         CF.get_user_recommendations (fst (CF.train svd self xs)) user_id n = [].
Proof.
  intros svd self xs Hall.
  assert (Hnil : CF.prepare_data self xs = []).
  { destruct (CF.prepare_data self xs) as [|r l] eqn:E; [reflexivity |].
    assert (Hr : In r (CF.prepare_data self xs)) by (rewrite E; left; reflexivity).
    apply prepare_data_In in Hr.
    destruct Hr as [Hr Hnot]. exfalso. apply Hnot. apply Hall. exact Hr. }
  split; [exact Hnil |].
  assert (Ht : CF.train svd self xs = (CF.set_is_trained false self, Ok tt)).
  { unfold CF.train. rewrite Hnil. reflexivity. }
  split; [exact Ht |]. intros user_id n. rewrite Ht. reflexivity.
Qed.

Lemma train_below_threshold_is_untrained_witness :
  CF.train (fun _ m => Ok m) (CF.init 50 5) Scoring.history
  = (CF.set_is_trained false (CF.init 50 5), Ok tt).
Proof.
  refine (proj1 (proj2 (train_below_threshold_is_untrained (fun _ m => Ok m)
                          (CF.init 50 5) Scoring.history _))).
  intros r Hr. unfold below_threshold.
  cbn in Hr. destruct Hr as [<- | [<- | [<- | []]]];
    left; unfold CF.groupby_sum, sum; cbn; lra.
Defined.

(** ** Scores and matrix entries are non-negative *)

Lemma interaction_weight_positive (ty : string) (w : R) :
  dict_get String.eqb CF.interaction_weights ty = Some w -> 0 < w.
Proof.
  unfold CF.interaction_weights. cbn.
  destruct (String.eqb ty "view"); [intros [= <-]; lra |].
  destruct (String.eqb ty "cart_add"); [intros [= <-]; lra |].
  destruct (String.eqb ty "purchase"); [intros [= <-]; lra | discriminate].
Qed.

Lemma code_score_nonneg (types : list string) (r : CF.interaction) :
  0 <= Scoring.code_score types r.
Proof.
  unfold Scoring.code_score. generalize (Rle_refl 0). generalize 0 at 2 4.
  induction types as [|ty types IH]; intros s Hs; cbn [fold_left]; [exact Hs |].
  apply IH.
  destruct (dict_get String.eqb CF.interaction_weights ty) as [w |] eqn:Hw;
    [| exact Hs].
  apply interaction_weight_positive in Hw.
  destruct (existsb _ _); lra.
Qed.

Lemma scored_frame_nonneg (xs : list CF.interaction) :
  Forall (fun r => 0 <= CF.score r) (CF.scored_frame xs).
Proof.
  destruct xs as [|x xs]; [constructor |].
  rewrite scored_frame_code_score. apply Forall_forall. intros r Hr.
  apply in_map_iff in Hr. destruct Hr as (i & <- & _). apply code_score_nonneg.
Qed.

Lemma sum_nonneg (l : list R) : Forall (fun x => 0 <= x) l -> 0 <= sum l.
Proof.
  unfold sum. induction 1 as [|x l Hx _ IH]; cbn; lra.
Qed.

Lemma pivot_cell_nonneg (df : list CF.scored) (u p : string) :
  Forall (fun r => 0 <= CF.score r) df -> 0 <= CF.pivot_cell df u p.
Proof.
  intros Hdf. unfold CF.pivot_cell.
  set (f := fun r : CF.scored => _ && _).
  assert (Hc : Forall (fun x => 0 <= x) (map CF.score (filter f df))).
  { apply Forall_forall. intros x Hx. apply in_map_iff in Hx.
    destruct Hx as (r & <- & Hr). apply filter_In in Hr.
    rewrite Forall_forall in Hdf. apply Hdf. tauto. }
  destruct (map CF.score (filter f df)) as [|x cell]; [lra |].
  unfold mean, Rdiv. apply Rle_mult_inv_pos; [apply sum_nonneg; exact Hc |].
  apply lt_0_INR. cbn. lia.
Qed.

Lemma pivot_values_nonneg (df : list CF.scored) :
  Forall (fun r => 0 <= CF.score r) df -> nonneg_matrix (CF.pivot_values df).
Proof.
  intros Hdf. unfold nonneg_matrix, CF.pivot_values.
  apply Forall_forall. intros row Hrow. apply in_map_iff in Hrow.
  destruct Hrow as (u & <- & _). apply Forall_forall. intros x Hx.
  apply in_map_iff in Hx. destruct Hx as (p & <- & _).
  apply pivot_cell_nonneg. exact Hdf.
Qed.

Lemma prepare_data_nonneg (self : CF.t) (xs : list CF.interaction) :
  Forall (fun r => 0 <= CF.score r) (CF.prepare_data self xs).
Proof.
  apply Forall_forall. intros r Hr. apply prepare_data_In in Hr.
  pose proof (scored_frame_nonneg xs) as H. rewrite Forall_forall in H.
  apply H. tauto.
Qed.

(** No score is negative, and [train] keeps the user-item matrix free of
    negative entries, whatever its outcome. *)
Theorem user_item_matrix_stays_nonneg :
  forall (svd : nat -> matrix -> result matrix) (self : CF.t)
         (xs : list CF.interaction),
    Forall (fun r => 0 <= CF.score r) (CF.prepare_data self xs)
    /\ ((forall m, CF.user_item_matrix self = Some m -> nonneg_matrix m) ->
        forall m, CF.user_item_matrix (fst (CF.train svd self xs)) = Some m ->
                  nonneg_matrix m).
Proof.
  intros svd self xs. split; [apply prepare_data_nonneg |].
  intros Hold m. rewrite cf_train_cases. cbv zeta.
  assert (Hnew : nonneg_matrix
                   (snd (CF.create_user_item_matrix self (CF.prepare_data self xs)))).
  { unfold CF.create_user_item_matrix.
    destruct (CF.prepare_data self xs) as [|r df] eqn:E; [constructor |].
    cbn [snd]. rewrite <- E. apply pivot_values_nonneg, prepare_data_nonneg. }
  destruct (nonempty _); [| cbn; apply Hold].
  destruct (size _ =? 0)%nat; [cbn; intros [= <-]; exact Hnew |].
  destruct (if (CF.n_components self <? _)%nat then _ else _);
    cbn; intros [= <-]; exact Hnew.
Qed.

Lemma user_item_matrix_stays_nonneg_witness :
  exists m, CF.user_item_matrix (fst ZeroRow.run) = Some m /\ nonneg_matrix m.
Proof.
  destruct zero_row_run as (z & _ & Hrun).
  exists [[z]]. split; [rewrite Hrun; reflexivity |].
  apply (proj2 (user_item_matrix_stays_nonneg (fun _ m => Ok m) (CF.init 50 5)
                  ZeroRow.history)).
  - intros m H. discriminate H.
  - fold ZeroRow.run. rewrite Hrun. reflexivity.
Defined.

(** ** The index maps and the cells of the user-item matrix *)

Lemma dict_get_swap_combine_seq (ids : list string) (s : nat) (u : string) (i : nat) :
  NoDup ids ->
  (dict_get String.eqb (map swap (combine (seq s (length ids)) ids)) u = Some i
   <-> (s <= i)%nat /\ nth_error ids (i - s) = Some u).
Proof.
  intros Hnd. revert s. induction ids as [|x ids IH]; intros s;
    cbn [length seq combine map dict_get swap fst snd].
  - split; [discriminate |]. intros [_ H]. destruct (i - s)%nat; discriminate.
  - inversion Hnd as [|? ? Hnot Hnd']; subst.
    destruct (String.eqb u x) eqn:E.
    + apply String.eqb_eq in E. subst x. split.
      * intros [= <-]. rewrite Nat.sub_diag. split; [lia | reflexivity].
      * intros [Hle H]. destruct (i - s)%nat as [|k] eqn:Ek; [f_equal; lia |].
        cbn in H. apply nth_error_In in H. contradiction.
    + apply String.eqb_neq in E. rewrite (IH Hnd' (S s)). split.
      * intros [Hle H]. split; [lia |].
        replace (i - s)%nat with (S (i - S s)) by lia. exact H.
      * intros [Hle H]. destruct (i - s)%nat as [|k] eqn:Ek.
        { cbn in H. congruence. }
        split; [lia |]. replace (i - S s)%nat with k by lia. exact H.
Qed.

Lemma index_map_lookup (ids : list string) (u : string) (i : nat) :
  NoDup ids ->
  (dict_get String.eqb (dict_of String.eqb (map swap (enumerate ids))) u = Some i
   <-> nth_error ids i = Some u).
Proof.
  intros Hnd.
  assert (H1 : dict_of String.eqb (map swap (enumerate ids)) = map swap (enumerate ids)).
  { apply (dict_of_distinct String.eqb string_eqb_spec).
    replace (map fst (map swap (enumerate ids))) with ids; [exact Hnd |].
    rewrite map_map. unfold enumerate.
    rewrite <- (map_snd_combine_seq ids 0) at 1.
    apply map_ext. intros [a b]. reflexivity. }
  rewrite H1. unfold enumerate. rewrite (dict_get_swap_combine_seq ids 0 u i Hnd).
  rewrite Nat.sub_0_r. split; [tauto | intros H; split; [lia | exact H]].
Qed.

Lemma reverse_map_lookup (ids : list string) (i : nat) :
  NoDup ids ->
  dict_get Nat.eqb
    (dict_of Nat.eqb (map swap (dict_of String.eqb (map swap (enumerate ids))))) i
  = nth_error ids i.
Proof.
  intros Hnd.
  assert (H1 : dict_of String.eqb (map swap (enumerate ids)) = map swap (enumerate ids)).
  { apply (dict_of_distinct String.eqb string_eqb_spec).
    replace (map fst (map swap (enumerate ids))) with ids; [exact Hnd |].
    rewrite map_map. unfold enumerate.
    rewrite <- (map_snd_combine_seq ids 0) at 1.
    apply map_ext. intros [a b]. reflexivity. }
  rewrite H1, swap_swap.
  rewrite (dict_of_distinct Nat.eqb nat_eqb_spec).
  - unfold enumerate. rewrite dict_get_combine_seq. cbn. rewrite Nat.sub_0_r. reflexivity.
  - unfold enumerate. rewrite map_fst_combine_seq. apply seq_NoDup.
Qed.

Lemma pivot_entry (df : list CF.scored) (i j : nat) (u p : string) :
  nth_error (CF.pivot_index df) i = Some u ->
  nth_error (CF.pivot_columns df) j = Some p ->
  entry (CF.pivot_values df) i j = CF.pivot_cell df u p.
Proof.
  intros Hi Hj. unfold entry, CF.pivot_values.
  rewrite (nth_error_nth _ _ [] (map_nth_error _ _ _ Hi)).
  apply nth_error_nth. apply map_nth_error. exact Hj.
Qed.

(** On a frame that is not empty, [create_user_item_matrix] builds a matrix
    with one row per distinct user and one column per distinct product; each
    index map and its reverse map are inverse of each other; every row of the
    frame finds its user and its product in the maps, and the cell they
    designate is the mean score of that (user, product) pair. *)
Theorem create_user_item_matrix_indexes_cells :
  forall (self : CF.t) (df : list CF.scored),
    df <> [] ->
    let self' := fst (CF.create_user_item_matrix self df) in
    let m := snd (CF.create_user_item_matrix self df) in
    shape0 m = length (CF.pivot_index df)
    /\ Forall (fun row => length row = length (CF.pivot_columns df)) m
    /\ (forall u i, dict_get String.eqb (CF.user_index_map self') u = Some i
                    <-> dict_get Nat.eqb (CF.reverse_user_map self') i = Some u)
    /\ (forall p j, dict_get String.eqb (CF.item_index_map self') p = Some j
                    <-> dict_get Nat.eqb (CF.reverse_item_map self') j = Some p)
    /\ (forall r, In r df ->
        exists i j,
          dict_get String.eqb (CF.user_index_map self') (CF.userId (CF.row r)) = Some i
          /\ dict_get String.eqb (CF.item_index_map self') (CF.productId (CF.row r))
             = Some j
          /\ (i < shape0 m)%nat /\ (j < shape1 m)%nat
          /\ entry m i j
             = CF.pivot_cell df (CF.userId (CF.row r)) (CF.productId (CF.row r))).
Proof.
  intros self df Hne. unfold CF.create_user_item_matrix.
  destruct df as [|r0 df0] eqn:Edf; [contradiction |]. rewrite <- Edf in *.
  clear Edf Hne. cbn [fst snd].
  cbn [CF.user_index_map CF.item_index_map CF.reverse_user_map CF.reverse_item_map
       CF.set_index_maps].
  pose proof (NoDup_sorted_unique (map (fun r => CF.userId (CF.row r)) df)) as Hu.
  pose proof (NoDup_sorted_unique (map (fun r => CF.productId (CF.row r)) df)) as Hp.
  fold (CF.pivot_index df) in Hu. fold (CF.pivot_columns df) in Hp.
  split; [unfold shape0, CF.pivot_values; apply length_map |].
  split.
  { unfold CF.pivot_values. apply Forall_forall. intros row Hrow.
    apply in_map_iff in Hrow. destruct Hrow as (u & <- & _). apply length_map. }
  split.
  { intros u i. rewrite (index_map_lookup _ u i Hu), (reverse_map_lookup _ i Hu).
    reflexivity. }
  split.
  { intros p j. rewrite (index_map_lookup _ p j Hp), (reverse_map_lookup _ j Hp).
    reflexivity. }
  intros r Hr.
  assert (Hiu : In (CF.userId (CF.row r)) (CF.pivot_index df)).
  { apply In_sorted_unique. apply (in_map (fun r => CF.userId (CF.row r))). exact Hr. }
  assert (Hip : In (CF.productId (CF.row r)) (CF.pivot_columns df)).
  { apply In_sorted_unique. apply (in_map (fun r => CF.productId (CF.row r))). exact Hr. }
  destruct (In_nth_error _ _ Hiu) as (i & Hi).
  destruct (In_nth_error _ _ Hip) as (j & Hj).
  exists i, j.
  split; [apply index_map_lookup; assumption |].
  split; [apply index_map_lookup; assumption |].
  split.
  { unfold shape0, CF.pivot_values. rewrite length_map.
    apply nth_error_Some. rewrite Hi. discriminate. }
  split.
  { unfold shape1, CF.pivot_values.
    destruct (CF.pivot_index df) as [|u0 us]; [destruct i; discriminate |].
    cbn [map]. rewrite length_map. apply nth_error_Some. rewrite Hj. discriminate. }
  apply pivot_entry; assumption.
Qed.

Lemma create_user_item_matrix_indexes_cells_witness :
  shape0 (snd (CF.create_user_item_matrix (CF.init 1 1)
                 (CF.prepare_data (CF.init 1 1) Ties.history)))
  = length (CF.pivot_index (CF.prepare_data (CF.init 1 1) Ties.history)).
Proof.
  apply (create_user_item_matrix_indexes_cells (CF.init 1 1)
           (CF.prepare_data (CF.init 1 1) Ties.history)).
  unfold CF.prepare_data, Ties.history. r_eval. discriminate.
Defined.

(** ** Where a recommendation comes from *)

Lemma nth_vscale (c : R) (a : vector) (j : nat) :
  nth j (vscale c a) 0 = c * nth j a 0.
Proof.
  unfold vscale. rewrite <- (Rmult_0_r c) at 1. apply map_nth.
Qed.

Lemma nth_vadd_positive (a b : vector) (j : nat) :
  0 < nth j (vadd a b) 0 -> 0 < nth j a 0 + nth j b 0.
Proof.
  revert b j. induction a as [|x a IH]; intros [|y b] [|j]; cbn; try lra.
  apply IH.
Qed.

Lemma nth_zeros (n j : nat) : nth j (zeros n) 0 = 0.
Proof.
  unfold zeros. revert j. induction n as [|n IH]; intros [|j]; cbn; auto.
Qed.

Lemma nth_zero_at_positive (idx : list nat) (a : vector) (j : nat) :
  0 < nth j (zero_at idx a) 0 -> 0 < nth j a 0.
Proof.
  unfold zero_at.
  destruct (nth_error (enumerate a) j) as [p |] eqn:E.
  - rewrite (nth_error_nth _ _ 0 (map_nth_error _ _ _ E)).
    rewrite nth_error_enumerate in E.
    destruct (nth_error a j) as [x |] eqn:Ea; [| discriminate]. injection E as <-.
    cbn [fst snd]. rewrite (nth_error_nth _ _ 0 Ea).
    destruct (existsb _ _); lra.
  - rewrite nth_overflow; [lra |]. rewrite length_map. apply nth_error_None. exact E.
Qed.

Lemma accumulate_scores_positive (uim : matrix) (sims : vector) (idx : list nat)
    (acc res : vector) (j : nat) :
  CF.accumulate_scores uim sims idx acc = Some res ->
  0 < nth j res 0 ->
  0 < nth j acc 0
  \/ exists su similarity row,
       In su idx /\ nth_error sims su = Some similarity /\ 0 < similarity
       /\ nth_error uim su = Some row /\ 0 < nth j row 0.
Proof.
  revert acc. induction idx as [|su idx IH]; intros acc Hacc Hpos; cbn in Hacc.
  - injection Hacc as <-. left. exact Hpos.
  - destruct (nth_error sims su) as [similarity |] eqn:Hs; [| discriminate].
    cbn [bind] in Hacc.
    destruct (Rltb 0 similarity) eqn:Hlt.
    + apply Rltb_spec in Hlt.
      destruct (nth_error uim su) as [row |] eqn:Hrow; [| discriminate].
      cbn [bind] in Hacc.
      destruct (IH _ Hacc Hpos) as [H | (su' & s' & row' & Hin & H)].
      * apply nth_vadd_positive in H. rewrite nth_vscale in H.
        destruct (Rlt_dec 0 (nth j acc 0)) as [Ha | Ha]; [left; exact Ha |].
        right. exists su, similarity, row.
        split; [left; reflexivity |]. split; [exact Hs |]. split; [exact Hlt |].
        split; [exact Hrow |]. nra.
      * right. exists su', s', row'. split; [right; exact Hin | exact H].
    + destruct (IH _ Hacc Hpos) as [H | (su' & s' & row' & Hin & H)];
        [left; exact H |].
      right. exists su', s', row'. split; [right; exact Hin | exact H].
Qed.

(** Every product [get_user_recommendations] returns is the name of a column
    in which one of the ranked neighbours (the ten positions after the first
    of the descending similarities) has a positive entry, that neighbour having
    a positive similarity to the user; the score returned is positive. *)
Theorem recommendation_comes_from_positive_neighbour :
  forall (self : CF.t) (user_id : string) (n : Z) (p : string) (sc : R),
    In (p, sc) (CF.get_user_recommendations self user_id n) ->
    0 < sc
    /\ exists user_idx sims user_similarities uim j su similarity row,
         dict_get String.eqb (CF.user_index_map self) user_id = Some user_idx
         /\ CF.user_similarity_matrix self = Some sims
         /\ nth_error sims user_idx = Some user_similarities
         /\ CF.user_item_matrix self = Some uim
         /\ dict_get Nat.eqb (CF.reverse_item_map self) j = Some p
         /\ In su (slice 1 11 (reversed (argsort user_similarities)))
         /\ nth_error user_similarities su = Some similarity
         /\ 0 < similarity
         /\ nth_error uim su = Some row
         /\ 0 < nth j row 0.
Proof.
  intros self user_id n p sc Hin.
  destruct (get_user_recommendations_cases self user_id n)
    as [Hnil | (user_idx & s & _ & Hu & Hs & Hc)].
  { rewrite Hnil in Hin. contradiction. }
  apply collect_spec in Hc.
  destruct (Forall2_In_r _ _ _ _ Hc Hin) as (j & Hj & Hget & Hsc).
  cbn [fst snd] in Hget, Hsc. apply filter_In in Hj. destruct Hj as [_ Hj].
  apply Rltb_spec in Hj. split; [rewrite Hsc; exact Hj |].
  unfold CF.item_scores_of in Hs.
  destruct (CF.user_similarity_matrix self) as [sims |]; [| discriminate].
  cbn [bind] in Hs.
  destruct (nth_error sims user_idx) as [user_similarities |] eqn:Hrow;
    [| discriminate].
  cbn [bind] in Hs.
  destruct (CF.user_item_matrix self) as [uim |]; [| discriminate].
  cbn [bind] in Hs.
  destruct (nth_error uim user_idx) as [user_interactions |]; [| discriminate].
  cbn [bind] in Hs.
  destruct (CF.accumulate_scores _ _ _ _) as [acc |] eqn:Hacc; [| discriminate].
  cbn [bind] in Hs. injection Hs as <-.
  apply nth_zero_at_positive in Hj.
  destruct (accumulate_scores_positive _ _ _ _ _ j Hacc Hj)
    as [H0 | (su & similarity & row & H1 & H2 & H3 & H4 & H5)].
  { rewrite nth_zeros in H0. lra. }
  exists user_idx, sims, user_similarities, uim, j, su, similarity, row.
  repeat split; try assumption; reflexivity.
Qed.

Lemma recommendation_comes_from_positive_neighbour_witness :
  0 < 1
  /\ exists user_idx sims user_similarities uim j su similarity row,
       dict_get String.eqb (CF.user_index_map Ties.trained) "u2" = Some user_idx
       /\ CF.user_similarity_matrix Ties.trained = Some sims
       /\ nth_error sims user_idx = Some user_similarities
       /\ CF.user_item_matrix Ties.trained = Some uim
       /\ dict_get Nat.eqb (CF.reverse_item_map Ties.trained) j = Some "p2"
       /\ In su (slice 1 11 (reversed (argsort user_similarities)))
       /\ nth_error user_similarities su = Some similarity
       /\ 0 < similarity
       /\ nth_error uim su = Some row
       /\ 0 < nth j row 0.
Proof.
  apply (recommendation_comes_from_positive_neighbour Ties.trained "u2" 2 "p2" 1).
  rewrite ties_recommendations. left. reflexivity.
Defined.

(** ** Ranked neighbours: similar users and similar products *)

Lemma collect_users_spec (rm : dict nat string) (s : vector) (idx : list nat)
    (out : list (string * R)) :
  CF.collect_users rm s idx = Some out -> lists_positions rm s idx out.
Proof.
  unfold lists_positions. revert out.
  induction idx as [|i idx IH]; intros out H; cbn in H.
  - injection H as <-. constructor.
  - destruct (dict_get Nat.eqb rm i) as [q |] eqn:Hq; [| discriminate]. cbn in H.
    destruct (nth_error s i) as [x |] eqn:Hx; [| discriminate]. cbn in H.
    destruct (CF.collect_users rm s idx) as [tl |]; [| discriminate]. cbn in H.
    injection H as <-. constructor; [split; assumption | apply IH; reflexivity].
Qed.

Lemma collect_all_spec (rm : dict nat string) (s : vector) (idx : list nat)
    (out : list (string * R)) :
  CBF.collect_all rm s idx = Some out -> lists_positions rm s idx out.
Proof.
  unfold lists_positions. revert out.
  induction idx as [|i idx IH]; intros out H; cbn in H.
  - injection H as <-. constructor.
  - destruct (dict_get Nat.eqb rm i) as [q |] eqn:Hq; [| discriminate]. cbn in H.
    destruct (nth_error s i) as [x |] eqn:Hx; [| discriminate]. cbn in H.
    destruct (CBF.collect_all rm s idx) as [tl |]; [| discriminate]. cbn in H.
    injection H as <-. constructor; [split; assumption | apply IH; reflexivity].
Qed.

Lemma collect_all_total (rm : dict nat string) (s : vector) (idx : list nat) :
  (forall i, In i idx -> (i < length s)%nat /\ exists q, dict_get Nat.eqb rm i = Some q) ->
  exists out, CBF.collect_all rm s idx = Some out.
Proof.
  induction idx as [|i idx IH]; intros H; cbn; [eexists; reflexivity |].
  destruct (H i (or_introl eq_refl)) as (Hi & q & Hq). rewrite Hq. cbn.
  destruct (nth_error s i) as [x |] eqn:Hx.
  2:{ apply nth_error_None in Hx. lia. }
  cbn. destruct IH as (tl & ->); [intros k Hk; apply H; right; exact Hk |].
  cbn. eexists. reflexivity.
Qed.

Lemma lists_positions_NoDup (rm : dict nat string) (s : vector) (idx : list nat)
    (out : list (string * R)) :
  lists_positions rm s idx out -> NoDup idx -> dict_injective rm ->
  NoDup (map fst out).
Proof.
  unfold lists_positions. intros H Hnd Hinj.
  induction H as [| j ps idx out [Hj _] HF IH]; cbn; [constructor |].
  inversion Hnd as [|? ? Hnot Hnd']; subst.
  constructor; [| apply IH; assumption].
  intros Hin. apply in_map_iff in Hin. destruct Hin as (ps' & Hfst & Hps').
  destruct (Forall2_In_r _ _ _ _ HF Hps') as (j' & Hj' & Hget & _).
  rewrite Hfst in Hget. rewrite (Hinj j' j (fst ps) Hget Hj) in Hj'. contradiction.
Qed.

Lemma lists_positions_descending (rm : dict nat string) (s : vector)
    (idx : list nat) (out : list (string * R)) :
  lists_positions rm s idx out -> StronglySorted (ranked_before s) idx ->
  StronglySorted (fun a b => snd b <= snd a) out.
Proof.
  intros H HS. refine (Forall2_sorted _ (ranked_before s) _ idx out _ H HS).
  intros i j a b [_ Ha] [_ Hb] Hr.
  rewrite <- (nth_error_nth _ _ 0 Ha), <- (nth_error_nth _ _ 0 Hb).
  destruct Hr as [Hr | [Hr _]]; lra.
Qed.

Lemma ranked_slice (s : vector) (a b : Z) :
  StronglySorted (ranked_before s) (slice a b (reversed (argsort s)))
  /\ NoDup (slice a b (reversed (argsort s)))
  /\ forall i, In i (slice a b (reversed (argsort s))) -> (i < length s)%nat.
Proof.
  assert (Hsub : sublist (slice a b (reversed (argsort s))) (reversed (argsort s))).
  { unfold slice. eapply sublist_trans; [apply sublist_firstn | apply sublist_skipn]. }
  split; [apply StronglySorted_slice, argsort_reversed_ranked |].
  assert (Hnd : NoDup (reversed (argsort s))).
  { apply NoDup_rev. eapply Permutation_NoDup;
      [symmetry; apply argsort_Permutation | apply seq_NoDup]. }
  split.
  - unfold slice. set (l := reversed (argsort s)) in *.
    set (a' := clamp_index (length l) a). set (b' := clamp_index (length l) b).
    rewrite <- (firstn_skipn a' l) in Hnd. apply NoDup_app_remove_l in Hnd.
    rewrite <- (firstn_skipn (b' - a') (skipn a' l)) in Hnd.
    apply NoDup_app_remove_r in Hnd. exact Hnd.
  - intros i Hi. apply (sublist_In _ _ _ Hsub) in Hi.
    unfold reversed in Hi. apply in_rev in Hi.
    apply (Permutation_in _ (argsort_Permutation s)) in Hi.
    apply in_seq in Hi. lia.
Qed.

Lemma length_slice_after_first {A} (n : Z) (l : list A) :
  (0 <= n)%Z ->
  length (slice 1 (n + 1) l) = Nat.min (Z.to_nat n) (length l - 1).
Proof.
  intros Hn. unfold slice, clamp_index.
  replace (n + 1 <? 0)%Z with false by (symmetry; apply Z.ltb_ge; lia).
  cbn [Z.ltb Z.compare].
  rewrite length_firstn, length_skipn.
  replace (Z.to_nat 1) with 1%nat by reflexivity.
  replace (Z.to_nat (n + 1)) with (S (Z.to_nat n)) by lia.
  destruct (length l) as [|k]; cbn; lia.
Qed.

Lemma length_argsort (s : vector) : length (reversed (argsort s)) = length s.
Proof.
  unfold reversed. rewrite length_rev.
  rewrite (Permutation_length (argsort_Permutation s)). apply length_seq.
Qed.

(** [get_similar_users] returns nothing for an untrained filter or an unknown
    user; otherwise at most [n] pairs (for [n >= 0]), never more than the
    other rows of the similarity matrix, in descending order of similarity,
    and no user twice (the reverse user map naming every row differently). *)
Theorem similar_users_ranked :
  forall (self : CF.t) (user_id : string) (n : Z),
    let out := CF.get_similar_users self user_id n in
    (CF.is_trained self = false -> out = [])
    /\ (dict_get String.eqb (CF.user_index_map self) user_id = None -> out = [])
    /\ ((0 <= n)%Z -> (Z.of_nat (length out) <= n)%Z)
    /\ StronglySorted (fun a b => snd b <= snd a) out
    /\ (dict_injective (CF.reverse_user_map self) -> NoDup (map fst out))
    /\ (forall sims, CF.user_similarity_matrix self = Some sims ->
        Forall (fun row => length row = length sims) sims ->
        (0 <= n)%Z -> (length out <= length sims - 1)%nat).
Proof.
  intros self user_id n out. subst out. unfold CF.get_similar_users, dict_in.
  destruct (CF.is_trained self); cbn [negb orb].
  2:{ repeat split; try reflexivity; intros; try constructor; cbn; lia. }
  destruct (dict_get String.eqb (CF.user_index_map self) user_id) as [user_idx |];
    cbn [negb bind].
  2:{ repeat split; try reflexivity; intros; try constructor; cbn; lia. }
  destruct (CF.user_similarity_matrix self) as [sims |]; cbn [bind or_else].
  2:{ repeat split; try discriminate; intros; try constructor; cbn; lia. }
  destruct (nth_error sims user_idx) as [s |] eqn:Hrow; cbn [bind or_else].
  2:{ repeat split; try discriminate; intros; try constructor; cbn; lia. }
  destruct (CF.collect_users _ _ _) as [out |] eqn:Hc; cbn [or_else].
  2:{ repeat split; try discriminate; intros; try constructor; cbn; lia. }
  apply collect_users_spec in Hc. unfold CF.similar_users_idx in Hc.
  destruct (ranked_slice s 1 (n + 1)) as (HS & Hnd & _).
  pose proof (Forall2_length Hc) as Hlen.
  split; [discriminate |]. split; [discriminate |].
  split.
  { intros Hn. rewrite <- Hlen, (length_slice_after_first n _ Hn). lia. }
  split; [eapply lists_positions_descending; eassumption |].
  split; [intros Hinj; eapply lists_positions_NoDup; eassumption |].
  intros sims' [= <-] Hrect Hn.
  rewrite <- Hlen, (length_slice_after_first n _ Hn), length_argsort.
  rewrite Forall_forall in Hrect. rewrite (Hrect s (nth_error_In _ _ Hrow)). lia.
Qed.

Lemma similar_users_ranked_witness :
  (Z.of_nat (length (CF.get_similar_users Ties.trained "u2" 1)) <= 1)%Z.
Proof.
  apply (similar_users_ranked Ties.trained "u2" 1). lia.
Defined.

(** [get_similar_products] returns at most [n] pairs (for [n >= 0]), in
    descending order of similarity and without a product twice; on a trained
    model whose reverse map names every position of the similarity row, it
    returns exactly [min n (N - 1)] pairs, [N] being the number of products. *)
Theorem similar_products_ranked :
  forall (self : CBF.t) (product_id : string) (n : Z),
    let out := CBF.get_similar_products self product_id n in
    ((0 <= n)%Z -> (Z.of_nat (length out) <= n)%Z)
    /\ StronglySorted (fun a b => snd b <= snd a) out
    /\ (dict_injective (CBF.reverse_product_map self) -> NoDup (map fst out))
    /\ (forall product_idx sims similarity_scores,
          CBF.is_trained self = true ->
          dict_get String.eqb (CBF.product_index_map self) product_id = Some product_idx ->
          CBF.product_similarity_matrix self = Some sims ->
          nth_error sims product_idx = Some similarity_scores ->
          (forall i, (i < length similarity_scores)%nat ->
                     exists q, dict_get Nat.eqb (CBF.reverse_product_map self) i = Some q) ->
          (0 <= n)%Z ->
          length out = Nat.min (Z.to_nat n) (length similarity_scores - 1)).
Proof.
  intros self product_id n out. subst out. unfold CBF.get_similar_products.
  split; [| split; [| split]].
  4:{ intros product_idx sims s Ht Hidx Hsims Hrow Htotal Hn.
      rewrite Ht, Hidx, Hsims. cbn [negb bind]. rewrite Hrow. cbn [bind].
      destruct (collect_all_total (CBF.reverse_product_map self) s
                  (CBF.similar_products_idx s n)) as (out & Hout).
      { intros i Hi. unfold CBF.similar_products_idx in Hi.
        apply (proj2 (proj2 (ranked_slice s 1 (n + 1)))) in Hi.
        split; [exact Hi | apply Htotal; exact Hi]. }
      rewrite Hout. cbn [or_else]. apply collect_all_spec in Hout.
      rewrite <- (Forall2_length Hout). unfold CBF.similar_products_idx.
      rewrite (length_slice_after_first n _ Hn), length_argsort. reflexivity. }
  all: destruct (CBF.is_trained self); cbn [negb];
    [| intros; try constructor; cbn; lia ].
  all: destruct (dict_get String.eqb (CBF.product_index_map self) product_id);
    [| intros; try constructor; cbn; lia ].
  all: destruct (CBF.product_similarity_matrix self) as [sims |]; cbn [bind or_else];
    [| intros; try constructor; cbn; lia ].
  all: destruct (nth_error sims n0) as [s |]; cbn [bind or_else];
    [| intros; try constructor; cbn; lia ].
  all: destruct (CBF.collect_all _ _ _) as [out |] eqn:Hc; cbn [or_else];
    [| intros; try constructor; cbn; lia ].
  all: apply collect_all_spec in Hc; unfold CBF.similar_products_idx in Hc;
    destruct (ranked_slice s 1 (n + 1)) as (HS & Hnd & _);
    pose proof (Forall2_length Hc) as Hlen.
  - intros Hn. rewrite <- Hlen, (length_slice_after_first n _ Hn). lia.
  - eapply lists_positions_descending; eassumption.
  - intros Hinj. eapply lists_positions_NoDup; eassumption.
Qed.

Lemma similar_products_ranked_witness :
  length (CBF.get_similar_products Twins.trained "p0" 1) = 1%nat.
Proof.
  destruct twins_trained as (f & _ & Heq).
  refine (proj2 (proj2 (proj2 (similar_products_ranked Twins.trained "p0" 1)))
            0%nat (cosine_similarity [f; f])
            [dot (normalize_row f) (normalize_row f);
             dot (normalize_row f) (normalize_row f)] _ _ _ _ _ _).
  - rewrite Heq. reflexivity.
  - rewrite Heq. reflexivity.
  - rewrite Heq. reflexivity.
  - reflexivity.
  - rewrite Heq. cbn [length CBF.reverse_product_map CBF.set_is_trained
                      CBF.set_product_similarity_matrix CBF.set_product_features
                      CBF.set_index_maps].
    intros i Hi. destruct i as [|[|i]]; [eexists; reflexivity .. | lia].
  - lia.
Defined.

(* ------------------------------------------------------------------ *)
(** * Further properties of the content filter                         *)
(* ------------------------------------------------------------------ *)

Lemma collect_top_ranked (rm : dict nat string) (s : vector) (n : Z)
    (out : list (string * R)) :
  CF.collect rm s (CF.top_items_idx s n) = Some out ->
  exists cols,
    lists_columns rm s cols out
    /\ StronglySorted (ranked_before s) cols
    /\ Forall (fun j => 0 < nth j s 0) cols
    /\ ((0 <= n)%Z -> (Z.of_nat (length cols) <= n)%Z)
    /\ NoDup cols.
Proof.
  intros Hc.
  exists (filter (fun i => Rltb 0 (nth i s 0)) (CF.top_items_idx s n)).
  split; [apply collect_spec; exact Hc |].
  split.
  { apply StronglySorted_filter. unfold CF.top_items_idx, take.
    apply StronglySorted_slice. apply argsort_reversed_ranked. }
  split.
  { apply Forall_forall. intros j Hj. apply filter_In in Hj.
    apply Rltb_spec. tauto. }
  split.
  { intros Hn. pose proof (length_take n (reversed (argsort s)) Hn) as Hl.
    pose proof (filter_length_le (fun i => Rltb 0 (nth i s 0))
                  (CF.top_items_idx s n)) as Hf.
    unfold CF.top_items_idx in *. lia. }
  apply NoDup_filter, top_items_idx_NoDup.
Qed.

Lemma content_recommendations_cases (self : CBF.t)
    (ui : list CBF.user_interaction) (n : Z) :
  CBF.get_user_content_recommendations self ui n = []
  \/ exists s,
       CBF.product_scores_of self ui = Some (Some s)
       /\ CF.collect (CBF.reverse_product_map self) s (CF.top_items_idx s n)
          = Some (CBF.get_user_content_recommendations self ui n).
Proof.
  unfold CBF.get_user_content_recommendations.
  destruct (CBF.is_trained self); cbn [negb]; [| left; reflexivity].
  destruct ui as [|x ui]; [left; reflexivity |].
  destruct (CBF.product_scores_of self (x :: ui)) as [[s |] |];
    cbn [bind or_else]; try (left; reflexivity).
  destruct (CF.collect _ _ _) as [out |] eqn:Hc; cbn [or_else]; [| left; reflexivity].
  right. exists s. split; [reflexivity | exact Hc].
Qed.

(** [get_user_content_recommendations] returns at most [n] pairs (for
    [n >= 0]), each with a strictly positive score, in descending order of
    score, and no product twice (the reverse map naming every position
    differently). *)
Theorem content_recommendations_ranked :
  forall (self : CBF.t) (ui : list CBF.user_interaction) (n : Z),
    let out := CBF.get_user_content_recommendations self ui n in
    ((0 <= n)%Z -> (Z.of_nat (length out) <= n)%Z)
    /\ Forall (fun ps => 0 < snd ps) out
    /\ StronglySorted (fun a b => snd b <= snd a) out
    /\ (dict_injective (CBF.reverse_product_map self) -> NoDup (map fst out)).
Proof.
  intros self ui n out. subst out.
  destruct (content_recommendations_cases self ui n) as [-> | (s & _ & Hc)].
  { repeat split; try constructor. intros; cbn; lia. }
  destruct (collect_top_ranked _ _ _ _ Hc) as (cols & Hl & HS & Hp & Hn & Hnd).
  pose proof (Forall2_length Hl) as Hlen.
  split; [intros H; rewrite <- Hlen; apply Hn; exact H |].
  split.
  { apply Forall_forall. intros ps Hps.
    destruct (Forall2_In_r _ _ _ _ Hl Hps) as (j & Hj & _ & ->).
    rewrite Forall_forall in Hp. apply Hp, Hj. }
  split.
  { refine (Forall2_sorted _ (ranked_before s) _ cols _ _ Hl HS).
    intros i j a b [_ ->] [_ ->] [H | [H _]]; lra. }
  intros Hinj. eapply lists_columns_NoDup; eassumption.
Qed.

Lemma content_recommendations_ranked_witness :
  (Z.of_nat (length (CBF.get_user_content_recommendations Twins.trained
                       Hybrid.viewed 2)) <= 2)%Z.
Proof.
  apply (content_recommendations_ranked Twins.trained Hybrid.viewed 2). lia.
Defined.

(** ** The history of the user *)

Lemma build_profile_history (self : CBF.t) (features : matrix)
    (ui : list CBF.user_interaction) (acc res : vector * R * list string) :
  CBF.build_profile self features ui acc = Some res ->
  (forall q, In q (snd acc) -> In q (snd res))
  /\ (forall x, In x ui ->
        dict_get String.eqb (CBF.product_index_map self) (CBF.ui_productId x) <> None ->
        In (CBF.ui_productId x) (snd res))
  /\ ((forall x, In x ui ->
         dict_get String.eqb (CBF.product_index_map self) (CBF.ui_productId x) = None) ->
      res = acc).
Proof.
  revert acc. induction ui as [|x ui IH]; intros [[prof tw] ips] H; cbn in H.
  - injection H as <-. split; [auto |]. split; [intros x [] | reflexivity].
  - destruct (dict_get String.eqb (CBF.product_index_map self) (CBF.ui_productId x))
      as [idx |] eqn:Hidx.
    + destruct (nth_error features idx) as [row |]; [| discriminate]. cbn [bind] in H.
      destruct (IH _ H) as (H1 & H2 & _). cbn [snd] in *.
      split; [intros q Hq; apply H1; right; exact Hq |].
      split.
      * intros y [<- | Hy] Hk; [apply H1; left; reflexivity | apply H2; assumption].
      * intros Hnone. specialize (Hnone x (or_introl eq_refl)). congruence.
    + destruct (IH _ H) as (H1 & H2 & H3).
      split; [exact H1 |]. split.
      * intros y [<- | Hy] Hk; [congruence | apply H2; assumption].
      * intros Hnone. apply H3. intros y Hy. apply Hnone. right. exact Hy.
Qed.

(** A product of the user's history that the model knows is never in the list
    [get_user_content_recommendations] returns (the reverse map naming a
    product only at its own position, as the training builds it). *)
Theorem content_recommendations_exclude_history :
  forall (self : CBF.t) (ui : list CBF.user_interaction) (n : Z)
         (x : CBF.user_interaction) (i : nat),
    In x ui ->
    dict_get String.eqb (CBF.product_index_map self) (CBF.ui_productId x) = Some i ->
    maps_agree self ->
    ~ In (CBF.ui_productId x)
         (map fst (CBF.get_user_content_recommendations self ui n)).
Proof.
  intros self ui n x i Hx Hi Hagree Hin.
  destruct (content_recommendations_cases self ui n) as [Hnil | (s & Hs & Hc)].
  { rewrite Hnil in Hin. contradiction. }
  apply collect_spec in Hc. apply in_map_iff in Hin.
  destruct Hin as (ps & Hfst & Hps).
  destruct (Forall2_In_r _ _ _ _ Hc Hps) as (j & Hj & Hget & _).
  apply filter_In in Hj. destruct Hj as [_ Hj]. apply Rltb_spec in Hj.
  rewrite Hfst in Hget. apply Hagree in Hget. rewrite Hi in Hget. injection Hget as <-.
  unfold CBF.product_scores_of in Hs.
  destruct (CBF.product_features self) as [features |]; [| discriminate].
  cbn [bind] in Hs.
  destruct (CBF.build_profile _ _ _ _) as [[[prof tw] ips] |] eqn:Hb; [| discriminate].
  cbn [bind] in Hs.
  destruct (Req_dec_T tw 0); [discriminate |].
  destruct (nth_error _ 0) as [scores |]; [| discriminate]. cbn [bind] in Hs.
  injection Hs as <-.
  rewrite nth_zero_at in Hj; [lra |].
  apply in_flat_map. exists (CBF.ui_productId x). split.
  - destruct (build_profile_history _ _ _ _ _ Hb) as (_ & H2 & _).
    apply (H2 x Hx). congruence.
  - rewrite Hi. left. reflexivity.
Qed.

(** When no product of the history is known to the model, the total weight is
    0 and [get_user_content_recommendations] returns nothing. *)
Theorem content_recommendations_unknown_history :
  forall (self : CBF.t) (ui : list CBF.user_interaction) (n : Z),
    (forall x, In x ui ->
       dict_get String.eqb (CBF.product_index_map self) (CBF.ui_productId x) = None) ->
    CBF.get_user_content_recommendations self ui n = [].
Proof.
  intros self ui n Hnone. unfold CBF.get_user_content_recommendations.
  destruct (CBF.is_trained self); cbn [negb]; [| reflexivity].
  destruct ui as [|x ui]; [reflexivity |].
  unfold CBF.product_scores_of.
  destruct (CBF.product_features self) as [features |]; cbn [bind or_else];
    [| reflexivity].
  destruct (CBF.build_profile _ _ _ _) as [[[prof tw] ips] |] eqn:Hb;
    cbn [bind or_else]; [| reflexivity].
  destruct (build_profile_history _ _ _ _ _ Hb) as (_ & _ & H3).
  specialize (H3 Hnone). injection H3 as _ -> _.
  destruct (Req_dec_T 0 0) as [_ | H]; [reflexivity | contradiction H; reflexivity].
Qed.

Lemma content_recommendations_exclude_history_witness :
  ~ In "p0" (map fst (CBF.get_user_content_recommendations Twins.trained
                        Hybrid.viewed 2)).
Proof.
  destruct twins_trained as (f & _ & Heq).
  refine (content_recommendations_exclude_history Twins.trained Hybrid.viewed 2
            {| CBF.ui_productId := "p0"; CBF.ui_interactionType := "view" |}
            0%nat _ _ _).
  - left. reflexivity.
  - rewrite Heq. reflexivity.
  - rewrite Heq. intros j q. cbn.
    destruct j as [|[|j]]; cbn; intros [= <-]; reflexivity.
Defined.

Lemma content_recommendations_unknown_history_witness :
  CBF.get_user_content_recommendations Twins.trained
    [ {| CBF.ui_productId := "p9"; CBF.ui_interactionType := "view" |} ] 2 = [].
Proof.
  apply content_recommendations_unknown_history.
  destruct twins_trained as (f & _ & Heq).
  intros x [<- | []]. rewrite Heq. reflexivity.
Defined.

(** ** Preparing the products *)




(** The price bands are closed on the right: (0, 25] is budget, (25, 50] low,
    (50, 100] medium, (100, 250] high, above 250 premium; a price of 0 or
    less, such as the 0 that stands for a missing price, is in no band. *)
Theorem price_bucket_bands :
  forall p : R,
    (CBF.price_bucket p = "nan" <-> p <= 0)
    /\ (CBF.price_bucket p = "budget" <-> 0 < p <= 25)
    /\ (CBF.price_bucket p = "low" <-> 25 < p <= 50)
    /\ (CBF.price_bucket p = "medium" <-> 50 < p <= 100)
    /\ (CBF.price_bucket p = "high" <-> 100 < p <= 250)
    /\ (CBF.price_bucket p = "premium" <-> 250 < p).
Proof.
  intros p. unfold CBF.price_bucket.
  destruct (Rle_dec p 0) as [H0 | H0];
    [rewrite (Rleb_true p 0) by lra
    | rewrite (Rleb_false p 0) by lra;
      destruct (Rle_dec p 25) as [H1 | H1];
      [rewrite (Rleb_true p 25) by lra
      | rewrite (Rleb_false p 25) by lra;
        destruct (Rle_dec p 50) as [H2 | H2];
        [rewrite (Rleb_true p 50) by lra
        | rewrite (Rleb_false p 50) by lra;
          destruct (Rle_dec p 100) as [H3 | H3];
          [rewrite (Rleb_true p 100) by lra
          | rewrite (Rleb_false p 100) by lra;
            destruct (Rle_dec p 250) as [H4 | H4];
            [rewrite (Rleb_true p 250) by lra
            | rewrite (Rleb_false p 250) by lra]]]]];
    repeat match goal with
           | |- _ /\ _ => split
           | |- _ <-> _ => split
           end;
    intros Hx; try reflexivity; try discriminate Hx; try lra.
Qed.

(** ** Training the content filter *)

Section DictOfFacts.
Context {K V : Type} (eqb : K -> K -> bool).
Hypothesis eqb_spec : forall x y, eqb x y = true <-> x = y.

Lemma dict_set_fold_NoDup (l acc : list (K * V)) :
  NoDup (dict_keys acc) ->
  NoDup (dict_keys (fold_left (fun d kv => dict_set eqb d (fst kv) (snd kv)) l acc)).
Proof.
  revert acc. induction l as [|[k v] l IH]; intros acc Hnd; cbn; [exact Hnd |].
  apply IH. apply (NoDup_keys_set eqb eqb_spec). exact Hnd.
Qed.

Lemma dict_of_NoDup (l : list (K * V)) : NoDup (dict_keys (dict_of eqb l)).
Proof. unfold dict_of. apply dict_set_fold_NoDup. constructor. Qed.

Lemma dict_set_fold_get (l acc : list (K * V)) (k : K) (v : V) :
  dict_get eqb (fold_left (fun d kv => dict_set eqb d (fst kv) (snd kv)) l acc) k
    = Some v ->
  In (k, v) l \/ dict_get eqb acc k = Some v.
Proof.
  revert acc. induction l as [|[k0 v0] l IH]; intros acc H; cbn in *.
  - right. exact H.
  - destruct (IH _ H) as [Hin | Hget]; [left; right; exact Hin |].
    rewrite (dict_get_set eqb eqb_spec) in Hget.
    destruct (eqb k k0) eqn:E.
    + apply eqb_spec in E. subst k0. injection Hget as ->. left. left. reflexivity.
    + right. exact Hget.
Qed.

Lemma dict_of_get_In (l : list (K * V)) (k : K) (v : V) :
  dict_get eqb (dict_of eqb l) k = Some v -> In (k, v) l.
Proof.
  intros H. destruct (dict_set_fold_get l [] k v H) as [Hin | Hget];
    [exact Hin | discriminate].
Qed.

Lemma dict_set_fold_in (l acc : list (K * V)) (k : K) :
  In k (map fst l) \/ dict_in eqb acc k = true ->
  dict_in eqb (fold_left (fun d kv => dict_set eqb d (fst kv) (snd kv)) l acc) k = true.
Proof.
  revert acc. induction l as [|[k0 v0] l IH]; intros acc H; cbn in *.
  - destruct H as [[] | H]. exact H.
  - apply IH. unfold dict_in. rewrite (dict_get_set eqb eqb_spec).
    destruct (eqb k k0) eqn:E.
    + right. reflexivity.
    + destruct H as [[H | H] | H].
      * subst k0. rewrite eqb_refl' in E by exact eqb_spec. discriminate.
      * left. exact H.
      * right. exact H.
Qed.

Lemma dict_of_in (l : list (K * V)) (k : K) :
  In k (map fst l) -> dict_in eqb (dict_of eqb l) k = true.
Proof. intros H. apply dict_set_fold_in. left. exact H. Qed.
End DictOfFacts.

(** The reverse of a dictionary names a value only under its key. *)
Lemma reverse_of_index (ids : list string) (j : nat) (q : string) :
  let pm := dict_of String.eqb (map swap (enumerate ids)) in
  dict_get Nat.eqb (dict_of Nat.eqb (map swap pm)) j = Some q ->
  dict_get String.eqb pm q = Some j.
Proof.
  intros pm H. apply (dict_of_get_In Nat.eqb nat_eqb_spec) in H.
  apply in_map_iff in H. destruct H as ([q' j'] & Heq & Hin).
  unfold swap in Heq. cbn in Heq. injection Heq as -> ->.
  apply (In_dict_get String.eqb string_eqb_spec); [| exact Hin].
  apply (dict_of_NoDup String.eqb string_eqb_spec).
Qed.

Lemma length_hstack (a b : matrix) :
  length (CBF.hstack a b) = Nat.min (length a) (length b).
Proof.
  revert b. induction a as [|r a IH]; intros [|s b]; cbn; try reflexivity.
  rewrite IH. reflexivity.
Qed.

Lemma length_get_dummies (col : list string) :
  length (CBF.get_dummies col) = length col.
Proof. unfold CBF.get_dummies. apply length_map. Qed.

Lemma length_standard_scale (col : list R) :
  length (CBF.standard_scale col) = length col.
Proof. unfold CBF.standard_scale. apply length_map. Qed.

Lemma length_prepare_product_data (products : list CBF.product) :
  length (CBF.prepare_product_data products) = length products.
Proof. unfold CBF.prepare_product_data. apply length_map. Qed.

Lemma extract_features_shape (tfidf : list string -> result matrix)
    (df : list CBF.prepared) (text : matrix) :
  df <> [] ->
  tfidf (map CBF.combined_text df) = Ok text ->
  length text = length df ->
  exists features,
    CBF.extract_features tfidf df = Ok features
    /\ length features = length df
    /\ size features <> 0%nat.
Proof.
  intros Hne Htf Hlen. unfold CBF.extract_features.
  destruct df as [|p df0]; [congruence |].
  rewrite Htf. eexists. split; [reflexivity |].
  set (features := CBF.hstack _ _).
  assert (Hl : length features = length (p :: df0)).
  { subst features. rewrite !length_hstack, length_standard_scale,
      !length_get_dummies, !length_map, Hlen. lia. }
  split; [exact Hl |].
  destruct features as [|row rest] eqn:E; [cbn in Hl; discriminate |].
  assert (Hone : In 1 row).
  { apply (stacked_row_has_one text (CBF.standard_scale (map CBF.p_price (p :: df0)))
             (map CBF.p_category (p :: df0)) (map CBF.price_category (p :: df0))).
    fold features. rewrite E. left. reflexivity. }
  unfold size, shape0, shape1. destruct row as [|x row]; [destruct Hone |].
  cbn. lia.
Qed.

(** Training the content filter on a non-empty catalog whose text features
    come back with one row per product succeeds: the filter is trained, holds
    one feature row per product and a similarity matrix with one row and one
    column per product, every product id is in the index map, and the reverse
    map names a product only at the position the index map gives it. *)
Theorem content_train_builds_model :
  forall (tfidf : list string -> result matrix) (self : CBF.t)
         (products : list CBF.product) (text : matrix),
    products <> [] ->
    tfidf (map CBF.combined_text (CBF.prepare_product_data products)) = Ok text ->
    length text = length products ->
    let run := CBF.train tfidf self products in
    snd run = Ok tt
    /\ CBF.is_trained (fst run) = true
    /\ (exists features sims,
           CBF.product_features (fst run) = Some features
           /\ length features = length products
           /\ CBF.product_similarity_matrix (fst run) = Some sims
           /\ square (length products) sims)
    /\ (forall p, In p products ->
          dict_in String.eqb (CBF.product_index_map (fst run)) (CBF._id p) = true)
    /\ maps_agree (fst run).
Proof.
  intros tfidf self products text Hne Htf Hlen run.
  pose proof (cbf_train_cases tfidf self products) as Hrun. cbn zeta in Hrun.
  fold run in Hrun.
  assert (Hdf : CBF.prepare_product_data products <> []).
  { intros H. apply (f_equal (@length _)) in H.
    rewrite length_prepare_product_data in H. destruct products; [congruence | discriminate]. }
  rewrite <- length_prepare_product_data in Hlen.
  destruct (extract_features_shape tfidf _ text Hdf Htf Hlen)
    as (features & Hf & Hrows & Hsize).
  rewrite Hf in Hrun.
  destruct (CBF.prepare_product_data products) as [|row df0] eqn:Edf; [congruence |].
  cbn [nonempty] in Hrun.
  apply Nat.eqb_neq in Hsize. rewrite Hsize in Hrun.
  rewrite <- Edf in *. rewrite length_prepare_product_data in Hrows.
  rewrite Hrun. cbn [fst snd].
  split; [reflexivity |]. split; [reflexivity |]. split.
  { exists features, (cosine_similarity features). cbn.
    split; [reflexivity |]. split; [exact Hrows |]. split; [reflexivity |].
    rewrite <- Hrows. apply cosine_similarity_square. }
  split.
  { intros p Hp. cbn. apply (dict_of_in String.eqb string_eqb_spec).
    rewrite map_map.
    replace (map (fun x => fst (swap x)) (enumerate (map CBF.p_id (CBF.prepare_product_data products))))
      with (map CBF.p_id (CBF.prepare_product_data products)).
    - unfold CBF.prepare_product_data. rewrite map_map. cbn.
      apply in_map_iff. exists p. split; [reflexivity | exact Hp].
    - unfold enumerate.
      rewrite <- (map_snd_combine_seq (map CBF.p_id (CBF.prepare_product_data products)) 0) at 1.
      apply map_ext. intros [a b]. reflexivity. }
  intros j q. cbn. apply reverse_of_index.
Qed.

Lemma content_train_builds_model_witness :
  snd (CBF.train Twins.tfidf (CBF.init 1000) [Twins.mug "p0"; Twins.mug "p1"]) = Ok tt
  /\ CBF.is_trained
       (fst (CBF.train Twins.tfidf (CBF.init 1000) [Twins.mug "p0"; Twins.mug "p1"]))
     = true.
Proof.
  destruct (content_train_builds_model Twins.tfidf (CBF.init 1000)
              [Twins.mug "p0"; Twins.mug "p1"] [[1]; [1]]) as (H1 & H2 & _).
  - discriminate.
  - reflexivity.
  - reflexivity.
  - split; assumption.
Defined.

Lemma sublist_map {A B} (f : A -> B) (l1 l2 : list A) :
  sublist l1 l2 -> sublist (map f l1) (map f l2).
Proof.
  induction 1 as [| x l1 l2 H IH | x l1 l2 H IH]; cbn;
    [constructor | apply sublist_skip, IH | apply sublist_keep, IH].
Qed.

Lemma take_firstn {A} (n : Z) (l : list A) :
  (0 <= n)%Z -> take n l = firstn (Z.to_nat n) l.
Proof.
  intros Hn. unfold take, slice, clamp_index.
  assert (H0 : (0 <? 0)%Z = false) by reflexivity.
  assert (H1 : (n <? 0)%Z = false) by (apply Z.ltb_ge; exact Hn).
  rewrite H0, H1. cbn [Z.to_nat Nat.min skipn]. rewrite Nat.sub_0_r.
  destruct (Nat.le_ge_cases (Z.to_nat n) (length l)) as [Hle | Hge].
  - rewrite Nat.min_l by exact Hle. reflexivity.
  - rewrite Nat.min_r by exact Hge. rewrite !firstn_all2; [reflexivity | exact Hge | lia].
Qed.

(** The category recommendations do not read the category: on a trained
    filter and for a non-negative [n] they are exactly the first [n] keys of
    the product index map (all of them when the map holds fewer), in the
    order of the map and each with the score 1; an untrained filter gives
    none. *)
Theorem category_recommendations_ignore_category :
  forall (self : CBF.t) (c1 c2 : string) (n : Z),
    CBF.get_category_recommendations self c1 n
      = CBF.get_category_recommendations self c2 n
    /\ (CBF.is_trained self = false -> CBF.get_category_recommendations self c1 n = [])
    /\ (CBF.is_trained self = true -> (0 <= n)%Z ->
        CBF.get_category_recommendations self c1 n
        = map (fun product_id => (product_id, 1))
              (firstn (Z.to_nat n) (dict_keys (CBF.product_index_map self))))
    /\ Forall (fun ps => snd ps = 1) (CBF.get_category_recommendations self c1 n)
    /\ ((0 <= n)%Z ->
        (Z.of_nat (length (CBF.get_category_recommendations self c1 n)) <= n)%Z).
Proof.
  intros self c1 c2 n. unfold CBF.get_category_recommendations.
  split; [reflexivity |].
  split; [intros ->; reflexivity |].
  destruct (CBF.is_trained self); cbn [negb].
  2:{ split; [discriminate |]. split; [constructor |]. intros Hn. cbn. lia. }
  split.
  { intros _ Hn. rewrite (take_firstn n _ Hn). apply firstn_map. }
  split.
  { apply Forall_forall. intros ps Hps.
    apply (sublist_In _ _ _ (sublist_take _ _)) in Hps.
    apply in_map_iff in Hps. destruct Hps as (k & <- & _). reflexivity. }
  intros Hn. apply length_take. exact Hn.
Qed.

Lemma category_recommendations_ignore_category_witness :
  CBF.get_category_recommendations Twins.trained "kitchen" 1 = [("p0", 1)].
Proof.
  assert (Ht : CBF.is_trained Twins.trained = true).
  { destruct twins_trained as (f & _ & ->). reflexivity. }
  destruct (category_recommendations_ignore_category Twins.trained "kitchen"
              "garden" 1) as (_ & _ & H & _).
  rewrite (H Ht ltac:(lia)).
  destruct twins_trained as (f & _ & ->). reflexivity.
Defined.

(** ** Further properties of the recommendation service *)

(** A service with no recorded training time is due for training without the
    clock or the database being consulted: its unforced run trains and records
    the time read at its start.  A service built over a model directory with no
    metadata file has no recorded training time. *)
Theorem first_run_trains :
  forall (db : RS.database) (sk : RS.sklearn) (self : RS.t) (w : RS.world),
    RS.last_training_time self = None ->
    RS._should_retrain db self w = (true, w)
    /\ RS.status (snd (RS.train_models db sk self false w)) = "success"
    /\ RS.last_training_time (fst (fst (RS.train_models db sk self false w)))
       = Some (RS.clock w (RS.ticks w))
    /\ (forall e1 e2 w0, RS.training_metadata_pkl w0 = None ->
          RS.last_training_time (RS.init e1 e2 w0) = None).
Proof.
  intros db sk self w Hlast.
  assert (Hs : RS._should_retrain db self w = (true, w)).
  { unfold RS._should_retrain. rewrite Hlast. reflexivity. }
  split; [exact Hs |].
  destruct (train_models_run db sk self false w w Hs)
    as (_ & _ & Ht & _ & _ & Hst & _).
  split; [exact Hst |]. split; [exact Ht |].
  intros e1 e2 w0 Hm. unfold RS.init, RS._load_models. cbn. rewrite Hm. reflexivity.
Qed.

Lemma first_run_trains_witness :
  RS.status (snd (RS.train_models PartialFailure.db PartialFailure.sk
                    PartialFailure.service false PartialFailure.w)) = "success".
Proof.
  apply (first_run_trains PartialFailure.db PartialFailure.sk PartialFailure.service
           PartialFailure.w).
  reflexivity.
Defined.

(** A skipped run was not forced, leaves the service as it was, writes no file
    of the model directory, and reports the training time on record. *)
Theorem skipped_run_changes_nothing :
  forall (db : RS.database) (sk : RS.sklearn) (self : RS.t) (force : bool)
         (w : RS.world),
    RS.status (snd (RS.train_models db sk self force w)) = "skipped" ->
    force = false
    /\ fst (fst (RS.train_models db sk self force w)) = self
    /\ same_files w (snd (fst (RS.train_models db sk self force w)))
    /\ snd (RS.train_models db sk self force w)
       = RS.Skipped "Training conditions not met" (RS.last_training_time self).
Proof.
  intros db sk self force w Hst.
  destruct (if force then (true, w) else RS._should_retrain db self w)
    as [[|] w0] eqn:Hgo.
  - destruct (train_models_run db sk self force w w0 Hgo)
      as (_ & _ & _ & _ & _ & Hsucc & _).
    rewrite Hsucc in Hst. discriminate.
  - destruct force; [discriminate |].
    split; [reflexivity |].
    unfold RS.train_models. rewrite Hgo. cbn [negb fst snd].
    split; [reflexivity |]. split; [| reflexivity].
    unfold RS._should_retrain in Hgo.
    destruct (RS.last_training_time self) as [last |]; [| discriminate].
    assert (Hw : w0 = snd (RS.utcnow w)).
    { destruct (RS.utcnow w) as [now w1]. cbn [snd].
      destruct (Rltb _ _); [congruence |].
      destruct (RS.count_documents_since db last) as [k | e]; [| congruence].
      destruct (k <? RS.min_new_interactions self)%Z; congruence. }
    rewrite Hw. repeat split.
Qed.

Lemma skipped_run_changes_nothing_witness :
  fst (fst (RS.train_models (Hybrid.db Hybrid.full_catalog) Hybrid.sk Hybrid.service
              false Hybrid.w)) = Hybrid.service.
Proof.
  apply (skipped_run_changes_nothing (Hybrid.db Hybrid.full_catalog) Hybrid.sk
           Hybrid.service false Hybrid.w).
  unfold RS.train_models, RS._should_retrain, RS.total_seconds. cbn -[Rltb].
  rewrite Rltb_true by lra. reflexivity.
Defined.

(** What [_save_models] writes to a writable model directory, a new service
    reads back: both filters and the last training time.  The retrain interval
    written with them is not read: it comes from the environment again, as
    does the interaction threshold. *)
Theorem saved_models_are_loaded_back :
  forall (self : RS.t) (e1 e2 : option Z) (w : RS.world),
    RS.writable w = true ->
    let self' := RS.init e1 e2 (RS._save_models self w) in
    RS.collaborative_filter self' = RS.collaborative_filter self
    /\ RS.content_filter self' = RS.content_filter self
    /\ RS.last_training_time self' = RS.last_training_time self
    /\ RS.retrain_interval_hours self' = or_else e1 24%Z
    /\ RS.min_new_interactions self' = or_else e2 100%Z.
Proof.
  intros self e1 e2 w Hw. cbv zeta.
  unfold RS.init, RS._load_models, RS._save_models. rewrite Hw. cbn.
  repeat split.
Qed.

Lemma saved_models_are_loaded_back_witness :
  RS.collaborative_filter
    (RS.init None None (RS._save_models Hybrid.service Hybrid.w))
  = Ties.trained.
Proof.
  apply (saved_models_are_loaded_back Hybrid.service None None Hybrid.w).
  reflexivity.
Defined.

(** After a run that was not skipped, an unforced run that reads the clock
    less than the retrain interval after the start of that run is skipped,
    without the database being consulted, and reports that start time. *)
Theorem run_after_recent_run_is_skipped :
  forall (db db' : RS.database) (sk sk' : RS.sklearn) (self : RS.t) (force : bool)
         (w : RS.world),
    let self' := fst (fst (RS.train_models db sk self force w)) in
    let w' := snd (fst (RS.train_models db sk self force w)) in
    let r := snd (RS.train_models db sk self force w) in
    forall start : RS.datetime,
      RS.training_time_of r = Some start ->
      RS.total_seconds (RS.clock w' (RS.ticks w') - start)%Z
        < IZR (RS.retrain_interval_hours self * 3600) ->
      RS.train_models db' sk' self' false w'
      = (self', snd (RS.utcnow w'),
         RS.Skipped "Training conditions not met" (Some start)).
Proof.
  intros db db' sk sk' self force w self' w' r start Hr Hrecent.
  destruct (if force then (true, w) else RS._should_retrain db self w)
    as [[|] w0] eqn:Hgo.
  - destruct (train_models_run db sk self force w w0 Hgo)
      as (_ & _ & Ht & Hi & _ & _ & Htt & _).
    fold self' in Ht, Hi. fold r in Htt.
    rewrite Htt in Hr. injection Hr as Hr. rewrite Hr in Ht.
    unfold RS.train_models, RS._should_retrain. rewrite Ht. cbn [RS.utcnow].
    rewrite Hi. rewrite Rltb_true by exact Hrecent. cbn [negb]. reflexivity.
  - exfalso. subst r. unfold RS.train_models in Hr. rewrite Hgo in Hr.
    cbn in Hr. discriminate.
Qed.

Lemma run_after_recent_run_is_skipped_witness :
  RS.status
    (snd (RS.train_models PartialFailure.db PartialFailure.sk
            (fst (fst (RS.train_models PartialFailure.db PartialFailure.sk
                         PartialFailure.service false PartialFailure.w)))
            false
            (snd (fst (RS.train_models PartialFailure.db PartialFailure.sk
                         PartialFailure.service false PartialFailure.w)))))
  = "skipped".
Proof.
  rewrite (run_after_recent_run_is_skipped PartialFailure.db PartialFailure.db
             PartialFailure.sk PartialFailure.sk PartialFailure.service false
             PartialFailure.w 0%Z).
  - reflexivity.
  - destruct (train_models_run PartialFailure.db PartialFailure.sk
                PartialFailure.service false PartialFailure.w PartialFailure.w eq_refl)
      as (_ & _ & _ & _ & _ & _ & Htt & _).
    exact Htt.
  - destruct (train_models_run PartialFailure.db PartialFailure.sk
                PartialFailure.service false PartialFailure.w PartialFailure.w eq_refl)
      as (_ & _ & _ & _ & Hw & _).
    rewrite Hw. unfold RS.total_seconds. cbn. lra.
Defined.

(** Enrichment changes nothing of a recommendation but its details. *)
Lemma In_enrich (db : RS.database) (recs : list RS.recommendation)
    (rec : RS.recommendation) :
  In rec (RS._enrich_recommendations db recs) ->
  exists rec0, In rec0 recs
    /\ RS.productId rec = RS.productId rec0
    /\ RS.score rec = RS.score rec0
    /\ RS.algorithm rec = RS.algorithm rec0
    /\ RS.reason rec = RS.reason rec0
    /\ RS.contributing_algorithms rec = RS.contributing_algorithms rec0.
Proof.
  unfold RS._enrich_recommendations. intros H.
  destruct recs as [|r0 l0] eqn:El; [destruct H |].
  rewrite <- El in *. clear El r0 l0.
  destruct (RS.find_products_by_ids db (map RS.productId recs)) as [found | e].
  - apply in_flat_map in H. destruct H as (rec0 & Hin & Hrec).
    destruct (dict_get String.eqb (dict_of String.eqb found) (RS.productId rec0));
      [| destruct Hrec].
    destruct Hrec as [<- | []]. exists rec0. cbn. repeat split. exact Hin.
  - exists rec. repeat split. exact H.
Qed.

Lemma length_take_nat {A} (n : Z) (l : list A) : (length (take n l) <= length l)%nat.
Proof.
  unfold take, slice. rewrite length_firstn, length_skipn. lia.
Qed.

Lemma length_enrich (db : RS.database) (recs : list RS.recommendation) :
  (length (RS._enrich_recommendations db recs) <= length recs)%nat.
Proof.
  unfold RS._enrich_recommendations.
  destruct recs as [|r0 l0] eqn:El; [cbn; lia |].
  rewrite <- El. clear El r0 l0.
  destruct (RS.find_products_by_ids db (map RS.productId recs)) as [found | e];
    [| lia].
  induction recs as [|r recs IH]; cbn; [lia |].
  rewrite length_app.
  destruct (dict_get String.eqb (dict_of String.eqb found) (RS.productId r)); cbn; lia.
Qed.

(** [get_recommendations] gives no more than [limit] recommendations, for a
    limit that is not negative, and none when the history of the user cannot
    be fetched. *)
Theorem recommendations_respect_limit :
  forall (db : RS.database) (sk : RS.sklearn) (self : RS.t) (user_id : string)
         (limit : Z) (algorithm_ : option string) (w : RS.world),
    (0 <= limit)%Z ->
    (Z.of_nat (length (snd (RS.get_recommendations db sk self user_id limit
                              algorithm_ w))) <= limit)%Z
    /\ (forall e, RS.get_user_interactions db user_id = Raise e ->
          snd (RS.get_recommendations db sk self user_id limit algorithm_ w) = []).
Proof.
  intros db sk self user_id limit algorithm_ w Hlimit.
  unfold RS.get_recommendations.
  destruct (RS.auto_train db sk self w) as [self1 w1].
  destruct (RS.get_user_interactions db user_id) as [ui | e]; cbn [snd].
  - split; [| discriminate]. unfold RS.rank. apply length_take. exact Hlimit.
  - split; [cbn; lia | reflexivity].
Qed.

Lemma recommendations_respect_limit_witness :
  (Z.of_nat (length (snd (RS.get_recommendations (Hybrid.db Hybrid.full_catalog)
                            Hybrid.sk Hybrid.service "u2" 1 None Hybrid.w))) <= 1)%Z.
Proof.
  apply (recommendations_respect_limit (Hybrid.db Hybrid.full_catalog) Hybrid.sk
           Hybrid.service "u2" 1 None Hybrid.w).
  lia.
Defined.

(** When the catalog query raises, enrichment returns the recommendations as
    they are.  When it answers, the result keeps, in order, exactly the
    recommendations whose product the answer holds, each with details the
    answer gives for that product and nothing else changed. *)
Theorem enrichment_keeps_catalogued_products :
  forall (db : RS.database) (recs : list RS.recommendation),
    (forall e, RS.find_products_by_ids db (map RS.productId recs) = Raise e ->
       RS._enrich_recommendations db recs = recs)
    /\ (forall found,
          RS.find_products_by_ids db (map RS.productId recs) = Ok found ->
          exists kept,
            sublist kept recs
            /\ Forall2 (enriched_from found) kept (RS._enrich_recommendations db recs)
            /\ (forall rec0, In rec0 recs ->
                  (In rec0 kept <-> In (RS.productId rec0) (map fst found)))).
Proof.
  intros db recs. unfold RS._enrich_recommendations. split.
  - intros e He. rewrite He. destruct recs; reflexivity.
  - intros found Hf. rewrite Hf.
    assert (Hgen :
      exists kept,
        sublist kept recs
        /\ Forall2 (enriched_from found) kept
             (flat_map (fun rec =>
                          match dict_get String.eqb (dict_of String.eqb found)
                                  (RS.productId rec) with
                          | Some d => [RS.with_details rec d]
                          | None => []
                          end) recs)
        /\ (forall rec0, In rec0 recs ->
              (In rec0 kept <-> In (RS.productId rec0) (map fst found)))).
    { clear Hf. induction recs as [|r recs IH].
      - exists []. split; [constructor |]. split; [constructor |].
        intros rec0 [].
      - destruct IH as (kept & Hsub & HF & Hiff). cbn [flat_map].
        destruct (dict_get String.eqb (dict_of String.eqb found) (RS.productId r))
          as [d |] eqn:E.
        + exists (r :: kept). split; [apply sublist_keep; exact Hsub |]. split.
          * cbn. constructor; [| exact HF]. exists d. split; [| reflexivity].
            apply (dict_of_get_In String.eqb string_eqb_spec). exact E.
          * intros rec0 [<- | Hin].
            -- split; [intros _ | intros _; left; reflexivity].
               apply (dict_of_get_In String.eqb string_eqb_spec) in E.
               apply in_map_iff. exists (RS.productId r, d). split; [reflexivity | exact E].
            -- split.
               ++ intros [<- | Hk].
                  ** apply (dict_of_get_In String.eqb string_eqb_spec) in E.
                     apply in_map_iff. exists (RS.productId r, d).
                     split; [reflexivity | exact E].
                  ** apply (Hiff rec0 Hin). exact Hk.
               ++ intros Hfound. right. apply (Hiff rec0 Hin). exact Hfound.
        + exists kept. split; [apply sublist_skip; exact Hsub |]. split.
          * cbn. exact HF.
          * assert (Hr : ~ In (RS.productId r) (map fst found)).
            { intros Hin. apply (dict_of_in String.eqb string_eqb_spec) in Hin.
              unfold dict_in in Hin. rewrite E in Hin. discriminate. }
            intros rec0 [<- | Hin].
            -- split; [| intros Hc; contradiction].
               intros Hk. exfalso.
               assert (Hk' : In (RS.productId r) (map fst found)).
               { destruct (in_split _ _ Hk) as (l1 & l2 & ->).
                 destruct (Forall2_app_inv_l _ _ HF) as (o1 & o2 & _ & Ho2 & _).
                 inversion Ho2 as [| ? y ? ? (d & Hd & _) _]; subst.
                 apply in_map_iff. exists (RS.productId r, d).
                 split; [reflexivity | exact Hd]. }
               contradiction.
            -- apply (Hiff rec0 Hin). }
    destruct recs as [|r0 l0]; [| exact Hgen].
    exists []. split; [constructor |]. split; [constructor |]. intros rec0 [].
Qed.

Lemma enrichment_keeps_catalogued_products_witness :
  exists kept,
    sublist kept [RS.candidate "popularity" "Popular among all users" ("p0", 3)]
    /\ Forall2 (enriched_from [Hybrid.item "p0"]) kept
         (RS._enrich_recommendations (Hybrid.db Hybrid.full_catalog)
            [RS.candidate "popularity" "Popular among all users" ("p0", 3)]).
Proof.
  destruct (proj2 (enrichment_keeps_catalogued_products
                     (Hybrid.db Hybrid.full_catalog)
                     [RS.candidate "popularity" "Popular among all users" ("p0", 3)])
              [Hybrid.item "p0"] eq_refl) as (kept & H1 & H2 & _).
  exists kept. split; assumption.
Defined.

Lemma In_popular (db : RS.database) (limit : Z) (rec : RS.recommendation) :
  In rec (RS._get_popular_products db limit) -> popular_entry db limit rec.
Proof.
  unfold RS._get_popular_products, popular_entry. intros H.
  destruct (RS.aggregate_popular db limit) as [popular | e]; [| destruct H].
  apply in_map_iff in H. destruct H as ([p c] & <- & Hin). cbn.
  repeat split. exists popular, c. repeat split. exact Hin.
Qed.

Lemma popular_entry_enriched (db : RS.database) (limit : Z)
    (recs : list RS.recommendation) :
  (forall rec, In rec recs -> popular_entry db limit rec) ->
  forall rec, In rec (take limit (RS._enrich_recommendations db recs)) ->
              popular_entry db limit rec.
Proof.
  intros Hall rec Hin.
  apply (sublist_In _ _ _ (sublist_take _ _)) in Hin.
  destruct (In_enrich db recs rec Hin) as (rec0 & H0 & Hp & Hs & Ha & Hr & Hc).
  destruct (Hall rec0 H0) as (Ha0 & Hr0 & Hc0 & popular & count & Hq & Hpc & Hsc).
  unfold popular_entry. rewrite Ha, Hr, Hc, Hp, Hs.
  split; [exact Ha0 |]. split; [exact Hr0 |]. split; [exact Hc0 |].
  exists popular, count. repeat split; assumption.
Qed.

(** While neither filter is trained, whatever the algorithm asked for, every
    recommendation is a popularity recommendation: its product and its score
    (the interaction count) come from the popularity query. *)
Theorem untrained_filters_give_popular_products :
  forall (db : RS.database) (self : RS.t) (user_id : string)
         (ui : list CBF.user_interaction) (limit : Z) (algorithm_ : option string),
    CF.is_trained (RS.collaborative_filter self) = false ->
    CBF.is_trained (RS.content_filter self) = false ->
    RS.candidates self user_id ui limit algorithm_ = []
    /\ forall rec, In rec (RS.rank db self user_id ui limit algorithm_) ->
                   popular_entry db limit rec.
Proof.
  intros db self user_id ui limit algorithm_ H1 H2.
  assert (Hc : RS.candidates self user_id ui limit algorithm_ = []).
  { unfold RS.candidates. rewrite H1, H2. rewrite !andb_false_r. reflexivity. }
  split; [exact Hc |].
  unfold RS.rank. rewrite Hc.
  replace (match algorithm_ with
           | Some _ | _ => @nil RS.recommendation
           end) with (@nil RS.recommendation) by (destruct algorithm_; reflexivity).
  apply popular_entry_enriched. intros rec. apply In_popular.
Qed.

Lemma untrained_filters_give_popular_products_witness :
  RS.candidates PartialFailure.service "u1" [] 5 None = [].
Proof.
  apply (untrained_filters_give_popular_products Popular.db
           PartialFailure.service "u1" [] 5 None); reflexivity.
Defined.

Lemma In_candidate (a r : string) (l : list (string * R)) (rec : RS.recommendation) :
  In rec (map (RS.candidate a r) l) ->
  RS.algorithm rec = a /\ RS.contributing_algorithms rec = None.
Proof.
  intros H. apply in_map_iff in H. destruct H as (ps & <- & _). split; reflexivity.
Qed.

(** When one algorithm is asked for by name, no recommendation is a hybrid
    one or lists contributing algorithms: every recommendation comes from the
    filter asked for or is a popularity recommendation, and a name that is
    neither ['collaborative'] nor ['content'] gives popularity recommendations
    only. *)
Theorem named_algorithm_is_never_blended :
  forall (db : RS.database) (self : RS.t) (user_id : string)
         (ui : list CBF.user_interaction) (limit : Z) (a : string)
         (rec : RS.recommendation),
    In rec (RS.rank db self user_id ui limit (Some a)) ->
    RS.contributing_algorithms rec = None
    /\ RS.algorithm rec <> "hybrid"
    /\ (a = "collaborative" ->
        RS.algorithm rec = "collaborative_filtering" \/ popular_entry db limit rec)
    /\ (a = "content" ->
        RS.algorithm rec = "content_based_filtering" \/ popular_entry db limit rec)
    /\ (a <> "collaborative" -> a <> "content" -> popular_entry db limit rec).
Proof.
  intros db self user_id ui limit a rec Hin.
  assert (Hcases :
    (exists rec0, In rec0 (RS.candidates self user_id ui limit (Some a))
                  /\ RS.algorithm rec = RS.algorithm rec0
                  /\ RS.contributing_algorithms rec = RS.contributing_algorithms rec0)
    \/ popular_entry db limit rec).
  { unfold RS.rank in Hin.
    destruct (RS.candidates self user_id ui limit (Some a)) as [|c cs] eqn:Hc.
    - right. revert Hin. apply popular_entry_enriched. intros r. apply In_popular.
    - left. apply (sublist_In _ _ _ (sublist_take _ _)) in Hin.
      destruct (In_enrich db _ rec Hin) as (rec0 & H0 & _ & _ & Ha & _ & Hca).
      exists rec0. repeat split; assumption. }
  assert (Hcand : forall rec0,
            In rec0 (RS.candidates self user_id ui limit (Some a)) ->
            RS.contributing_algorithms rec0 = None
            /\ ((a = "collaborative" /\ RS.algorithm rec0 = "collaborative_filtering")
                \/ (a = "content" /\ RS.algorithm rec0 = "content_based_filtering"))).
  { intros rec0 H0. unfold RS.candidates in H0. apply in_app_or in H0.
    destruct H0 as [H0 | H0].
    - destruct (String.eqb a "collaborative") eqn:E; [| destruct H0].
      apply String.eqb_eq in E.
      destruct (CF.is_trained (RS.collaborative_filter self)); [| destruct H0].
      cbn [andb] in H0. destruct (In_candidate _ _ _ _ H0) as [Ha Hca].
      split; [exact Hca | left; split; assumption].
    - destruct (String.eqb a "content") eqn:E; [| destruct H0].
      apply String.eqb_eq in E.
      destruct (CBF.is_trained (RS.content_filter self)); [| destruct H0].
      destruct ui as [|u ui0]; [destruct H0 |].
      cbn [andb negb] in H0. destruct (In_candidate _ _ _ _ H0) as [Ha Hca].
      split; [exact Hca | right; split; assumption]. }
  destruct Hcases as [(rec0 & H0 & Ha & Hca) | Hpop].
  - destruct (Hcand rec0 H0) as [Hnone Halg]. rewrite Ha, Hca.
    split; [exact Hnone |].
    destruct Halg as [[-> ->] | [-> ->]].
    + split; [discriminate |]. split; [intros _; left; reflexivity |].
      split; [discriminate |]. intros Hc. contradiction.
    + split; [discriminate |]. split; [discriminate |].
      split; [intros _; left; reflexivity |]. intros _ Hc. contradiction.
  - pose proof Hpop as (Ha & _ & Hca & _).
    split; [exact Hca |]. split; [rewrite Ha; discriminate |].
    split; [intros _; right; exact Hpop |].
    split; [intros _; right; exact Hpop |]. intros _ _. exact Hpop.
Qed.

Lemma popular_rank (algorithm_ : option string) :
  In Popular.p0 (RS.rank Popular.db PartialFailure.service "u1" [] 5 algorithm_).
Proof.
  unfold RS.rank.
  assert (Hc : RS.candidates PartialFailure.service "u1" [] 5 algorithm_ = []).
  { unfold RS.candidates. cbn. rewrite !andb_false_r. reflexivity. }
  rewrite Hc.
  replace (match algorithm_ with
           | Some _ | _ => @nil RS.recommendation
           end) with (@nil RS.recommendation) by (destruct algorithm_; reflexivity).
  left. reflexivity.
Qed.

Lemma named_algorithm_is_never_blended_witness :
  In Popular.p0 (RS.rank Popular.db PartialFailure.service "u1" [] 5 (Some "content"))
  /\ RS.algorithm Popular.p0 <> "hybrid".
Proof.
  split; [apply popular_rank |].
  apply (named_algorithm_is_never_blended Popular.db PartialFailure.service "u1" []
           5 "content" Popular.p0 (popular_rank (Some "content"))).
Defined.

(** ** The hybrid step, product by product *)

Lemma fold_absorb (p : string) (l : list RS.recommendation) (e : RS.combined) :
  exists e', fold_left (absorb p) l (Some e) = Some e'
    /\ RS.c_productId e' = RS.c_productId e
    /\ RS.total_score e' = RS.total_score e + sum (map RS.score l)
    /\ RS.algorithms e' = RS.algorithms e ++ map RS.algorithm l.
Proof.
  revert e. induction l as [|r l IH]; intros e; cbn [fold_left].
  - exists e. split; [reflexivity |]. split; [reflexivity |].
    split; [cbn; lra | cbn; rewrite app_nil_r; reflexivity].
  - cbn [absorb].
    destruct (IH {| RS.c_productId := RS.c_productId e;
                    RS.total_score := RS.total_score e + RS.score r;
                    RS.algorithms := RS.algorithms e ++ [RS.algorithm r];
                    RS.reasons := RS.reasons e ++ [RS.reason r] |})
      as (e' & Hf & Hp & Hs & Ha).
    exists e'. split; [exact Hf |]. cbn in Hp, Hs, Ha.
    split; [exact Hp |]. split.
    + rewrite Hs. cbn. unfold sum. lra.
    + rewrite Ha, <- app_assoc. reflexivity.
Qed.

Lemma group_entry (recs : list RS.recommendation) (p : string) (e : RS.combined) :
  dict_get String.eqb (RS.group_by_product recs) p = Some e ->
  entries_for p recs <> []
  /\ RS.c_productId e = p
  /\ RS.total_score e = sum (map RS.score (entries_for p recs))
  /\ RS.algorithms e = map RS.algorithm (entries_for p recs).
Proof.
  unfold RS.group_by_product. rewrite get_group. cbn [dict_get].
  destruct (entries_for p recs) as [|r l]; cbn [fold_left]; [discriminate |].
  intros H. split; [discriminate |].
  set (e0 := {| RS.c_productId := p; RS.total_score := 0 + RS.score r;
                RS.algorithms := [] ++ [RS.algorithm r];
                RS.reasons := [] ++ [RS.reason r] |}).
  assert (H0 : absorb p None r = Some e0) by reflexivity.
  rewrite H0 in H.
  destruct (fold_absorb p l e0) as (e' & Hf & Hp & Hs & Ha).
  rewrite Hf in H. injection H as <-. subst e0.
  cbn in Hp, Hs, Ha. split; [exact Hp |]. split.
  - rewrite Hs. cbn. unfold sum. lra.
  - rewrite Ha. reflexivity.
Qed.

Lemma NoDup_sublist {A} (l1 l2 : list A) : sublist l1 l2 -> NoDup l2 -> NoDup l1.
Proof.
  induction 1 as [| x l1 l2 H IH | x l1 l2 H IH]; intros Hnd.
  - constructor.
  - inversion Hnd; subst. apply IH. assumption.
  - inversion Hnd as [|? ? Hx Hnd']; subst. constructor; [| apply IH; exact Hnd'].
    intros Hin. apply Hx. exact (sublist_In _ _ _ H Hin).
Qed.

Lemma grouped_ids (recs : list RS.recommendation) :
  map RS.c_productId (dict_values (RS.group_by_product recs))
  = dict_keys (RS.group_by_product recs).
Proof.
  destruct (group_invariant recs [] (NoDup_nil _) (Forall_nil _)) as [_ HF].
  fold (RS.group_by_product recs) in HF.
  unfold dict_values, dict_keys. rewrite map_map.
  induction HF as [|kv d Hkv HF IH]; cbn; [reflexivity |].
  rewrite Hkv, IH. reflexivity.
Qed.

Lemma hybrid_form_ids (L : list RS.combined) (l : list RS.recommendation) :
  Forall2 hybrid_form L l -> map RS.productId l = map RS.c_productId L.
Proof.
  induction 1 as [| e rec L l (Hp & _) HF IH]; cbn; [reflexivity |].
  rewrite Hp, IH. reflexivity.
Qed.

(** In hybrid mode with candidates and a limit of at least 1, no product is
    recommended twice, and every recommendation is the blend of the candidates
    for its product: it has at least one, its score is the sum of their
    scores, and its contributing algorithms are theirs, in the order the
    candidates were proposed. *)
Theorem hybrid_blends_candidates_by_product :
  forall (db : RS.database) (self : RS.t) (user_id : string)
         (ui : list CBF.user_interaction) (limit : Z),
    (1 <= limit)%Z ->
    RS.candidates self user_id ui limit None <> [] ->
    let proposed := RS.candidates self user_id ui limit None in
    let final := RS.rank db self user_id ui limit None in
    NoDup (map RS.productId final)
    /\ forall rec, In rec final ->
         entries_for (RS.productId rec) proposed <> []
         /\ RS.score rec = sum (map RS.score (entries_for (RS.productId rec) proposed))
         /\ RS.contributing_algorithms rec
            = Some (map RS.algorithm (entries_for (RS.productId rec) proposed)).
Proof.
  intros db self user_id ui limit Hlimit Hne proposed final.
  destruct (rank_hybrid db self user_id ui limit Hlimit Hne) as (L & Hsub & HF).
  fold final in HF.
  destruct (group_invariant proposed [] (NoDup_nil _) (Forall_nil _)) as [Hnd Hid].
  fold (RS.group_by_product proposed) in Hnd, Hid.
  split.
  - rewrite (hybrid_form_ids L final HF).
    apply (NoDup_sublist _ (map RS.c_productId (blended self user_id ui limit))).
    + apply sublist_map. exact Hsub.
    + unfold blended, sorted_reverse. fold proposed.
      eapply Permutation_NoDup.
      * apply Permutation_map. symmetry. apply Permutation_sort_by.
      * rewrite grouped_ids. exact Hnd.
  - intros rec Hrec.
    destruct (Forall2_In_r _ _ _ _ HF Hrec) as (e & He & Hp & Hs & _ & Hc).
    apply (sublist_In _ _ _ Hsub) in He.
    unfold blended, sorted_reverse in He. apply In_sort_by in He.
    fold proposed in He. unfold dict_values in He. apply in_map_iff in He.
    destruct He as ([k e0] & Hk & Hin). cbn in Hk. subst e0.
    pose proof (In_dict_get String.eqb string_eqb_spec _ _ _ Hnd Hin) as Hget.
    destruct (group_entry proposed k e Hget) as (Hne' & Hk & Hsum & Halg).
    rewrite Hp, Hk, Hs, Hc, Hsum, Halg. repeat split. exact Hne'.
Qed.

Lemma hybrid_candidates_nonempty :
  RS.candidates Hybrid.service "u2" Hybrid.viewed 2 None <> [].
Proof.
  assert (Ht : CF.is_trained Ties.trained = true).
  { destruct ties_trained as (e & _ & ->). reflexivity. }
  unfold RS.candidates. cbn [RS.collaborative_filter Hybrid.service andb].
  rewrite Ht, ties_recommendations. discriminate.
Qed.

Lemma hybrid_blends_candidates_by_product_witness :
  NoDup (map RS.productId
           (RS.rank (Hybrid.db Hybrid.full_catalog) Hybrid.service "u2"
              Hybrid.viewed 2 None)).
Proof.
  apply (hybrid_blends_candidates_by_product (Hybrid.db Hybrid.full_catalog)
           Hybrid.service "u2" Hybrid.viewed 2).
  - lia.
  - exact hybrid_candidates_nonempty.
Defined.

(** ** Tracking interactions *)

(** [track_interaction] stores nothing unless it returns an id: an
    interaction type outside ['view'], ['cart_add'], ['purchase'] raises before
    any id is parsed or anything is stored, and whenever the call raises the
    collection is the one it started with.  When it returns, the type is one
    of the three and the collection is the one [insert_one] gives for a
    document with that type, the two parsed ids, the time read and the
    session id. *)
Theorem track_interaction_stores_valid_types_only :
  forall (drv : IS.driver) (collection : list IS.document)
         (user_id product_id interaction_type : string)
         (session_id : option string) (utcnow : Z),
    let run := IS.track_interaction drv collection user_id product_id
                 interaction_type session_id utcnow in
    (~ In interaction_type IS.valid_types ->
       exists e, run = (collection, Raise e))
    /\ (forall e, snd run = Raise e -> fst run = collection)
    /\ (forall id, snd run = Ok id ->
          In interaction_type IS.valid_types
          /\ exists uid pid,
               IS.ObjectId drv user_id = Ok uid
               /\ IS.ObjectId drv product_id = Ok pid
               /\ IS.insert_one drv
                    {| IS.userId := uid; IS.productId := pid;
                       IS.interactionType := interaction_type;
                       IS.timestamp := utcnow; IS.sessionId := session_id |}
                    collection = Ok (id, fst run)).
Proof.
  intros drv collection user_id product_id interaction_type session_id utcnow run.
  subst run. unfold IS.track_interaction.
  destruct (existsb (String.eqb interaction_type) IS.valid_types) eqn:Hv; cbn [negb].
  - assert (Hin : In interaction_type IS.valid_types).
    { apply existsb_exists in Hv. destruct Hv as (x & Hx & Heq).
      apply String.eqb_eq in Heq. subst x. exact Hx. }
    split; [intros Hn; contradiction |].
    destruct (IS.ObjectId drv user_id) as [uid | e1].
    2:{ split; [reflexivity | discriminate]. }
    destruct (IS.ObjectId drv product_id) as [pid | e2].
    2:{ split; [reflexivity | discriminate]. }
    destruct (IS.insert_one drv _ collection) as [[inserted collection'] | e3] eqn:Hins.
    2:{ split; [reflexivity | discriminate]. }
    split; [discriminate |]. cbn [fst snd]. intros id [= <-].
    split; [exact Hin |]. exists uid, pid. repeat split. exact Hins.
  - split; [intros _; eexists; reflexivity |].
    split; [reflexivity | discriminate].
Qed.

Lemma track_interaction_stores_valid_types_only_witness :
  exists e, IS.track_interaction Tracking.drv [] "u1" "p1" "like" None 0
            = ([], Raise e).
Proof.
  apply (track_interaction_stores_valid_types_only Tracking.drv [] "u1" "p1" "like"
           None 0).
  cbn. intros [H | [H | [H | []]]]; discriminate.
Defined.

Lemma track_interaction_outcome (drv : IS.driver) (collection : list IS.document)
    (user_id product_id interaction_type : string) (session_id : option string)
    (utcnow : Z) :
  (exists e, IS.track_interaction drv collection user_id product_id interaction_type
               session_id utcnow = (collection, Raise e))
  \/ (In interaction_type IS.valid_types
      /\ exists id collection',
           IS.track_interaction drv collection user_id product_id interaction_type
             session_id utcnow = (collection', Ok id)).
Proof.
  unfold IS.track_interaction.
  destruct (existsb (String.eqb interaction_type) IS.valid_types) eqn:Hv; cbn [negb].
  - assert (Hin : In interaction_type IS.valid_types).
    { apply existsb_exists in Hv. destruct Hv as (x & Hx & Heq).
      apply String.eqb_eq in Heq. subst x. exact Hx. }
    destruct (IS.ObjectId drv user_id) as [uid | e1]; [| left; eexists; reflexivity].
    destruct (IS.ObjectId drv product_id) as [pid | e2]; [| left; eexists; reflexivity].
    destruct (IS.insert_one drv _ collection) as [[inserted collection'] | e3];
      [| left; eexists; reflexivity].
    right. split; [exact Hin |]. exists inserted, collection'. reflexivity.
  - left. eexists. reflexivity.
Qed.

(** The route [POST /interactions] on a JSON object with string values.  It
    answers 400 exactly when one of [userId], [productId], [interactionType]
    is missing; it answers 200 only for one of the three interaction types;
    unless it answers 200 nothing is stored; and with every field present, an
    interaction type outside the three gives the 500 answer
    [INTERACTION_ERROR], not a validation error. *)
Theorem track_route_answers :
  forall (drv : IS.driver) (collection : list IS.document)
         (d : dict string string) (utcnow : Z),
    let run := App.track_interaction drv collection (Some d) utcnow in
    (http_status (snd run) = 400%Z
     <-> exists field, In field App.required_fields
                       /\ dict_in String.eqb d field = false)
    /\ (http_status (snd run) = 200%Z ->
        exists ty, dict_get String.eqb d "interactionType" = Some ty
                   /\ In ty IS.valid_types)
    /\ (http_status (snd run) <> 200%Z -> fst run = collection)
    /\ (forall ty,
          (forall field, In field App.required_fields ->
                         dict_in String.eqb d field = true) ->
          dict_get String.eqb d "interactionType" = Some ty ->
          ~ In ty IS.valid_types ->
          snd run = (500%Z, App.Failure "INTERACTION_ERROR" "Failed to track interaction")).
Proof.
  intros drv collection d utcnow run. subst run.
  unfold App.track_interaction, App.required_fields, http_status, dict_in.
  cbn [find].
  destruct (dict_get String.eqb d "userId") as [u |] eqn:Eu; cbn [negb].
  2:{ cbn [fst snd]. split.
      - split; [| reflexivity]. intros _. exists "userId".
        split; [left; reflexivity |]. rewrite Eu. reflexivity.
      - split; [discriminate |]. split; [reflexivity |].
        intros ty Hall. specialize (Hall "userId" (or_introl eq_refl)).
        rewrite Eu in Hall. discriminate. }
  destruct (dict_get String.eqb d "productId") as [p |] eqn:Ep; cbn [negb].
  2:{ cbn [fst snd]. split.
      - split; [| reflexivity]. intros _. exists "productId".
        split; [right; left; reflexivity |]. rewrite Ep. reflexivity.
      - split; [discriminate |]. split; [reflexivity |].
        intros ty Hall. specialize (Hall "productId" (or_intror (or_introl eq_refl))).
        rewrite Ep in Hall. discriminate. }
  destruct (dict_get String.eqb d "interactionType") as [ty |] eqn:Et; cbn [negb].
  2:{ cbn [fst snd]. split.
      - split; [| reflexivity]. intros _. exists "interactionType".
        split; [right; right; left; reflexivity |]. rewrite Et. reflexivity.
      - split; [discriminate |]. split; [reflexivity |].
        intros ty Hall Hty. discriminate. }
  assert (Hno400 : ~ exists field,
             In field ["userId"; "productId"; "interactionType"]
             /\ match dict_get String.eqb d field with
                | Some _ => true
                | None => false
                end = false).
  { intros (field & [<- | [<- | [<- | []]]] & Hf).
    - rewrite Eu in Hf. discriminate.
    - rewrite Ep in Hf. discriminate.
    - rewrite Et in Hf. discriminate. }
  destruct (track_interaction_outcome drv collection u p ty
              (dict_get String.eqb d "sessionId") utcnow)
    as [(e & ->) | (Hin & id & collection' & ->)]; cbn [fst snd].
  - split; [split; [discriminate | intros H; contradiction] |].
    split; [discriminate |]. split; [reflexivity |]. reflexivity.
  - split; [split; [discriminate | intros H; contradiction] |].
    split; [intros _; exists ty; split; [reflexivity | exact Hin] |].
    split; [intros H; contradiction |].
    intros ty' _ [= <-] Hn. contradiction.
Qed.

Lemma track_route_answers_witness :
  snd (App.track_interaction Tracking.drv [] (Some (Tracking.request "like")) 0)
  = (500%Z, App.Failure "INTERACTION_ERROR" "Failed to track interaction").
Proof.
  destruct (track_route_answers Tracking.drv [] (Tracking.request "like") 0)
    as (_ & _ & _ & Hinvalid).
  apply (Hinvalid "like").
  - intros field [<- | [<- | [<- | []]]]; reflexivity.
  - reflexivity.
  - cbn. intros [H | [H | [H | []]]]; discriminate.
Defined.

Lemma dict_set_new {V} (d : dict string V) (k : string) (v : V) :
  ~ In k (dict_keys d) -> dict_set String.eqb d k v = d ++ [(k, v)].
Proof.
  unfold dict_keys. induction d as [|[k0 v0] d IH]; cbn; intros Hk; [reflexivity |].
  destruct (String.eqb k k0) eqn:E.
  - apply String.eqb_eq in E. subst k0. exfalso. apply Hk. left. reflexivity.
  - rewrite IH; [reflexivity |]. intros H. apply Hk. right. exact H.
Qed.

(** When the grouping query answers with one count per interaction type,
    none of them named ['total'], the statistics are those counts, in order,
    followed by their sum under ['total']; when the query raises, so does
    [get_interaction_stats]. *)
Theorem interaction_stats_total_is_sum :
  forall (answer : list (string * Z)),
    NoDup (map fst answer) ->
    ~ In "total" (map fst answer) ->
    IS.get_interaction_stats (Ok answer)
    = Ok (answer ++ [("total", fold_right Z.add 0%Z (map snd answer))])
    /\ forall e, IS.get_interaction_stats (Raise e) = Raise e.
Proof.
  intros answer Hnd Hnt. split; [| reflexivity].
  unfold IS.get_interaction_stats.
  rewrite (dict_of_distinct String.eqb string_eqb_spec answer Hnd).
  rewrite dict_set_new by exact Hnt. reflexivity.
Qed.

Lemma interaction_stats_total_is_sum_witness :
  IS.get_interaction_stats (Ok [("view", 4%Z); ("purchase", 1%Z)])
  = Ok [("view", 4%Z); ("purchase", 1%Z); ("total", 5%Z)].
Proof.
  apply (interaction_stats_total_is_sum [("view", 4%Z); ("purchase", 1%Z)]).
  - repeat constructor; cbn; intuition discriminate.
  - cbn. intros [H | [H | []]]; discriminate.
Defined.

(** ** Training the collaborative filter *)

Lemma sorted_unique_nonempty (l : list string) : l <> [] -> sorted_unique l <> [].
Proof.
  intros Hne. destruct l as [|x l]; [contradiction |].
  intros Hnil. assert (Hin : In x (sorted_unique (x :: l))).
  { apply In_sorted_unique. left. reflexivity. }
  rewrite Hnil in Hin. destruct Hin.
Qed.

Lemma pivot_values_size (df : list CF.scored) :
  df <> [] ->
  shape0 (CF.pivot_values df) = length (CF.pivot_index df)
  /\ shape1 (CF.pivot_values df) = length (CF.pivot_columns df)
  /\ size (CF.pivot_values df) <> 0%nat.
Proof.
  intros Hne.
  assert (Hu : CF.pivot_index df <> []).
  { apply sorted_unique_nonempty. destruct df; [contradiction | discriminate]. }
  assert (Hp : CF.pivot_columns df <> []).
  { apply sorted_unique_nonempty. destruct df; [contradiction | discriminate]. }
  unfold size, shape0, shape1, CF.pivot_values.
  destruct (CF.pivot_index df) as [|u us]; [contradiction |].
  destruct (CF.pivot_columns df) as [|p ps]; [contradiction |].
  cbn. rewrite !length_map. repeat split. lia.
Qed.

(** When rows survive the threshold, training the collaborative filter
    succeeds as soon as the reduction does: the reduction is only called when
    the matrix has more columns than [n_components], and if it then returns
    one row per user, the filter is trained, holds the pivot of the surviving
    rows as its user-item matrix, and its similarity matrix is symmetric with
    one row and one column per distinct user. *)
Theorem collaborative_train_builds_model :
  forall (svd : nat -> matrix -> result matrix) (self : CF.t)
         (xs : list CF.interaction),
    let df := CF.prepare_data self xs in
    let m := CF.pivot_values df in
    df <> [] ->
    ((CF.n_components self < shape1 m)%nat ->
     exists reduced, svd (CF.n_components self) m = Ok reduced
                     /\ length reduced = length m) ->
    let run := CF.train svd self xs in
    snd run = Ok tt
    /\ CF.is_trained (fst run) = true
    /\ CF.user_item_matrix (fst run) = Some m
    /\ exists sims,
         CF.user_similarity_matrix (fst run) = Some sims
         /\ square (length (CF.pivot_index df)) sims
         /\ symmetric sims.
Proof.
  intros svd self xs df m Hne Hsvd run.
  pose proof (cf_train_cases svd self xs) as Hrun. cbv zeta in Hrun.
  fold df in Hrun. fold run in Hrun. clearbody run. clearbody df.
  assert (Hm : snd (CF.create_user_item_matrix self df) = m).
  { unfold CF.create_user_item_matrix. destruct df; [contradiction | reflexivity]. }
  rewrite Hm in Hrun.
  destruct (pivot_values_size df Hne) as (H0 & H1 & Hsize). fold m in H0, H1, Hsize.
  assert (Hn : nonempty df = true) by (destruct df; [contradiction | reflexivity]).
  rewrite Hn in Hrun.
  apply Nat.eqb_neq in Hsize. rewrite Hsize in Hrun.
  assert (Hred : exists reduced,
            (if (CF.n_components self <? shape1 m)%nat
             then svd (CF.n_components self) m else Ok m) = Ok reduced
            /\ length reduced = length m).
  { destruct (CF.n_components self <? shape1 m)%nat eqn:E.
    - apply Nat.ltb_lt in E. exact (Hsvd E).
    - exists m. split; reflexivity. }
  destruct Hred as (reduced & Hred & Hlen). rewrite Hred in Hrun.
  rewrite Hrun. cbn [fst snd].
  split; [reflexivity |]. split; [reflexivity |].
  split; [reflexivity |].
  exists (cosine_similarity reduced). split; [reflexivity |]. split.
  - rewrite <- H0. unfold shape0. rewrite <- Hlen. apply cosine_similarity_square.
  - apply cosine_similarity_symmetric.
Qed.

Lemma collaborative_train_builds_model_witness :
  CF.is_trained (fst ZeroRow.run) = true.
Proof.
  destruct (collaborative_train_builds_model (fun _ m => Ok m) (CF.init 50 5)
              ZeroRow.history) as (_ & H & _).
  - rewrite zero_row_prepared. discriminate.
  - intros _. eexists. split; reflexivity.
  - exact H.
Defined.

(** ** A viewed product that is recommended *)

Lemma handle_zeros_pos (x : R) : 0 < x -> handle_zeros x = x.
Proof.
  intros Hx. unfold handle_zeros. destruct (Req_dec_T x 0) as [H | H]; [lra | reflexivity].
Qed.

Lemma viewed_similarity (e z : R) :
  e = 5 -> z = 0 ->
  exists s, 0 < s < 1 /\ cosine_similarity [[e; e]; [e; z]] = [[1; s]; [s; 1]].
Proof.
  intros -> ->.
  exists (dot (normalize_row [5; 5]) (normalize_row [5; 0])).
  assert (Ha : ~ all_zero [5; 5]).
  { intros H. inversion H; subst. lra. }
  assert (Hb : ~ all_zero [5; 0]).
  { intros H. inversion H; subst. lra. }
  split.
  - unfold normalize_row, row_norm. cbn [dot map].
    set (r := sqrt (5 * 5 + (5 * 5 + 0))).
    assert (Hrr : r * r = 50).
    { subst r. rewrite sqrt_sqrt; lra. }
    assert (Hr0 : 0 <= r) by (subst r; apply sqrt_pos).
    assert (Hr : 5 < r) by nra.
    replace (5 * 5 + (0 * 0 + 0)) with (5 * 5) by lra.
    rewrite sqrt_square by lra.
    rewrite (handle_zeros_pos r) by lra. rewrite (handle_zeros_pos 5) by lra.
    assert (Hi : 0 < / r) by (apply Rinv_0_lt_compat; lra).
    assert (Hri : r * / r = 1) by (apply Rinv_r; lra).
    replace (5 / r * (5 / 5) + (5 / r * (0 / 5) + 0)) with (5 * / r) by (field; lra).
    nra.
  - unfold cosine_similarity, cosine_similarity2. d_cbn.
    rewrite (proj2 (normalize_row_self [5; 5]) Ha).
    rewrite (proj2 (normalize_row_self [5; 0]) Hb).
    rewrite (dot_comm (normalize_row [5; 0]) (normalize_row [5; 5])).
    reflexivity.
Qed.

Lemma viewed_trained :
  exists e z s,
    e = 5 /\ z = 0 /\ 0 < s < 1
    /\ Viewed.trained
       = CF.set_is_trained true
           (CF.set_user_similarity_matrix [[1; s]; [s; 1]]
              (CF.set_user_item_matrix [[e; e]; [e; z]]
                 (CF.set_index_maps
                    [("a", 0%nat); ("b", 1%nat)]
                    [("pA", 0%nat); ("pB", 1%nat)]
                    [(0%nat, "a"); (1%nat, "b")]
                    [(0%nat, "pA"); (1%nat, "pB")]
                    (CF.init 50 5)))).
Proof.
  assert (H : exists e z,
             e = 5 /\ z = 0
             /\ Viewed.trained
                = CF.set_is_trained true
                    (CF.set_user_similarity_matrix
                       (cosine_similarity [[e; e]; [e; z]])
                       (CF.set_user_item_matrix [[e; e]; [e; z]]
                          (CF.set_index_maps
                             [("a", 0%nat); ("b", 1%nat)]
                             [("pA", 0%nat); ("pB", 1%nat)]
                             [(0%nat, "a"); (1%nat, "b")]
                             [(0%nat, "pA"); (1%nat, "pB")]
                             (CF.init 50 5))))).
  { do 2 eexists. refine (conj _ (conj _ _)).
    3:{ unfold Viewed.trained. rewrite cf_train_cases. cbv zeta.
        unfold CF.prepare_data, Viewed.history. r_eval. reflexivity. }
    - unfold mean, sum. cbn. lra.
    - unfold mean, sum. cbn. lra. }
  destruct H as (e & z & He & Hz & Ht).
  destruct (viewed_similarity e z He Hz) as (s & Hs & Hsim).
  exists e, z, s. rewrite Hsim in Ht. auto.
Qed.

Lemma viewed_recommendations :
  exists sc, 0 < sc
    /\ CF.get_user_recommendations Viewed.trained "b" 10 = [("pB", sc)].
Proof.
  destruct viewed_trained as (e & z & s & -> & -> & Hs & ->).
  unfold CF.get_user_recommendations, CF.item_scores_of, CF.top_items_idx, argsort.
  r_eval. eexists. split; [| reflexivity]. lra.
Qed.

(** ** A product both filters propose, in the final list *)

Lemma sublist_filter_both {A} (f : A -> bool) (l1 l2 : list A) :
  sublist l1 l2 -> sublist (filter f l1) (filter f l2).
Proof.
  induction 1 as [| x l1 l2 H IH | x l1 l2 H IH]; cbn.
  - constructor.
  - destruct (f x); [apply sublist_skip |]; exact IH.
  - destruct (f x); [apply sublist_keep |]; exact IH.
Qed.

Lemma filter_sublist_singleton {A} (f : A -> bool) (L B : list A) (e x : A) :
  sublist L B -> filter f B = [e] -> In x L -> f x = true -> filter f L = [e].
Proof.
  intros Hsub HB Hx Hfx.
  pose proof (sublist_filter_both f _ _ Hsub) as Hs. rewrite HB in Hs.
  assert (Hin : In x (filter f L)) by (apply filter_In; split; assumption).
  destruct (filter f L) as [|y l]; [destruct Hin |].
  inversion Hs as [| ? ? ? Hs' | ? ? ? Hs']; subst.
  - inversion Hs'.
  - inversion Hs'. reflexivity.
Qed.

Lemma take_all {A} (n : Z) (l : list A) :
  (Z.of_nat (length l) <= n)%Z -> take n l = l.
Proof.
  intros Hn. rewrite take_firstn by lia. apply firstn_all2. lia.
Qed.

Lemma entries_for_hybrid (p : string) (L : list RS.combined) :
  entries_for p (map RS.hybrid_of L)
  = map RS.hybrid_of (filter (fun e => String.eqb (RS.c_productId e) p) L).
Proof.
  unfold entries_for. induction L as [|e L IH]; cbn; [reflexivity |].
  destruct (String.eqb (RS.c_productId e) p); cbn; rewrite IH; reflexivity.
Qed.

(** Enrichment keeps the one entry of a product the catalog holds. *)
Lemma entries_for_enrich (db : RS.database) (recs : list RS.recommendation)
    (p : string) (rec0 : RS.recommendation) :
  entries_for p recs = [rec0] ->
  (forall found, RS.find_products_by_ids db (map RS.productId recs) = Ok found ->
                 In p (map fst found)) ->
  exists rec,
    entries_for p (RS._enrich_recommendations db recs) = [rec]
    /\ RS.score rec = RS.score rec0
    /\ RS.algorithm rec = RS.algorithm rec0
    /\ RS.contributing_algorithms rec = RS.contributing_algorithms rec0.
Proof.
  intros He Hcat. unfold RS._enrich_recommendations.
  destruct recs as [|r0 l0] eqn:El; [discriminate |].
  rewrite <- El in *. clear El r0 l0.
  destruct (RS.find_products_by_ids db (map RS.productId recs)) as [found | e].
  2:{ exists rec0. repeat split. exact He. }
  specialize (Hcat found eq_refl).
  apply (dict_of_in String.eqb string_eqb_spec) in Hcat. unfold dict_in in Hcat.
  destruct (dict_get String.eqb (dict_of String.eqb found) p) as [d |] eqn:Hd;
    [| discriminate].
  exists (RS.with_details rec0 d).
  split; [| repeat split].
  assert (Hp0 : RS.productId rec0 = p).
  { assert (Hin : In rec0 (entries_for p recs)) by (rewrite He; left; reflexivity).
    apply filter_In in Hin. apply String.eqb_eq. tauto. }
  set (g := fun rec : RS.recommendation =>
              match dict_get String.eqb (dict_of String.eqb found) (RS.productId rec) with
              | Some d0 => [RS.with_details rec d0]
              | None => []
              end).
  assert (Hg : forall l, entries_for p (flat_map g l) = flat_map g (entries_for p l)).
  { unfold entries_for. induction l as [|r l IH]; cbn [flat_map filter]; [reflexivity |].
    rewrite filter_app, IH.
    destruct (String.eqb (RS.productId r) p) eqn:E.
    - cbn [flat_map]. f_equal. unfold g.
      destruct (dict_get String.eqb (dict_of String.eqb found) (RS.productId r));
        [| reflexivity].
      cbn. rewrite E. reflexivity.
    - replace (filter (fun r1 => String.eqb (RS.productId r1) p) (g r)) with
        (@nil RS.recommendation); [reflexivity |].
      unfold g.
      destruct (dict_get String.eqb (dict_of String.eqb found) (RS.productId r));
        [| reflexivity].
      cbn. rewrite E. reflexivity. }
  fold g. rewrite Hg, He. cbn [flat_map]. unfold g. rewrite Hp0, Hd. reflexivity.
Qed.

Lemma rank_hybrid_enriched (db : RS.database) (self : RS.t) (user_id : string)
    (ui : list CBF.user_interaction) (limit : Z) :
  (0 <= limit)%Z ->
  RS.combine_hybrid (RS.candidates self user_id ui limit None) limit <> [] ->
  RS.rank db self user_id ui limit None
  = RS._enrich_recommendations db
      (RS.combine_hybrid (RS.candidates self user_id ui limit None) limit).
Proof.
  intros Hlimit Hne. unfold RS.rank.
  remember (RS.candidates self user_id ui limit None) as cands eqn:Ec.
  destruct cands as [|c cs].
  - exfalso. apply Hne. unfold RS.combine_hybrid, RS.group_by_product.
    cbn [fold_left dict_values map sorted_reverse sort_by fold_right].
    rewrite take_nil. reflexivity.
  - cbv beta iota zeta.
    remember (RS.combine_hybrid (c :: cs) limit) as hybrid eqn:Eh.
    destruct hybrid as [|h hs]; [contradiction |].
    apply take_all.
    pose proof (length_enrich db (h :: hs)) as H1.
    assert (H2 : (Z.of_nat (length (h :: hs)) <= limit)%Z).
    { rewrite Eh. unfold RS.combine_hybrid. rewrite length_map.
      apply length_take. exact Hlimit. }
    lia.
Qed.

(** C3 (as the code has it).  In hybrid mode, with a limit [>= 0], let both
    filters propose product [p], with scores [s1] and [s2] (each filter naming
    its columns differently).  The ranking of the grouped candidates holds
    exactly one entry for [p], with score [s1 + s2] and the two source
    algorithms in order.  The final list is made of hybrid forms of a sublist
    of that ranking: it holds at most one entry for [p]; such an entry has
    score [s1 + s2] and lists both algorithms; every entry is tagged
    ['hybrid']; the scores are in descending order.  When [p] is among the
    first [limit] products of the ranking and the catalog, if it answers,
    holds [p], the final list holds exactly one entry for [p], tagged
    ['hybrid'], with score [s1 + s2] and both algorithms. *)
Theorem C3_hybrid_merges_common_product :
  forall (db : RS.database) (sk : RS.sklearn) (self self1 : RS.t)
         (user_id : string) (limit : Z) (w w1 : RS.world)
         (final : list RS.recommendation) (ui : list CBF.user_interaction)
         (p : string) (s1 s2 : R),
    RS.get_recommendations db sk self user_id limit None w = (self1, w1, final) ->
    RS.get_user_interactions db user_id = Ok ui ->
    (0 <= limit)%Z ->
    In (p, s1)
       (CF.get_user_recommendations (RS.collaborative_filter self1) user_id limit) ->
    In (p, s2)
       (CBF.get_user_content_recommendations (RS.content_filter self1) ui limit) ->
    dict_injective (CF.reverse_item_map (RS.collaborative_filter self1)) ->
    dict_injective (CBF.reverse_product_map (RS.content_filter self1)) ->
    (length (entries_for p final) <= 1)%nat
    /\ (forall rec, In rec final -> RS.algorithm rec = "hybrid")
    /\ (forall rec, In rec final -> RS.productId rec = p ->
        RS.score rec = s1 + s2
        /\ RS.contributing_algorithms rec = Some both_algorithms)
    /\ StronglySorted (fun a b => RS.score b <= RS.score a) final
    /\ (exists e,
          filter (fun e => String.eqb (RS.c_productId e) p)
                 (blended self1 user_id ui limit) = [e]
          /\ RS.total_score e = s1 + s2
          /\ RS.algorithms e = both_algorithms)
    /\ (exists L, sublist L (blended self1 user_id ui limit)
                  /\ Forall2 hybrid_form L final)
    /\ (In p (map RS.c_productId (take limit (blended self1 user_id ui limit))) ->
        (forall found,
           RS.find_products_by_ids db
             (map RS.productId
                (RS.combine_hybrid (RS.candidates self1 user_id ui limit None) limit))
           = Ok found ->
           In p (map fst found)) ->
        exists rec,
          entries_for p final = [rec]
          /\ RS.score rec = s1 + s2
          /\ RS.algorithm rec = "hybrid"
          /\ RS.contributing_algorithms rec = Some both_algorithms).
Proof.
  intros db sk self self1 user_id limit w w1 final ui p s1 s2
         Hrun Hui Hlimit Hin1 Hin2 Hinj1 Hinj2.
  unfold RS.get_recommendations in Hrun.
  destruct (RS.auto_train db sk self w) as [self1' w1'].
  rewrite Hui in Hrun. injection Hrun as -> -> <-.
  assert (Hpos : (1 <= limit)%Z).
  { destruct (recommended_columns (RS.collaborative_filter self1) user_id limit)
      as (s & cols & Hl & _ & _ & Hn & _).
    pose proof (Forall2_length Hl) as Hlen.
    destruct (CF.get_user_recommendations (RS.collaborative_filter self1) user_id limit);
      [contradiction |].
    cbn [length] in Hlen. specialize (Hn Hlimit). lia. }
  destruct (common_product_entry self1 user_id ui limit p s1 s2 Hin1 Hin2 Hinj1 Hinj2)
    as (Hne & e & Hfilter & Hp & Hscore & Halg).
  destruct (rank_hybrid db self1 user_id ui limit Hpos Hne) as (L & Hsub & HL).
  split.
  { rewrite (hybrid_form_entries p L _ HL).
    pose proof (sublist_filter_length
                  (fun e => String.eqb (RS.c_productId e) p) _ _ Hsub) as Hle.
    rewrite Hfilter in Hle. exact Hle. }
  split.
  { intros rec Hrec. destruct (Forall2_In_r _ _ _ _ HL Hrec) as (e' & _ & _ & _ & H & _).
    exact H. }
  split.
  { intros rec Hrec Hrp.
    destruct (Forall2_In_r _ _ _ _ HL Hrec) as (e' & He' & H1 & H2 & _ & H4).
    assert (Hin : In e' (filter (fun e => String.eqb (RS.c_productId e) p)
                           (blended self1 user_id ui limit))).
    { apply filter_In. split; [eapply sublist_In; eassumption |].
      apply String.eqb_eq. congruence. }
    rewrite Hfilter in Hin. destruct Hin as [<- | []].
    split; [congruence | congruence]. }
  split.
  { refine (Forall2_sorted hybrid_form
              (fun a b => RS.total_score b <= RS.total_score a) _ L _ _ HL _).
    - intros i j a b (_ & Ha & _) (_ & Hb & _) H. lra.
    - eapply sublist_StronglySorted; [exact Hsub |].
      apply sorted_reverse_descending. }
  split.
  { exists e. repeat split; assumption. }
  split.
  { exists L. split; assumption. }
  intros Hwithin Hcat.
  set (top := take limit (blended self1 user_id ui limit)) in *.
  assert (Hcomb : RS.combine_hybrid (RS.candidates self1 user_id ui limit None) limit
                  = map RS.hybrid_of top).
  { reflexivity. }
  assert (Htop : filter (fun e => String.eqb (RS.c_productId e) p) top = [e]).
  { apply in_map_iff in Hwithin. destruct Hwithin as (x & Hx & Hxin).
    apply (filter_sublist_singleton _ top (blended self1 user_id ui limit) e x).
    - apply sublist_take.
    - exact Hfilter.
    - exact Hxin.
    - apply String.eqb_eq. exact Hx. }
  assert (Hent : entries_for p
                   (RS.combine_hybrid (RS.candidates self1 user_id ui limit None) limit)
                 = [RS.hybrid_of e]).
  { rewrite Hcomb, entries_for_hybrid, Htop. reflexivity. }
  destruct (entries_for_enrich db _ p _ Hent Hcat) as (rec & Hrec & Hs & Ha & Hc).
  assert (Hrank : RS.rank db self1 user_id ui limit None
                  = RS._enrich_recommendations db
                      (RS.combine_hybrid (RS.candidates self1 user_id ui limit None)
                         limit)).
  { apply rank_hybrid_enriched; [exact Hlimit |].
    intros Hnil. rewrite Hnil in Hent. discriminate Hent. }
  rewrite Hrank. exists rec. split; [exact Hrec |].
  rewrite Hs, Ha, Hc. cbn. rewrite Hscore, Halg. repeat split.
Qed.

Lemma hybrid_candidates :
  RS.candidates Hybrid.service "u2" Hybrid.viewed 2 None
  = [ RS.candidate "collaborative_filtering"
        "Users with similar preferences also liked this" ("p2", 1);
      RS.candidate "collaborative_filtering"
        "Users with similar preferences also liked this" ("p1", 1);
      RS.candidate "content_based_filtering" "Based on products you have viewed"
        ("p1", 1) ].
Proof.
  assert (Ht : CF.is_trained Ties.trained = true).
  { destruct ties_trained as (e & _ & ->). reflexivity. }
  assert (Hc : CBF.is_trained Twins.trained = true).
  { destruct twins_trained as (f & _ & ->). reflexivity. }
  unfold RS.candidates.
  cbn [RS.collaborative_filter RS.content_filter Hybrid.service andb].
  rewrite Ht, Hc, ties_recommendations, hybrid_content_recommendations.
  reflexivity.
Qed.

Lemma hybrid_top :
  map RS.c_productId (take 2 (blended Hybrid.service "u2" Hybrid.viewed 2))
  = ["p1"; "p2"].
Proof.
  unfold blended. rewrite hybrid_candidates.
  unfold RS.group_by_product, sorted_reverse, sort_by. r_eval. reflexivity.
Qed.

Lemma C3_hybrid_merges_common_product_witness :
  exists rec,
    entries_for "p1"
      (RS.rank (Hybrid.db Hybrid.full_catalog) Hybrid.service "u2" Hybrid.viewed 2 None)
    = [rec]
    /\ RS.score rec = 1 + 1
    /\ RS.algorithm rec = "hybrid"
    /\ RS.contributing_algorithms rec = Some both_algorithms.
Proof.
  assert (Hrun : RS.get_recommendations (Hybrid.db Hybrid.full_catalog) Hybrid.sk
                   Hybrid.service "u2" 2 None Hybrid.w
                 = (Hybrid.service, snd (RS.utcnow Hybrid.w),
                    RS.rank (Hybrid.db Hybrid.full_catalog) Hybrid.service "u2"
                      Hybrid.viewed 2 None)).
  { unfold RS.get_recommendations. rewrite hybrid_no_auto_train. reflexivity. }
  assert (Hin1 : In ("p1", 1)
                   (CF.get_user_recommendations
                      (RS.collaborative_filter Hybrid.service) "u2" 2)).
  { cbn [RS.collaborative_filter Hybrid.service].
    rewrite ties_recommendations. right. left. reflexivity. }
  assert (Hin2 : In ("p1", 1)
                   (CBF.get_user_content_recommendations
                      (RS.content_filter Hybrid.service) Hybrid.viewed 2)).
  { cbn [RS.content_filter Hybrid.service].
    rewrite hybrid_content_recommendations. left. reflexivity. }
  assert (Hinj1 : dict_injective
                    (CF.reverse_item_map (RS.collaborative_filter Hybrid.service))).
  { cbn [RS.collaborative_filter Hybrid.service].
    destruct ties_trained as (e & _ & ->). intros i k q. cbn.
    destruct i as [|[|[|i]]], k as [|[|[|k]]]; cbn; congruence. }
  assert (Hinj2 : dict_injective
                    (CBF.reverse_product_map (RS.content_filter Hybrid.service))).
  { cbn [RS.content_filter Hybrid.service].
    destruct twins_trained_shape as (x & ->). intros i k q. cbn.
    destruct i as [|[|i]], k as [|[|k]]; cbn; congruence. }
  destruct (C3_hybrid_merges_common_product (Hybrid.db Hybrid.full_catalog) Hybrid.sk
              Hybrid.service Hybrid.service "u2" 2 Hybrid.w _ _ Hybrid.viewed
              "p1" 1 1 Hrun eq_refl ltac:(lia) Hin1 Hin2 Hinj1 Hinj2)
    as (_ & _ & _ & _ & _ & _ & Hpresent).
  apply Hpresent.
  - rewrite hybrid_top. left. reflexivity.
  - intros found Hfound.
    cbn [Hybrid.db RS.find_products_by_ids] in Hfound. injection Hfound as <-.
    unfold Hybrid.full_catalog. rewrite map_map. cbn [fst Hybrid.item].
    rewrite map_id.
    change (RS.combine_hybrid (RS.candidates Hybrid.service "u2" Hybrid.viewed 2 None) 2)
      with (map RS.hybrid_of (take 2 (blended Hybrid.service "u2" Hybrid.viewed 2))).
    rewrite map_map.
    change (map (fun x => RS.productId (RS.hybrid_of x))
              (take 2 (blended Hybrid.service "u2" Hybrid.viewed 2)))
      with (map RS.c_productId (take 2 (blended Hybrid.service "u2" Hybrid.viewed 2))).
    rewrite hybrid_top. left. reflexivity.
Defined.

(** ** A viewed product in the recommendations *)

(** C4 (fails on the code).  In [Viewed], user ["b"] viewed product ["pB"]
    and the record is part of the training data, which all passes the
    threshold of the default configuration.  The first record holds no view,
    so views score 0: the entry of ["pB"] in the row of ["b"] is 0, nothing
    forces its score to zero, and [get_user_recommendations] returns ["pB"]
    for ["b"] (and nothing else). *)
Theorem C4_viewed_product_is_recommended :
  In (Scoring.record "b" "pB" 1 ["view"]) Viewed.history
  /\ CF.is_trained Viewed.trained = true
  /\ dict_get String.eqb (CF.user_index_map Viewed.trained) "b" = Some 1%nat
  /\ dict_get String.eqb (CF.item_index_map Viewed.trained) "pB" = Some 1%nat
  /\ (exists uim, CF.user_item_matrix Viewed.trained = Some uim /\ entry uim 1 1 = 0)
  /\ exists sc, 0 < sc
       /\ CF.get_user_recommendations Viewed.trained "b" 10 = [("pB", sc)].
Proof.
  split; [right; right; right; left; reflexivity |].
  split; [destruct viewed_trained as (e & z & s & _ & _ & _ & ->); reflexivity |].
  split; [destruct viewed_trained as (e & z & s & _ & _ & _ & ->); reflexivity |].
  split; [destruct viewed_trained as (e & z & s & _ & _ & _ & ->); reflexivity |].
  split; [| exact viewed_recommendations].
  destruct viewed_trained as (e & z & s & _ & Hz & _ & ->).
  eexists. split; [reflexivity |]. exact Hz.
Qed.
